(** * StockMind: behavioural analytics of a paper-trading platform

    A shallow embedding of the scoring engine, the mentor pattern detector,
    the challenge tracker and the persistence calls they rest on
    (src/python/scoring_engine.py, mentor_engine.py, challenges.py,
    database.py, server.py), with the properties the specification states
    about them.

    Conventions of the embedding.
    - A Python float or int that carries a money amount, a price or a score
      is a rational ([Q]): arithmetic is exact, so the rounding error of
      IEEE doubles is outside the model.
    - A division whose divisor is a variable is [pydiv], which raises
      [ZeroDivisionError] on a zero divisor as Python does; a division by a
      non-zero literal is the plain division of [Q].
    - A function that can raise returns a [pyres]; a function that talks to
      the database runs in the state-and-exception monad [db_m].
    - A row read from SQLite is a record: every column the code reads is
      declared NOT NULL except where the record has an [option] field, so the
      defaults of [dict.get] for a missing key are not exercised.
    - [datetime.fromisoformat] is the standard library's; it is a parameter
      of the development ([None] stands for the [ValueError] it raises on a
      malformed string).  Every timestamp the server stores comes from
      [datetime.utcnow().isoformat()], so a parsed [datetime] is naive: it is
      the number of microseconds since the epoch. *)

From Stdlib Require Import ZArith QArith Qminmax Qround Qabs List String Ascii Bool.
From Stdlib Require Import Lia Lqa Permutation.
Import ListNotations.

Open Scope Q_scope.

(** ** Python results and exceptions *)

Inductive exn : Type :=
| ZeroDivisionError
| StatisticsError
| IntegrityError.

Inductive pyres (A : Type) : Type :=
| Ret (a : A)
| Raise (e : exn).

Arguments Ret {A} a.
Arguments Raise {A} e.

Definition pybind {A B : Type} (c : pyres A) (k : A -> pyres B) : pyres B :=
  match c with
  | Ret a => k a
  | Raise e => Raise e
  end.

Notation "x <- c ;; k" := (pybind c (fun x => k))
  (at level 61, c at next level, right associativity).

(** ** Numbers *)

Definition Qltb (x y : Q) : bool := negb (Qle_bool y x).

Infix "<=?" := Qle_bool (at level 70, no associativity) : Q_scope.
Infix "<?" := Qltb (at level 70, no associativity) : Q_scope.

Definition Qnat (n : nat) : Q := inject_Z (Z.of_nat n).

(** [x / y] on Python numbers. *)
Definition pydiv (x y : Q) : pyres Q :=
  if Qeq_bool y 0 then Raise ZeroDivisionError else Ret (x / y).

(** [sum(xs)] *)
Definition Qsum (xs : list Q) : Q := fold_left Qplus xs 0.

(** [max(0.0, min(100.0, score))] *)
Definition clamp (score : Q) : Q := Qmax 0 (Qmin 100 score).

(** [round(x, 1)] on the exact value: to the nearest tenth, ties to even. *)
Definition round_half_even (x : Q) : Z :=
  let f := Qfloor x in
  let r := x - inject_Z f in
  if r <? (1 # 2) then f
  else if (1 # 2) <? r then (f + 1)%Z
  else if Z.even f then f else (f + 1)%Z.

Definition round1 (x : Q) : Q := inject_Z (round_half_even (x * 10)) / 10.

(** [int(x)]: truncation towards zero. *)
Definition Qint (x : Q) : Z := Z.quot (Qnum x) (Zpos (Qden x)).

(** [sum(1 for x in xs if p(x))] *)
Definition count {A : Type} (p : A -> bool) (xs : list A) : nat :=
  List.length (filter p xs).

(** ** Strings *)

(** [s.replace(old, new)] for a non-empty [old]: the occurrences are replaced
    from the left, without overlap.  [skip] counts the characters of a match
    still to be dropped. *)
Fixpoint replace_from (old new : string) (skip : nat) (s : string) : string :=
  match s with
  | EmptyString => EmptyString
  | String c rest =>
      match skip with
      | S k => replace_from old new k rest
      | O =>
          if String.prefix old s
          then String.append new (replace_from old new (String.length old - 1) rest)
          else String c (replace_from old new 0 rest)
      end
  end.

Definition replace (old new s : string) : string := replace_from old new 0 s.

(** ** Time *)

(** A naive [datetime]: microseconds since the epoch. *)
Definition datetime : Type := Z.

Definition usec_per_second : Z := 1000000.
Definition usec_per_hour : Z := 3600 * usec_per_second.
Definition usec_per_day : Z := 86400 * usec_per_second.

(** [timedelta(days=d)], [timedelta(hours=h)] *)
Definition timedelta_days (d : Z) : Z := (d * usec_per_day)%Z.
Definition timedelta_hours (h : Z) : Z := (h * usec_per_hour)%Z.

(** [(a - b).total_seconds()] *)
Definition total_seconds (a b : datetime) : Q := (a - b)%Z # 1000000.

(** [dt.date()] as a day number; [(a - b).days]. *)
Definition date_of (dt : datetime) : Z := (dt / usec_per_day)%Z.

(** ** The data model (rows as the database returns them) *)

Inductive Action : Type := buy | sell.

Definition Action_eqb (a b : Action) : bool :=
  match a, b with
  | buy, buy | sell, sell => true
  | _, _ => false
  end.

(** A row of [transactions] ([get_transactions]); [t_type] is the asset type. *)
Record Transaction : Type := mkTransaction {
  t_id : string;
  t_symbol : string;
  t_type : string;
  t_action : Action;
  t_quantity : Q;
  t_price : Q;
  t_total : Q;
  t_timestamp : string
}.

(** A holding ([get_holdings], to which a caller may add [currentPrice]). *)
Record Holding : Type := mkHolding {
  h_symbol : string;
  h_type : string;
  h_quantity : Q;
  h_averagePrice : Q;
  h_currentPrice : option Q
}.

(** A row of [trade_checklists]. *)
Record Checklist : Type := mkChecklist {
  c_transaction_id : string;
  c_symbol : string;
  c_skipped : bool;
  c_completed_count : Z;
  c_created_at : string
}.

(** A row of [mentor_triggers]. *)
Record MentorTrigger : Type := mkMentorTrigger {
  m_pattern_type : string;
  m_severity : string;
  m_symbol : option string;
  m_dismissed : bool;
  m_created_at : string
}.

(** A row of [daily_scores]; [date] is UNIQUE. *)
Record DailyScore : Type := mkDailyScore {
  ds_id : string;
  ds_date : string;
  risk_score : Q;
  discipline_score : Q;
  strategy_score : Q;
  psychology_score : Q;
  consistency_score : Q;
  ds_trade_count : nat;
  ds_active_day : bool;
  ds_computed_at : string
}.

(** [h.get('currentPrice', h.get('averagePrice', 0))] *)
Definition holding_price (h : Holding) : Q :=
  match h_currentPrice h with
  | Some p => p
  | None => h_averagePrice h
  end.

(** ** Dictionaries of lists keyed by symbol

    [buy_map] and [symbol_txns] are built by the same loop: a new key is
    added at the end (a Python dict keeps insertion order), a known key has
    the transaction appended to its list. *)

Definition symbol_dict : Type := list (string * list Transaction).

Fixpoint dict_append (sym : string) (tx : Transaction) (d : symbol_dict) : symbol_dict :=
  match d with
  | [] => [(sym, [tx])]
  | (k, v) :: rest =>
      if String.eqb k sym then (k, v ++ [tx]) :: rest
      else (k, v) :: dict_append sym tx rest
  end.

Definition group_by_symbol (txs : list Transaction) : symbol_dict :=
  fold_left (fun d tx => dict_append (t_symbol tx) tx d) txs [].

(** [d.get(sym, [])] *)
Fixpoint dict_get (sym : string) (d : symbol_dict) : list Transaction :=
  match d with
  | [] => []
  | (k, v) :: rest => if String.eqb k sym then v else dict_get sym rest
  end.

Definition is_sell (t : Transaction) : bool := Action_eqb (t_action t) sell.
Definition is_buy (t : Transaction) : bool := Action_eqb (t_action t) buy.

(** ** scoring_engine.py *)

Module scoring_engine.

(** The five score dimensions; [score_of d ds] is [ds.get(f"{d}_score", 0)]. *)
Inductive Dimension : Type := Risk | Discipline | Strategy | Psychology | Consistency.

Definition score_of (d : Dimension) (ds : DailyScore) : Q :=
  match d with
  | Risk => risk_score ds
  | Discipline => discipline_score ds
  | Strategy => strategy_score ds
  | Psychology => psychology_score ds
  | Consistency => consistency_score ds
  end.

Record BadgeDefinition : Type := mkBadgeDefinition {
  bd_score : Dimension;
  bd_threshold : Q;
  bd_days : nat;
  bd_requires_sentiment : bool
}.

Definition BADGE_DEFINITIONS : list (string * BadgeDefinition) :=
  [ ("risk_guardian"%string, mkBadgeDefinition Risk 75 21 false);
    ("discipline_master"%string, mkBadgeDefinition Discipline 80 21 false);
    ("consistency_pro"%string, mkBadgeDefinition Consistency 70 21 false);
    ("strategy_builder"%string, mkBadgeDefinition Strategy 70 21 false);
    ("psychology_champion"%string, mkBadgeDefinition Psychology 75 21 false);
    ("market_aware"%string, mkBadgeDefinition Psychology 70 21 true) ].

(** The first loop of [compute_risk_score]: [position_values] and
    [total_value]. *)
Definition position_values (holdings : list Holding) : list Q :=
  map (fun h => h_quantity h * holding_price h) holdings.

Definition total_value (holdings : list Holding) (balance : Q) : Q :=
  fold_left Qplus (position_values holdings) balance.

(** [for val in position_values: pct = (val / total_value) * 100; ...] *)
Fixpoint concentration_loop (total : Q) (vals : list Q) (score : Q) : pyres Q :=
  match vals with
  | [] => Ret score
  | val :: rest =>
      q <- pydiv val total ;;
      let pct := q * 100 in
      concentration_loop total rest
        (if 25 <? pct then score - (pct - 25) * (3 # 2) else score)
  end.

Definition compute_risk_score (holdings : list Holding) (balance : Q) : pyres Q :=
  let total := total_value holdings balance in
  if total <=? 0 then Ret 50
  else
    let score := 100 in
    let num_holdings := List.length holdings in
    let score :=
      if (num_holdings <? 3)%nat
      then score - Qnat (3 - num_holdings) * 15
      else score in
    q <- pydiv balance total ;;
    let cash_pct := q * 100 in
    let score := if cash_pct <? 10 then score - (10 - cash_pct) * 2 else score in
    score <- concentration_loop total (position_values holdings) score ;;
    Ret (clamp score).

Definition full_completion (c : Checklist) : bool :=
  (c_completed_count c =? 5)%Z && negb (c_skipped c).

Definition compute_discipline_score (checklists : list Checklist) (trade_count : nat)
  : pyres Q :=
  if (trade_count =? 0)%nat then Ret 50
  else
    let total_checklists := List.length checklists in
    if (total_checklists =? 0)%nat then Ret 20
    else
      let full_completions := count full_completion checklists in
      s <- pydiv (Qsum (map (fun c => inject_Z (c_completed_count c)) checklists))
                 (Qnat total_checklists) ;;
      let avg_items := s in
      let skips := count c_skipped checklists in
      completion_ratio <-
        (if (0 <? total_checklists)%nat
         then pydiv (Qnat full_completions) (Qnat total_checklists)
         else Ret 0) ;;
      let score := completion_ratio * 60 + (avg_items / 5) * 40 in
      skip_ratio <-
        (if (0 <? total_checklists)%nat
         then pydiv (Qnat skips) (Qnat total_checklists)
         else Ret 0) ;;
      let score := score - skip_ratio * 20 in
      Ret (clamp score).

(** [deductions.get(pattern, 5)] *)
Definition deduction (pattern : string) : Q :=
  if String.eqb pattern "fomo_buy" then 10
  else if String.eqb pattern "panic_sell" then 15
  else if String.eqb pattern "overtrading" then 10
  else 5.

Definition compute_psychology_score (mentor_triggers : list MentorTrigger) : pyres Q :=
  let score :=
    fold_left (fun score trigger => score - deduction (m_pattern_type trigger))
              mentor_triggers 100 in
  Ret (clamp score).

(** [statistics.variance]: the sample variance; fewer than two points raise. *)
Definition variance (xs : list Q) : pyres Q :=
  let n := List.length xs in
  if (n <? 2)%nat then Raise StatisticsError
  else
    mean <- pydiv (Qsum xs) (Qnat n) ;;
    pydiv (Qsum (map (fun x => (x - mean) * (x - mean)) xs)) (Qnat (n - 1)).

(** The four columns pooled by the stability and drawdown components. *)
Definition four_scores (ds : DailyScore) : list Q :=
  [risk_score ds; discipline_score ds; strategy_score ds; psychology_score ds].

(** [all_scores]: the values [> 0] of the four columns, row after row. *)
Definition all_scores (history : list DailyScore) : list Q :=
  flat_map (fun ds => filter (fun val => 0 <? val) (four_scores ds)) history.

Definition is_drawdown_day (ds : DailyScore) : bool :=
  Qsum (four_scores ds) / 4 <? 30.

Definition compute_consistency_score (daily_scores_history : list DailyScore)
  (active_days : nat) (total_days : nat) : pyres Q :=
  if (total_days =? 0)%nat then Ret 50
  else
    r <- pydiv (Qnat active_days) (Qnat total_days) ;;
    let active_ratio := Qmin r 1 in
    let active_component := active_ratio * 50 in
    stability_component <-
      (if (3 <=? List.length daily_scores_history)%nat
       then
         let scores := all_scores daily_scores_history in
         if (3 <=? List.length scores)%nat
         then
           v <- variance scores ;;
           let stability := Qmax 0 (100 - v / 5) in
           Ret ((stability / 100) * 30)
         else Ret 30
       else Ret 30) ;;
    let drawdown_days := count is_drawdown_day daily_scores_history in
    drawdown_ratio <-
      pydiv (Qnat drawdown_days)
            (Qnat (Nat.max (List.length daily_scores_history) 1)) ;;
    let drawdown_component := (1 - drawdown_ratio) * 20 in
    Ret (clamp (active_component + stability_component + drawdown_component)).

Section Timestamps.

Variable fromisoformat : string -> option datetime.

(** [None] for an empty string and for a string the library rejects: the
    [ValueError] is caught. *)
Definition _parse_timestamp (ts : string) : option datetime :=
  if String.eqb ts "" then None
  else fromisoformat (replace "+00:00" "" (replace "Z" "+00:00" ts)).

(** The counters of the win/loss loop. *)
Record tally : Type := mkTally {
  wins : nat;
  losses : nat;
  total_profit : Q;
  total_loss : Q
}.

(** [for sell in sells: ...] over the buys grouped by symbol. *)
Fixpoint tally_loop (buy_map : symbol_dict) (sells : list Transaction) (acc : tally)
  : pyres tally :=
  match sells with
  | [] => Ret acc
  | s :: rest =>
      let sym := t_symbol s in
      let sell_price := t_price s in
      let sym_buys := dict_get sym buy_map in
      match sym_buys with
      | [] => tally_loop buy_map rest acc
      | _ :: _ =>
          avg_buy <- pydiv (Qsum (map t_price sym_buys)) (Qnat (List.length sym_buys)) ;;
          if avg_buy <? sell_price
          then tally_loop buy_map rest
                 (mkTally (S (wins acc)) (losses acc)
                    (total_profit acc + (sell_price - avg_buy) * t_quantity s)
                    (total_loss acc))
          else tally_loop buy_map rest
                 (mkTally (wins acc) (S (losses acc))
                    (total_profit acc)
                    (total_loss acc + (avg_buy - sell_price) * t_quantity s))
      end
  end.

(** The body of the duration loop for one sell: the days between the sell
    and [sym_buys[0]], when both timestamps parse. *)
Definition sell_duration (buy_map : symbol_dict) (s : Transaction) : option Q :=
  match _parse_timestamp (t_timestamp s) with
  | None => None
  | Some sell_ts =>
      match dict_get (t_symbol s) buy_map with
      | [] => None
      | b0 :: _ =>
          match _parse_timestamp (t_timestamp b0) with
          | None => None
          | Some buy_ts => Some (total_seconds sell_ts buy_ts / 86400)
          end
      end
  end.

Fixpoint durations_loop (buy_map : symbol_dict) (sells : list Transaction) : list Q :=
  match sells with
  | [] => []
  | s :: rest =>
      match sell_duration buy_map s with
      | Some days => days :: durations_loop buy_map rest
      | None => durations_loop buy_map rest
      end
  end.

Definition compute_strategy_score (transactions : list Transaction) : pyres Q :=
  let sells := filter is_sell transactions in
  let buys := filter is_buy transactions in
  match sells with
  | [] => Ret 40
  | _ :: _ =>
      let buy_map := group_by_symbol buys in
      acc <- tally_loop buy_map sells (mkTally 0 0 0 0) ;;
      let total_trades := (wins acc + losses acc)%nat in
      if (total_trades =? 0)%nat then Ret 40
      else
        win_rate <- pydiv (Qnat (wins acc)) (Qnat total_trades) ;;
        pl_ratio <-
          (if 0 <? total_loss acc
           then pydiv (total_profit acc) (total_loss acc)
           else Ret 2) ;;
        let pl_ratio := Qmin pl_ratio 3 in
        let durations := durations_loop buy_map sells in
        duration_score <-
          (match durations with
           | [] => Ret 50
           | _ :: _ =>
               avg_duration <- pydiv (Qsum durations) (Qnat (List.length durations)) ;;
               if 3 <=? avg_duration then Ret 80
               else if 1 <=? avg_duration then Ret 60
               else Ret 30
           end) ;;
        let score := win_rate * 40 + (pl_ratio / 3) * 30 + (duration_score / 100) * 30 in
        Ret (clamp (score * 100 / 100))
  end.

Definition check_eligibility (trade_count active_days : nat) : bool :=
  (25 <=? trade_count)%nat || (15 <=? active_days)%nat.

(** [True] where the data is INSUFFICIENT. *)
Record Sufficiency : Type := mkSufficiency {
  suf_risk : bool;
  suf_discipline : bool;
  suf_strategy : bool;
  suf_psychology : bool;
  suf_consistency : bool
}.

Definition compute_data_sufficiency (holdings : list Holding)
  (checklists : list Checklist) (transactions : list Transaction)
  (mentor_triggers : list MentorTrigger) (daily_scores_history : list DailyScore)
  (trade_count : nat) : Sufficiency :=
  let sells := filter is_sell transactions in
  mkSufficiency
    (List.length holdings =? 0)%nat
    ((trade_count =? 0)%nat || (List.length checklists =? 0)%nat)
    (List.length sells =? 0)%nat
    (trade_count =? 0)%nat
    (List.length daily_scores_history <? 3)%nat.

Record AllScores : Type := mkAllScores {
  as_risk : Q;
  as_discipline : Q;
  as_strategy : Q;
  as_psychology : Q;
  as_consistency : Q;
  as_eligible : bool;
  as_trade_count : nat;
  as_active_days : nat;
  as_insufficient_data : Sufficiency
}.

Definition compute_all_scores (holdings : list Holding) (balance : Q)
  (checklists : list Checklist) (transactions : list Transaction)
  (mentor_triggers : list MentorTrigger) (daily_scores_history : list DailyScore)
  (active_days trade_count : nat) : pyres AllScores :=
  let eligible := check_eligibility trade_count active_days in
  risk <- compute_risk_score holdings balance ;;
  discipline <- compute_discipline_score checklists trade_count ;;
  strategy <- compute_strategy_score transactions ;;
  psychology <- compute_psychology_score mentor_triggers ;;
  consistency <- compute_consistency_score daily_scores_history active_days 30 ;;
  let insufficient_data :=
    compute_data_sufficiency holdings checklists transactions mentor_triggers
      daily_scores_history trade_count in
  Ret (mkAllScores (round1 risk) (round1 discipline) (round1 strategy)
         (round1 psychology) (round1 consistency)
         eligible trade_count active_days insufficient_data).

End Timestamps.

Record BadgeResult : Type := mkBadgeResult {
  br_badge_type : string;
  br_earned : bool;
  br_active : bool;
  br_qualifying_days : nat;
  br_required_days : nat
}.

Definition is_sentiment_fomo (t : MentorTrigger) : bool :=
  String.eqb (m_pattern_type t) "sentiment_fomo".

(** The body of the loop of [evaluate_badges] for one definition. *)
Definition evaluate_badge (daily_scores : list DailyScore)
  (mentor_triggers : option (list MentorTrigger))
  (entry : string * BadgeDefinition) : BadgeResult :=
  let (badge_type, defn) := entry in
  let threshold := bd_threshold defn in
  let required_days := bd_days defn in
  let qualifying_days :=
    count (fun ds => threshold <=? score_of (bd_score defn) ds) daily_scores in
  let earned := (required_days <=? qualifying_days)%nat in
  let earned :=
    if bd_requires_sentiment defn && earned then
      match mentor_triggers with
      | Some triggers =>
          let fomo_count := count is_sentiment_fomo triggers in
          if (0 <? fomo_count)%nat then false else earned
      | None => earned
      end
    else earned in
  mkBadgeResult badge_type earned earned qualifying_days required_days.

Definition evaluate_badges (daily_scores : list DailyScore)
  (mentor_triggers : option (list MentorTrigger)) : list BadgeResult :=
  map (evaluate_badge daily_scores mentor_triggers) BADGE_DEFINITIONS.

(** *** Grades, profile and behaviour summary *)

(** A dict of the five scores by dimension ([scores.get(k, 0)] finds every
    key). *)
Record Scores : Type := mkScores {
  sc_risk : Q;
  sc_discipline : Q;
  sc_strategy : Q;
  sc_psychology : Q;
  sc_consistency : Q
}.

Definition scores_get (d : Dimension) (scores : Scores) : Q :=
  match d with
  | Risk => sc_risk scores
  | Discipline => sc_discipline scores
  | Strategy => sc_strategy scores
  | Psychology => sc_psychology scores
  | Consistency => sc_consistency scores
  end.

(** [['risk', 'discipline', 'strategy', 'psychology', 'consistency']] *)
Definition score_dims : list Dimension :=
  [Risk; Discipline; Strategy; Psychology; Consistency].

Definition SCORE_LABELS (d : Dimension) : string :=
  match d with
  | Risk => "Risk Management"
  | Discipline => "Discipline"
  | Strategy => "Strategy"
  | Psychology => "Psychology"
  | Consistency => "Consistency"
  end.

(** [sum(scores.get(k, 0) for k in [...]) / 5] *)
Definition average_score (scores : Scores) : Q :=
  Qsum (map (fun d => scores_get d scores) score_dims) / 5.

Definition compute_overall_grade (scores : Scores) : string :=
  let avg := average_score scores in
  if 90 <=? avg then "A+"
  else if 80 <=? avg then "A"
  else if 70 <=? avg then "B+"
  else if 60 <=? avg then "B"
  else if 50 <=? avg then "C+"
  else if 40 <=? avg then "C"
  else if 30 <=? avg then "D"
  else "F".

(** [sorted(xs, key=key, reverse=True)]: the larger key first, equal keys
    in their order. *)
Fixpoint insert_by_score {A : Type} (key : A -> Q) (x : A) (xs : list A) : list A :=
  match xs with
  | [] => [x]
  | y :: ys =>
      if key y <=? key x then x :: y :: ys
      else y :: insert_by_score key x ys
  end.

Definition sorted_by_score {A : Type} (key : A -> Q) (xs : list A) : list A :=
  fold_right (insert_by_score key) [] xs.

(** [buys_map]: the price of the first buy of every symbol. *)
Fixpoint first_buy_price (sym : string) (transactions : list Transaction) : Q :=
  match transactions with
  | [] => 0
  | t :: rest =>
      if is_buy t && String.eqb (t_symbol t) sym then t_price t
      else first_buy_price sym rest
  end.

(** A badge as [get_badges] returns it. *)
Record BadgeStatus : Type := mkBadgeStatus {
  bst_id : string;
  bst_badgeType : string;
  bst_earned : bool;
  bst_active : bool;
  bst_qualifyingDays : nat;
  bst_firstEarnedAt : option string;
  bst_updatedAt : string
}.

Record TraderProfile : Type := mkTraderProfile {
  tp_skillLevel : string;
  tp_activeBadges : list BadgeStatus;
  tp_currentScores : option Scores;
  tp_strengths : list string;
  tp_weaknesses : list string;
  tp_totalTrades : nat;
  tp_activeDays : nat;
  tp_winRate : Q;
  tp_challengesCompleted : nat
}.

Definition compute_trader_profile (scores : option Scores) (badges : list BadgeStatus)
  (transactions : list Transaction) (active_days challenges_completed : nat)
  : pyres TraderProfile :=
  let avg :=
    match scores with
    | Some s => average_score s
    | None => 0
    end in
  let skill_level : string :=
    if 80 <=? avg then "Expert"%string
    else if 60 <=? avg then "Advanced"%string
    else if 40 <=? avg then "Intermediate"%string
    else "Beginner"%string in
  let (strengths, weaknesses) :=
    match scores with
    | Some s =>
        let sorted_dims := sorted_by_score (fun d => scores_get d s) score_dims in
        (map SCORE_LABELS (firstn 2 sorted_dims),
         map SCORE_LABELS (skipn (List.length sorted_dims - 2) sorted_dims))
    | None => ([], [])
    end in
  let sells := filter is_sell transactions in
  let wins :=
    count (fun s =>
             let buy_price := first_buy_price (t_symbol s) transactions in
             (0 <? buy_price) && (buy_price <? t_price s))
      sells in
  win_rate <- match sells with
              | [] => Ret 0
              | _ :: _ =>
                  q <- pydiv (Qnat wins) (Qnat (List.length sells)) ;;
                  Ret (q * 100)
              end ;;
  let active_badges := filter bst_active badges in
  Ret (mkTraderProfile skill_level active_badges scores strengths weaknesses
         (List.length transactions) active_days (round1 win_rate)
         challenges_completed).

Record BehaviorSummary : Type := mkBehaviorSummary {
  bs_triggerTotals : list (string * nat);
  bs_currentAvg : Scores;
  bs_previousAvg : Scores;
  bs_improvementTrend : list (Dimension * string);
  bs_longestStreak : nat;
  bs_currentStreak : nat;
  bs_totalScoredDays : nat;
  bs_firstScoreDate : option string
}.

(** [avg_for_window], for one dimension and for the five. *)
Definition window_average (window : list DailyScore) (d : Dimension) : pyres Q :=
  let vals := filter (fun v => 0 <? v) (map (score_of d) window) in
  match vals with
  | [] => Ret 0
  | _ :: _ =>
      q <- pydiv (Qsum vals) (Qnat (List.length vals)) ;;
      Ret (round1 q)
  end.

Definition avg_for_window (window : list DailyScore) : pyres Scores :=
  risk <- window_average window Risk ;;
  discipline <- window_average window Discipline ;;
  strategy <- window_average window Strategy ;;
  psychology <- window_average window Psychology ;;
  consistency <- window_average window Consistency ;;
  Ret (mkScores risk discipline strategy psychology consistency).

(** One turn of the streak loop on [(longest_streak, current_streak)]. *)
Definition streak_step (acc : nat * nat) (s : DailyScore) : nat * nat :=
  let (longest_streak, current_streak) := acc in
  let avg_score := Qsum (map (fun d => score_of d s) score_dims) / 5 in
  if 60 <=? avg_score
  then (Nat.max longest_streak (S current_streak), S current_streak)
  else (longest_streak, 0%nat).

Section BehaviorSummary.

(** [date.isoformat()] on a day number, and the clock reading of the call. *)
Variable date_isoformat : Z -> string.
Variable now : datetime.

Definition compute_behavior_summary (all_scores : list DailyScore)
  (trigger_counts : list (string * nat)) : pyres BehaviorSummary :=
  let total_scored_days := List.length all_scores in
  let first_score_date :=
    match all_scores with
    | s :: _ => Some (ds_date s)
    | [] => None
    end in
  let today := date_of now in
  let cutoff_current := date_isoformat (today - 30)%Z in
  let cutoff_previous := date_isoformat (today - 60)%Z in
  let current_window :=
    filter (fun s => String.leb cutoff_current (ds_date s)) all_scores in
  let previous_window :=
    filter (fun s => String.leb cutoff_previous (ds_date s)
                     && String.ltb (ds_date s) cutoff_current)
      all_scores in
  current_avg <- avg_for_window current_window ;;
  previous_avg <- avg_for_window previous_window ;;
  let improvement_trend :=
    map (fun d =>
           let diff := scores_get d current_avg - scores_get d previous_avg in
           (d, if 5 <? diff then "improving"%string
               else if diff <? -(5) then "declining"%string
               else "stable"%string))
      score_dims in
  let (longest_streak, current_streak) :=
    fold_left streak_step all_scores (0%nat, 0%nat) in
  Ret (mkBehaviorSummary trigger_counts current_avg previous_avg improvement_trend
         longest_streak current_streak total_scored_days first_score_date).

End BehaviorSummary.

End scoring_engine.

(** ** mentor_engine.py *)

(** The arguments a message template of [PATTERNS] is formatted with; the
    rendered text is not modelled. *)
Inductive Message : Type :=
| FomoBuyMessage (symbol : string)
| PanicSellMessage (symbol : string) (loss_pct : Q) (hours : Z)
| OvertradingMessage (count : nat)
| HoldingLosersMessage (symbol : string) (loss_pct : Q) (days : Z)
| SentimentFomoMessage (symbol : string) (positive_pct : Q).

Record Alert : Type := mkAlert {
  a_pattern_type : string;
  a_severity : string;
  a_symbol : option string;
  a_message : Message;
  a_sentiment_mood : option string
}.

(** A row of [sentiment_cache] as [get_cached_sentiment] returns it. *)
Record Sentiment : Type := mkSentiment {
  s_mood : string;
  s_positive_pct : Q
}.

(** An alert of the two detectors that look at the share of a holding in
    the portfolio: its message is formatted with the symbol and the share. *)
Record PositionAlert : Type := mkPositionAlert {
  pa_pattern_type : string;
  pa_severity : string;
  pa_symbol : string;
  pa_pct : Q
}.

(** An alert of either shape, as [run_all_checks] collects them. *)
Inductive MentorAlert : Type :=
| PatternAlert (a : Alert)
| ShareAlert (a : PositionAlert).

(** [alert.get('pattern_type', '')] *)
Definition alert_pattern_type (alert : MentorAlert) : string :=
  match alert with
  | PatternAlert a => a_pattern_type a
  | ShareAlert a => pa_pattern_type a
  end.


(** The arguments of the escalation note of an enriched alert, and an
    enriched alert: the alert with its three added keys. *)
Inductive EscalationNote : Type :=
| FirstTimeNote
| RecurringNote (prior : nat)
| PersistentNote (prior : nat).

Record EnrichedAlert : Type := mkEnrichedAlert {
  ea_alert : MentorAlert;
  ea_escalation_level : string;
  ea_prior_count : nat;
  ea_escalation_note : EscalationNote
}.

(** The arguments of an improvement note. *)
Record ImprovementNote : Type := mkImprovementNote {
  in_pattern_type : string;
  in_count : nat
}.

Module mentor_engine.


Section Detectors.

Variable fromisoformat : string -> option datetime.

(** [database.get_cached_sentiment]: [None] when nothing is cached. *)
Variable get_cached_sentiment : string -> option Sentiment.

(** The clock reading [datetime.utcnow()] of the run. *)
Variable now : datetime.

Definition _parse_timestamp (ts : string) : option datetime :=
  if String.eqb ts "" then None
  else fromisoformat (replace "+00:00" "" (replace "Z" "+00:00" ts)).

(** *** detect_fomo_buy *)





(** The loop over the symbols, in insertion order; [body] is its body. *)
Fixpoint symbols_loop (body : string -> list Transaction -> pyres (option Alert))
  (d : symbol_dict) (alerts : list Alert) : pyres (list Alert) :=
  match d with
  | [] => Ret alerts
  | (sym, txns) :: rest =>
      r <- body sym txns ;;
      symbols_loop body rest
        (match r with
         | Some a => alerts ++ [a]
         | None => alerts
         end)
  end.


(** *** detect_panic_sell *)

Definition panic_alert (sym : string) (loss_pct hours_diff : Q) : Alert :=
  mkAlert "panic_sell" "critical" (Some sym)
    (PanicSellMessage sym (Qabs loss_pct) (Qint hours_diff)) None.

(** [for buy in buys]: the alert of the first buy that qualifies (the loop
    breaks there), [None] when the loop runs to its end. *)
Fixpoint panic_scan_buys (sym : string) (sell_ts : datetime) (sell_price : Q)
  (buys : list Transaction) : pyres (option Alert) :=
  match buys with
  | [] => Ret None
  | b :: rest =>
      let buy_price := t_price b in
      match _parse_timestamp (t_timestamp b) with
      | None => panic_scan_buys sym sell_ts sell_price rest
      | Some buy_ts =>
          if buy_price <=? 0 then panic_scan_buys sym sell_ts sell_price rest
          else
            let hours_diff := total_seconds sell_ts buy_ts / 3600 in
            if (0 <? hours_diff) && (hours_diff <=? 48) then
              q <- pydiv (sell_price - buy_price) buy_price ;;
              let loss_pct := q * 100 in
              if loss_pct <? -(10) then Ret (Some (panic_alert sym loss_pct hours_diff))
              else panic_scan_buys sym sell_ts sell_price rest
            else panic_scan_buys sym sell_ts sell_price rest
      end
  end.

(** [for sell in sells]: when the inner loop broke, the [break] after its
    [else: continue] leaves this loop too; otherwise the next sell is tried. *)
Fixpoint panic_scan_sells (sym : string) (buys sells : list Transaction)
  : pyres (option Alert) :=
  match sells with
  | [] => Ret None
  | s :: rest =>
      match _parse_timestamp (t_timestamp s) with
      | None => panic_scan_sells sym buys rest
      | Some sell_ts =>
          if (sell_ts <? now - timedelta_days 7)%Z then panic_scan_sells sym buys rest
          else
            r <- panic_scan_buys sym sell_ts (t_price s) buys ;;
            match r with
            | Some a => Ret (Some a)
            | None => panic_scan_sells sym buys rest
            end
      end
  end.

(** The body of [for sym, txns in symbol_txns.items()]. *)
Definition panic_for_symbol (sym : string) (txns : list Transaction)
  : pyres (option Alert) :=
  let buys := filter is_buy txns in
  let sells := filter is_sell txns in
  panic_scan_sells sym buys sells.

Definition detect_panic_sell (transactions : list Transaction) : pyres (list Alert) :=
  symbols_loop panic_for_symbol (group_by_symbol transactions) [].

(** *** detect_overtrading *)



(** *** detect_holding_losers *)

(** [min((parse(t) for t in buys if parse(t)), default=None)] *)
Definition earliest_timestamp (buys : list Transaction) : option datetime :=
  fold_left
    (fun acc t =>
       match _parse_timestamp (t_timestamp t), acc with
       | Some ts, Some m => Some (Z.min m ts)
       | Some ts, None => Some ts
       | None, _ => acc
       end)
    buys None.



(** *** detect_sentiment_fomo *)




(** *** detect_over_concentration and detect_high_risk_position *)

(** [total_value = balance], then [total_value += qty * price] for every
    holding. *)
Definition portfolio_value (holdings : list Holding) (balance : Q) : Q :=
  fold_left (fun total_value h => total_value + h_quantity h * holding_price h)
    holdings balance.

(** The second [for h in holdings] of [detect_over_concentration]. *)
Fixpoint over_concentration_loop (total_value : Q) (holdings : list Holding)
  : pyres (list PositionAlert) :=
  match holdings with
  | [] => Ret []
  | h :: rest =>
      let holding_value := h_quantity h * holding_price h in
      q <- pydiv holding_value total_value ;;
      let pct := q * 100 in
      alerts <- over_concentration_loop total_value rest ;;
      Ret (if 30 <? pct
           then mkPositionAlert "over_concentration" "warning" (h_symbol h) pct :: alerts
           else alerts)
  end.

Definition detect_over_concentration (holdings : list Holding) (balance : Q)
  : pyres (list PositionAlert) :=
  let total_value := portfolio_value holdings balance in
  if total_value <=? 0 then Ret []
  else over_concentration_loop total_value holdings.

(** The second [for h in holdings] of [detect_high_risk_position]. *)
Fixpoint high_risk_position_loop (total_value : Q) (holdings : list Holding)
  : pyres (list PositionAlert) :=
  match holdings with
  | [] => Ret []
  | h :: rest =>
      let holding_value := h_quantity h * holding_price h in
      q <- pydiv holding_value total_value ;;
      let pct := q * 100 in
      alerts <- high_risk_position_loop total_value rest ;;
      Ret (if 25 <? pct
           then mkPositionAlert "high_risk_position" "warning" (h_symbol h) pct :: alerts
           else alerts)
  end.

Definition detect_high_risk_position (holdings : list Holding) (balance : Q)
  : pyres (list PositionAlert) :=
  let total_value := portfolio_value holdings balance in
  if total_value <=? 0 then Ret []
  else high_risk_position_loop total_value holdings.

(** *** run_all_checks *)


End Detectors.

(** *** enrich_alerts_with_history *)

(** [pattern_counts[pt] = pattern_counts.get(pt, 0) + 1] on a dict that
    keeps its keys in insertion order, and [pattern_counts.get(pt, 0)]. *)
Fixpoint count_pattern (pt : string) (pattern_counts : list (string * nat))
  : list (string * nat) :=
  match pattern_counts with
  | [] => [(pt, 1%nat)]
  | (k, n) :: rest =>
      if String.eqb k pt then (k, S n) :: rest
      else (k, n) :: count_pattern pt rest
  end.

Fixpoint get_count (pt : string) (pattern_counts : list (string * nat)) : nat :=
  match pattern_counts with
  | [] => 0%nat
  | (k, n) :: rest => if String.eqb k pt then n else get_count pt rest
  end.

Definition enrich_alerts_with_history (alerts : list MentorAlert)
  (trigger_history : list MentorTrigger)
  : list EnrichedAlert * list ImprovementNote :=
  let pattern_counts :=
    fold_left (fun counts t => count_pattern (m_pattern_type t) counts)
      trigger_history [] in
  let enriched :=
    map (fun alert =>
           let pt := alert_pattern_type alert in
           let prior := get_count pt pattern_counts in
           if (prior =? 0)%nat
           then mkEnrichedAlert alert "first" prior FirstTimeNote
           else if (prior <=? 3)%nat
                then mkEnrichedAlert alert "recurring" prior (RecurringNote prior)
                else mkEnrichedAlert alert "persistent" prior (PersistentNote prior))
        alerts in
  let current_patterns := map alert_pattern_type alerts in
  let improvement_notes :=
    flat_map (fun entry : string * nat =>
                let (pt, count) := entry in
                if (3 <=? count)%nat && negb (existsb (String.eqb pt) current_patterns)
                then [mkImprovementNote pt count]
                else [])
      pattern_counts in
  (enriched, improvement_notes).

End mentor_engine.

(** ** Ordering rows

    [ORDER BY key DESC] and [sorted(..., key=..., reverse=True)] on a text
    key: an insertion sort that keeps rows of equal key in their order. *)

Fixpoint insert_desc {A : Type} (key : A -> string) (x : A) (xs : list A) : list A :=
  match xs with
  | [] => [x]
  | y :: ys =>
      if String.leb (key y) (key x) then x :: y :: ys
      else y :: insert_desc key x ys
  end.

Definition order_by_desc {A : Type} (key : A -> string) (xs : list A) : list A :=
  fold_right (insert_desc key) [] xs.

(** [len(set(xs))] *)
Definition distinct (xs : list string) : list string := nodup string_dec xs.

(** ** challenges.py *)

Record ChallengeTemplate : Type := mkChallengeTemplate {
  tm_challenge_type : string;
  tm_title : string;
  tm_target_value : Q;
  tm_duration_days : Z
}.

Module challenges.

Definition CHALLENGE_TEMPLATES : list ChallengeTemplate :=
  [ mkChallengeTemplate "diversify_sectors" "Sector Explorer" 3 30;
    mkChallengeTemplate "cash_reserve" "Cash Discipline" 7 30;
    mkChallengeTemplate "checklist_streak" "Mindful Trader" 10 30;
    mkChallengeTemplate "hold_duration" "Patient Investor" 5 30;
    mkChallengeTemplate "trade_variety" "Multi-Market Learner" 2 30;
    mkChallengeTemplate "neutral_trader" "Calm Waters" 3 30;
    mkChallengeTemplate "hype_resistant" "Hype Resistant" 7 14 ]%string.

Section Progress.

Variable fromisoformat : string -> option datetime.

(** [loop.run_until_complete(get_cached_sentiment(sym))]: [None] both when
    nothing is cached and when the call raises the [RuntimeError] the code
    passes over (no usable event loop). *)
Variable run_cached_sentiment : string -> option Sentiment.

(** The clock reading [datetime.utcnow()] of the computation. *)
Variable now : datetime.

Definition _parse_timestamp (ts : string) : option datetime :=
  if String.eqb ts "" then None
  else fromisoformat (replace "+00:00" "" (replace "Z" "+00:00" ts)).

Definition nonempty (s : string) : bool := negb (String.eqb s "").

Definition compute_diversify_sectors (holdings : list Holding) : Q :=
  let types :=
    distinct
      (map (fun h => (h_type h ++ ":" ++ h_symbol h)%string)
         (filter (fun h => nonempty (h_symbol h) && nonempty (h_type h)) holdings)) in
  Qnat (List.length types).

(** The buys whose timestamp parses to the calendar day [day]. *)
Definition buys_on_day (transactions : list Transaction) (day : Z) : list Transaction :=
  filter
    (fun t =>
       is_buy t &&
       match _parse_timestamp (t_timestamp t) with
       | Some ts => (date_of ts =? day)%Z
       | None => false
       end)
    transactions.

(** [for day_offset in range(...)]: the days counted before the [break]. *)
Fixpoint cash_reserve_scan (transactions : list Transaction) (cash_pct : Q)
  (day_offsets : list Z) : nat :=
  match day_offsets with
  | [] => 0
  | day_offset :: rest =>
      let check_date := (now - timedelta_days day_offset)%Z in
      match buys_on_day transactions (date_of check_date) with
      | [] =>
          if 25 <=? cash_pct then S (cash_reserve_scan transactions cash_pct rest)
          else 0%nat
      | _ :: _ => 0%nat
      end
  end.

(** [range(n)] *)
Definition range (n : nat) : list Z := map Z.of_nat (seq 0 n).

Definition compute_cash_reserve (balance : Q) (holdings : list Holding)
  (transactions : list Transaction) : pyres Q :=
  let total_value :=
    fold_left (fun acc h => acc + h_quantity h * holding_price h) holdings balance in
  if total_value <=? 0 then Ret 0
  else
    q <- pydiv balance total_value ;;
    let cash_pct := q * 100 in
    if 25 <=? cash_pct then
      let consecutive := cash_reserve_scan transactions cash_pct (range 30) in
      Ret (Qnat (Nat.min consecutive 7))
    else Ret 0.

Definition full_checklist (c : Checklist) : bool :=
  (c_completed_count c =? 5)%Z && negb (c_skipped c).

(** [for c in sorted_checklists: ... else: break] *)
Fixpoint checklist_streak_scan (sorted_checklists : list Checklist) : nat :=
  match sorted_checklists with
  | [] => 0
  | c :: rest => if full_checklist c then S (checklist_streak_scan rest) else 0%nat
  end.

Definition compute_checklist_streak (checklists : list Checklist) : Q :=
  let sorted_checklists := order_by_desc c_created_at checklists in
  Qnat (Nat.min (checklist_streak_scan sorted_checklists) 10).

(** [min((parse(t) for t in buys if parse(t)), default=None)] *)
Definition earliest_timestamp (buys : list Transaction) : option datetime :=
  fold_left
    (fun acc t =>
       match _parse_timestamp (t_timestamp t), acc with
       | Some ts, Some m => Some (Z.min m ts)
       | Some ts, None => Some ts
       | None, _ => acc
       end)
    buys None.

Definition compute_hold_duration (holdings : list Holding)
  (transactions : list Transaction) : Q :=
  let max_days :=
    fold_left
      (fun max_days h =>
         let sym := h_symbol h in
         let buys :=
           filter (fun t => String.eqb (t_symbol t) sym && is_buy t) transactions in
         match buys with
         | [] => max_days
         | _ :: _ =>
             match earliest_timestamp buys with
             | Some earliest => Qmax max_days (total_seconds now earliest / 86400)
             | None => max_days
             end
         end)
      holdings 0 in
  Qmin max_days 5.

Definition compute_trade_variety (transactions : list Transaction) : Q :=
  Qnat (List.length (distinct (filter nonempty (map t_type transactions)))).

Definition bought_in_last_30_days (t : Transaction) : bool :=
  is_buy t &&
  match _parse_timestamp (t_timestamp t) with
  | Some ts => (now - timedelta_days 30 <=? ts)%Z
  | None => false
  end.

(** [for buy in recent_buys], with the set [checked]. *)
Fixpoint neutral_scan (recent_buys : list Transaction) (checked : list string) : nat :=
  match recent_buys with
  | [] => 0
  | b :: rest =>
      let sym := t_symbol b in
      if existsb (String.eqb sym) checked then neutral_scan rest checked
      else
        match run_cached_sentiment sym with
        | Some cached =>
            if String.eqb (s_mood cached) "neutral"
            then S (neutral_scan rest (sym :: checked))
            else neutral_scan rest (sym :: checked)
        | None => neutral_scan rest (sym :: checked)
        end
  end.

Definition compute_neutral_trader (transactions : list Transaction) : Q :=
  let recent_buys := filter bought_in_last_30_days transactions in
  Qnat (Nat.min (neutral_scan recent_buys []) 3).

(** [hype_buy_dates]: the days of the buys of the trailing 14 days. *)
Definition hype_buy_dates (transactions : list Transaction) : list Z :=
  flat_map
    (fun t =>
       if is_buy t then
         match _parse_timestamp (t_timestamp t) with
         | Some ts => if (ts <? now - timedelta_days 14)%Z then [] else [date_of ts]
         | None => []
         end
       else [])
    transactions.

(** [for day_offset in range(14)]: the days counted before the [break]. *)
Fixpoint hype_scan (dates : list Z) (day_offsets : list Z) : nat :=
  match day_offsets with
  | [] => 0
  | day_offset :: rest =>
      let check_date := date_of (now - timedelta_days day_offset)%Z in
      if existsb (Z.eqb check_date) dates then 0%nat
      else S (hype_scan dates rest)
  end.

Definition compute_hype_resistant (transactions : list Transaction) : Q :=
  match hype_buy_dates transactions with
  | [] => 7
  | (_ :: _) as dates => Qnat (Nat.min (hype_scan dates (range 14)) 7)
  end.

(** [PROGRESS_COMPUTERS.get(challenge_type)], applied; an unknown type
    gives 0. *)
Definition compute_challenge_progress (challenge_type : string)
  (holdings : list Holding) (balance : Q) (transactions : list Transaction)
  (checklists : list Checklist) : pyres Q :=
  if String.eqb challenge_type "diversify_sectors" then
    Ret (compute_diversify_sectors holdings)
  else if String.eqb challenge_type "cash_reserve" then
    compute_cash_reserve balance holdings transactions
  else if String.eqb challenge_type "checklist_streak" then
    Ret (compute_checklist_streak checklists)
  else if String.eqb challenge_type "hold_duration" then
    Ret (compute_hold_duration holdings transactions)
  else if String.eqb challenge_type "trade_variety" then
    Ret (compute_trade_variety transactions)
  else if String.eqb challenge_type "neutral_trader" then
    Ret (compute_neutral_trader transactions)
  else if String.eqb challenge_type "hype_resistant" then
    Ret (compute_hype_resistant transactions)
  else Ret 0.

End Progress.

End challenges.

(** ** database.py *)

(** A row of [badges]; [badge_type] is UNIQUE. *)
Record Badge : Type := mkBadge {
  b_id : string;
  b_badge_type : string;
  b_earned : bool;
  b_active : bool;
  b_qualifying_days : nat;
  b_first_earned_at : option string;
  b_last_active_at : option string;
  b_updated_at : string
}.

(** The three values the code writes to [challenges.status]. *)
Inductive Status : Type := Active | Completed | Expired.

Definition is_active_status (s : Status) : bool :=
  match s with
  | Active => true
  | _ => false
  end.

(** A row of [challenges]; [id] is the PRIMARY KEY. *)
Record Challenge : Type := mkChallenge {
  ch_id : string;
  ch_challenge_type : string;
  ch_title : string;
  ch_target_value : Q;
  ch_current_value : Q;
  ch_status : Status;
  ch_started_at : string;
  ch_expires_at : string;
  ch_completed_at : option string
}.

(** The tables the analytics read and write.  [db_balance] is the balance
    of the one [portfolio] row, [None] while that row is missing. *)
Record Database : Type := mkDatabase {
  db_balance : option Q;
  db_holdings : list Holding;
  db_transactions : list Transaction;
  db_checklists : list Checklist;
  db_mentor_triggers : list MentorTrigger;
  db_daily_scores : list DailyScore;
  db_badges : list Badge;
  db_challenges : list Challenge
}.

Definition with_daily_scores (rows : list DailyScore) (db : Database) : Database :=
  mkDatabase (db_balance db) (db_holdings db) (db_transactions db) (db_checklists db)
    (db_mentor_triggers db) rows (db_badges db) (db_challenges db).

Definition with_badges (rows : list Badge) (db : Database) : Database :=
  mkDatabase (db_balance db) (db_holdings db) (db_transactions db) (db_checklists db)
    (db_mentor_triggers db) (db_daily_scores db) rows (db_challenges db).

Definition with_challenges (rows : list Challenge) (db : Database) : Database :=
  mkDatabase (db_balance db) (db_holdings db) (db_transactions db) (db_checklists db)
    (db_mentor_triggers db) (db_daily_scores db) (db_badges db) rows.

Definition with_balance (balance : option Q) (db : Database) : Database :=
  mkDatabase balance (db_holdings db) (db_transactions db) (db_checklists db)
    (db_mentor_triggers db) (db_daily_scores db) (db_badges db) (db_challenges db).

Definition with_holdings (rows : list Holding) (db : Database) : Database :=
  mkDatabase (db_balance db) rows (db_transactions db) (db_checklists db)
    (db_mentor_triggers db) (db_daily_scores db) (db_badges db) (db_challenges db).

Definition with_transactions (rows : list Transaction) (db : Database) : Database :=
  mkDatabase (db_balance db) (db_holdings db) rows (db_checklists db)
    (db_mentor_triggers db) (db_daily_scores db) (db_badges db) (db_challenges db).

(** A call that reads or writes the database: it returns or raises, and
    leaves a database; after a raise nothing more is written. *)
Definition db_m (A : Type) : Type := Database -> pyres A * Database.

Definition dret {A : Type} (a : A) : db_m A := fun db => (Ret a, db).

Definition dbind {A B : Type} (c : db_m A) (k : A -> db_m B) : db_m B :=
  fun db =>
    match c db with
    | (Ret a, db') => k a db'
    | (Raise e, db') => (Raise e, db')
    end.

Notation "x <~ c ;; k" := (dbind c (fun x => k))
  (at level 61, c at next level, right associativity).

(** A SELECT. *)
Definition query {A : Type} (f : Database -> A) : db_m A := fun db => (Ret (f db), db).

(** A computation that does not touch the database. *)
Definition lift {A : Type} (r : pyres A) : db_m A := fun db => (r, db).

(** [for x in xs: await body(x)] *)
Fixpoint for_each {A : Type} (xs : list A) (body : A -> db_m unit) : db_m unit :=
  match xs with
  | [] => dret tt
  | x :: rest => _ <~ body x ;; for_each rest body
  end.

Module database.

Definition DEFAULT_BALANCE : Q := 100000.

Section Clock.

(** [datetime.isoformat()] and, on a day number, [date.isoformat()]. *)
Variable isoformat : datetime -> string.
Variable date_isoformat : Z -> string.

(** The balance of [get_portfolio()]. *)
Definition get_portfolio : db_m Q :=
  query (fun db => match db_balance db with Some b => b | None => DEFAULT_BALANCE end).

(** The rows of [holdings]: they carry no [currentPrice]. *)
Definition get_holdings : db_m (list Holding) :=
  query (fun db =>
           map (fun h => mkHolding (h_symbol h) (h_type h) (h_quantity h)
                           (h_averagePrice h) None)
               (db_holdings db)).

Definition get_transactions : db_m (list Transaction) :=
  query (fun db => order_by_desc t_timestamp (db_transactions db)).

Definition get_checklists_raw (days : Z) (now : datetime) : db_m (list Checklist) :=
  let cutoff := isoformat (now - timedelta_days days)%Z in
  query (fun db =>
           order_by_desc c_created_at
             (filter (fun c => String.leb cutoff (c_created_at c)) (db_checklists db))).

Definition get_mentor_triggers_raw (days : Z) (now : datetime)
  : db_m (list MentorTrigger) :=
  let cutoff := isoformat (now - timedelta_days days)%Z in
  query (fun db =>
           filter (fun t => String.leb cutoff (m_created_at t)) (db_mentor_triggers db)).

(** [INSERT ... ON CONFLICT(date) DO UPDATE]: a row of that date takes the
    new values and keeps its id; without one, an id already in the table
    violates the PRIMARY KEY; else the row is added. *)
Definition upsert_daily_score (score_id date : string)
  (risk discipline strategy psychology consistency : Q)
  (trade_count : nat) (active_day : bool) (now : datetime) : db_m unit :=
  fun db =>
    let rows := db_daily_scores db in
    let computed_at := isoformat now in
    if existsb (fun r => String.eqb (ds_date r) date) rows then
      (Ret tt,
       with_daily_scores
         (map (fun r =>
                 if String.eqb (ds_date r) date
                 then mkDailyScore (ds_id r) date risk discipline strategy psychology
                        consistency trade_count active_day computed_at
                 else r)
              rows)
         db)
    else if existsb (fun r => String.eqb (ds_id r) score_id) rows then
      (Raise IntegrityError, db)
    else
      (Ret tt,
       with_daily_scores
         (rows ++ [mkDailyScore score_id date risk discipline strategy psychology
                     consistency trade_count active_day computed_at])
         db).

Definition get_daily_scores (days : Z) (now : datetime) : db_m (list DailyScore) :=
  let cutoff := date_isoformat (date_of (now - timedelta_days days)%Z) in
  query (fun db =>
           order_by_desc ds_date
             (filter (fun r => String.leb cutoff (ds_date r)) (db_daily_scores db))).

(** [COALESCE(badges.first_earned_at, excluded.first_earned_at)] *)
Definition coalesce (old new : option string) : option string :=
  match old with
  | Some _ => old
  | None => new
  end.

(** [INSERT ... ON CONFLICT(badge_type) DO UPDATE]. *)
Definition upsert_badge (badge_id badge_type : string) (earned active : bool)
  (qualifying_days : nat) (first_earned_at : option string) (updated_at : string)
  : db_m unit :=
  fun db =>
    let rows := db_badges db in
    if existsb (fun r => String.eqb (b_badge_type r) badge_type) rows then
      (Ret tt,
       with_badges
         (map (fun r =>
                 if String.eqb (b_badge_type r) badge_type
                 then mkBadge (b_id r) badge_type earned active qualifying_days
                        (coalesce (b_first_earned_at r) first_earned_at)
                        (if active then Some updated_at else b_last_active_at r)
                        updated_at
                 else r)
              rows)
         db)
    else if existsb (fun r => String.eqb (b_id r) badge_id) rows then
      (Raise IntegrityError, db)
    else
      (Ret tt,
       with_badges
         (rows ++ [mkBadge badge_id badge_type earned active qualifying_days
                     first_earned_at
                     (if active then Some updated_at else None)
                     updated_at])
         db).

(** [INSERT INTO challenges]: the new row is active with progress 0. *)
Definition add_challenge (challenge_id challenge_type title : string)
  (target_value : Q) (started_at expires_at : string) : db_m unit :=
  fun db =>
    let rows := db_challenges db in
    if existsb (fun r => String.eqb (ch_id r) challenge_id) rows then
      (Raise IntegrityError, db)
    else
      (Ret tt,
       with_challenges
         (rows ++ [mkChallenge challenge_id challenge_type title target_value 0
                     Active started_at expires_at None])
         db).

(** [UPDATE challenges SET current_value, status, completed_at WHERE id]. *)
Definition update_challenge (challenge_id : string) (current_value : Q)
  (status : Status) (completed_at : option string) : db_m unit :=
  fun db =>
    (Ret tt,
     with_challenges
       (map (fun r =>
               if String.eqb (ch_id r) challenge_id
               then mkChallenge (ch_id r) (ch_challenge_type r) (ch_title r)
                      (ch_target_value r) current_value status
                      (ch_started_at r) (ch_expires_at r) completed_at
               else r)
            (db_challenges db))
       db).

Definition get_active_challenges : db_m (list Challenge) :=
  query (fun db =>
           order_by_desc ch_started_at
             (filter (fun r => is_active_status (ch_status r)) (db_challenges db))).

(** *** Portfolio, holdings and transactions

    The [name] column of [holdings] and [transactions] is written and never
    read by a computation: the rows of the model do not carry it. *)

(** [UPDATE portfolio SET balance = ? WHERE id = 1]: without the row nothing
    is updated. *)
Definition save_portfolio (balance : Q) : db_m unit :=
  fun db =>
    (Ret tt,
     with_balance (match db_balance db with
                   | Some _ => Some balance
                   | None => None
                   end) db).


(** [CHECK (type IN ('stock', 'crypto'))] *)
Definition asset_type_ok (type : string) : bool :=
  String.eqb type "stock" || String.eqb type "crypto".

(** [WHERE symbol = ? AND type = ?] *)
Definition same_holding (symbol type : string) (h : Holding) : bool :=
  String.eqb (h_symbol h) symbol && String.eqb (h_type h) type.

(** [INSERT ... ON CONFLICT(symbol, type) DO UPDATE]: the CHECK on the type
    comes first; a row of that key takes the new quantity and average price
    where it stands; else the row is added. *)
Definition upsert_holding (symbol type name : string) (quantity average_price : Q)
  : db_m unit :=
  fun db =>
    let rows := db_holdings db in
    if negb (asset_type_ok type) then (Raise IntegrityError, db)
    else if existsb (same_holding symbol type) rows then
      (Ret tt,
       with_holdings
         (map (fun r =>
                 if same_holding symbol type r
                 then mkHolding (h_symbol r) (h_type r) quantity average_price
                        (h_currentPrice r)
                 else r)
              rows)
         db)
    else
      (Ret tt,
       with_holdings (rows ++ [mkHolding symbol type quantity average_price None]) db).

Definition delete_holding (symbol type : string) : db_m unit :=
  fun db =>
    (Ret tt,
     with_holdings (filter (fun r => negb (same_holding symbol type r)) (db_holdings db))
       db).

Definition update_holding_quantity (symbol type : string) (quantity average_price : Q)
  : db_m unit :=
  fun db =>
    (Ret tt,
     with_holdings
       (map (fun r =>
               if same_holding symbol type r
               then mkHolding (h_symbol r) (h_type r) quantity average_price
                      (h_currentPrice r)
               else r)
            (db_holdings db))
       db).

(** [CHECK (action IN ('buy', 'sell'))] *)
Definition action_of_string (action : string) : option Action :=
  if String.eqb action "buy" then Some buy
  else if String.eqb action "sell" then Some sell
  else None.

(** [INSERT INTO transactions]: the two CHECKs and the PRIMARY KEY on [id]. *)
Definition add_transaction (tx_id symbol name type action : string)
  (quantity price total : Q) (timestamp : string) : db_m unit :=
  fun db =>
    let rows := db_transactions db in
    match action_of_string action with
    | None => (Raise IntegrityError, db)
    | Some a =>
        if negb (asset_type_ok type) then (Raise IntegrityError, db)
        else if existsb (fun r => String.eqb (t_id r) tx_id) rows then
          (Raise IntegrityError, db)
        else
          (Ret tt,
           with_transactions
             (rows ++ [mkTransaction tx_id symbol type a quantity price total timestamp])
             db)
    end.

(** *** Challenges as the endpoints return them *)

(** The dict of [_format_challenge]: the columns of the row and the
    progress in percent. *)
Record ChallengeView : Type := mkChallengeView {
  cv_challenge : Challenge;
  cv_progress : Q
}.

Definition _format_challenge (row : Challenge) : pyres ChallengeView :=
  let target := ch_target_value row in
  let current := ch_current_value row in
  ratio <- (if 0 <? target
            then q <- pydiv current target ;; Ret (q * 100)
            else Ret 0) ;;
  let progress := Qmin ratio 100 in
  Ret (mkChallengeView row (round1 progress)).

(** [SELECT COUNT( * ) FROM challenges WHERE status = 'completed'] *)
Definition get_completed_challenge_count : db_m nat :=
  query (fun db =>
           count (fun r => match ch_status r with Completed => true | _ => false end)
             (db_challenges db)).

(** *** Checklist statistics *)



End Clock.

End database.

(** ** server.py *)

Module server.

Section Endpoints.

Variable fromisoformat : string -> option datetime.
Variable isoformat : datetime -> string.
Variable date_isoformat : Z -> string.

(** [str(int(now.timestamp() * 1000))] *)
Variable timestamp_ms : datetime -> string.

Variable run_cached_sentiment : string -> option Sentiment.

(** [_compute_daily_scores_internal], at the clock reading [now] (the
    clock is read once for the run). *)
Definition _compute_daily_scores_internal (now : datetime)
  : db_m (scoring_engine.AllScores * list scoring_engine.BadgeResult) :=
  let today := date_isoformat (date_of now) in
  transactions <~ database.get_transactions ;;
  holdings <~ database.get_holdings ;;
  balance <~ database.get_portfolio ;;
  checklists <~ database.get_checklists_raw isoformat 30 now ;;
  mentor_triggers <~ database.get_mentor_triggers_raw isoformat 30 now ;;
  daily_history <~ database.get_daily_scores date_isoformat 30 now ;;
  let cutoff := isoformat (now - timedelta_days 30)%Z in
  let recent_txns := filter (fun t => String.leb cutoff (t_timestamp t)) transactions in
  let trade_count := List.length recent_txns in
  let active_dates :=
    distinct
      (filter (fun ts => negb (String.eqb ts ""))
         (map (fun t => String.substring 0 10 (t_timestamp t)) recent_txns)) in
  let active_days := List.length active_dates in
  scores <~ lift (scoring_engine.compute_all_scores fromisoformat holdings balance
                    checklists recent_txns mentor_triggers daily_history
                    active_days trade_count) ;;
  let score_id := ("ds-" ++ today)%string in
  _ <~ database.upsert_daily_score isoformat score_id today
         (scoring_engine.as_risk scores) (scoring_engine.as_discipline scores)
         (scoring_engine.as_strategy scores) (scoring_engine.as_psychology scores)
         (scoring_engine.as_consistency scores)
         trade_count (0 <? active_days)%nat now ;;
  updated_daily <~ database.get_daily_scores date_isoformat 30 now ;;
  let badge_results := scoring_engine.evaluate_badges updated_daily (Some mentor_triggers) in
  let now_s := isoformat now in
  _ <~ for_each badge_results
         (fun b =>
            let badge_id := ("badge-" ++ scoring_engine.br_badge_type b)%string in
            database.upsert_badge badge_id (scoring_engine.br_badge_type b)
              (scoring_engine.br_earned b) (scoring_engine.br_active b)
              (scoring_engine.br_qualifying_days b)
              (if scoring_engine.br_earned b then Some now_s else None) now_s) ;;
  dret (scores, badge_results).

(** The id and the row [challenges_refresh] seeds for a template. *)
Definition seed_id (now : datetime) (tmpl : ChallengeTemplate) : string :=
  ("ch-" ++ tm_challenge_type tmpl ++ "-" ++ timestamp_ms now)%string.

Definition seed_challenge (now : datetime) (tmpl : ChallengeTemplate) : db_m unit :=
  let expires := isoformat (now + timedelta_days (tm_duration_days tmpl))%Z in
  database.add_challenge (seed_id now tmpl) (tm_challenge_type tmpl) (tm_title tmpl)
    (tm_target_value tmpl) (isoformat now) expires.

(** The body of [for ch in active] in [challenges_refresh]. *)
Definition refresh_challenge (now : datetime) (holdings : list Holding) (balance : Q)
  (transactions : list Transaction) (checklists_raw : list Checklist)
  (ch : Challenge) : db_m unit :=
  progress_val <~ lift (challenges.compute_challenge_progress fromisoformat
                          run_cached_sentiment now (ch_challenge_type ch)
                          holdings balance transactions checklists_raw) ;;
  if ch_target_value ch <=? progress_val then
    database.update_challenge (ch_id ch) progress_val Completed (Some (isoformat now))
  else if String.ltb (ch_expires_at ch) (isoformat now) then
    database.update_challenge (ch_id ch) progress_val Expired None
  else
    database.update_challenge (ch_id ch) progress_val Active None.

Definition challenges_refresh (now : datetime) : db_m (list Challenge) :=
  active <~ database.get_active_challenges ;;
  transactions <~ database.get_transactions ;;
  holdings <~ database.get_holdings ;;
  balance <~ database.get_portfolio ;;
  checklists_raw <~ database.get_checklists_raw isoformat 30 now ;;
  _ <~ for_each active
         (refresh_challenge now holdings balance transactions checklists_raw) ;;
  remaining <~ database.get_active_challenges ;;
  let active_types := map ch_challenge_type remaining in
  _ <~ for_each challenges.CHALLENGE_TEMPLATES
         (fun tmpl =>
            if existsb (String.eqb (tm_challenge_type tmpl)) active_types
            then dret tt
            else seed_challenge now tmpl) ;;
  updated <~ database.get_active_challenges ;;
  dret updated.

(** *** The trade endpoint *)

Record TradeRequest : Type := mkTradeRequest {
  tr_symbol : string;
  tr_name : string;
  tr_type : string;
  tr_action : string;
  tr_quantity : Q;
  tr_price : Q
}.

(** What the client gets: the success message (its three arguments), or
    the [HTTPException] the endpoint raised.  Every [raise HTTPException]
    of the endpoint comes before its first write, so it is modelled as the
    return of the error response. *)
Inductive TradeResponse : Type :=
| TradeSuccess (action : string) (quantity : Q) (symbol : string)
| HTTPException (status_code : Z) (detail : string).

(** [db_execute_trade], at the clock reading [now]; [tx_id] is the id the
    endpoint builds from the clock and [uuid4]. *)
Definition db_execute_trade (now : datetime) (tx_id : string) (trade : TradeRequest)
  : db_m TradeResponse :=
  let total := tr_quantity trade * tr_price trade in
  if tr_quantity trade <=? 0 then dret (HTTPException 400 "Invalid quantity")
  else
    balance <~ database.get_portfolio ;;
    holdings <~ database.get_holdings ;;
    let existing :=
      find (database.same_holding (tr_symbol trade) (tr_type trade)) holdings in
    let record_transaction : db_m TradeResponse :=
      _ <~ database.add_transaction tx_id (tr_symbol trade) (tr_name trade)
             (tr_type trade) (tr_action trade) (tr_quantity trade) (tr_price trade)
             total (isoformat now) ;;
      dret (TradeSuccess (tr_action trade) (tr_quantity trade) (tr_symbol trade)) in
    if String.eqb (tr_action trade) "buy" then
      if balance <? total then dret (HTTPException 400 "Insufficient balance")
      else
        let new_balance := balance - total in
        _ <~ match existing with
             | Some e =>
                 let new_qty := h_quantity e + tr_quantity trade in
                 new_avg <~ lift (pydiv (h_quantity e * h_averagePrice e
                                         + tr_quantity trade * tr_price trade) new_qty) ;;
                 database.upsert_holding (tr_symbol trade) (tr_type trade)
                   (tr_name trade) new_qty new_avg
             | None =>
                 database.upsert_holding (tr_symbol trade) (tr_type trade)
                   (tr_name trade) (tr_quantity trade) (tr_price trade)
             end ;;
        _ <~ database.save_portfolio new_balance ;;
        record_transaction
    else if String.eqb (tr_action trade) "sell" then
      match existing with
      | None => dret (HTTPException 400 "You do not own this asset")
      | Some e =>
          if h_quantity e <? tr_quantity trade
          then dret (HTTPException 400 "Insufficient holdings")
          else
            let new_balance := balance + total in
            _ <~ (if Qeq_bool (h_quantity e) (tr_quantity trade)
                  then database.delete_holding (tr_symbol trade) (tr_type trade)
                  else
                    let new_qty := h_quantity e - tr_quantity trade in
                    database.update_holding_quantity (tr_symbol trade) (tr_type trade)
                      new_qty (h_averagePrice e)) ;;
            _ <~ database.save_portfolio new_balance ;;
            record_transaction
      end
    else dret (HTTPException 400 "Invalid action. Must be 'buy' or 'sell'.").


(** *** The challenges endpoint *)

(** [for x in xs: ys.append(f(x))] for an [f] that can raise. *)
Fixpoint map_pyres {A B : Type} (f : A -> pyres B) (xs : list A) : pyres (list B) :=
  match xs with
  | [] => Ret []
  | x :: rest =>
      y <- f x ;;
      ys <- map_pyres f rest ;;
      Ret (y :: ys)
  end.

(** The body of [for ch in active] in [challenges_get_active]: the dict
    gets the computed progress as [currentValue] and its percentage. *)
Definition show_challenge (now : datetime) (holdings : list Holding) (balance : Q)
  (transactions : list Transaction) (checklists_raw : list Checklist)
  (ch : Challenge) : pyres database.ChallengeView :=
  progress_val <- challenges.compute_challenge_progress fromisoformat
                    run_cached_sentiment now (ch_challenge_type ch)
                    holdings balance transactions checklists_raw ;;
  ratio <- (if 0 <? ch_target_value ch
            then q <- pydiv progress_val (ch_target_value ch) ;; Ret (q * 100)
            else Ret 0) ;;
  Ret (database.mkChallengeView
         (mkChallenge (ch_id ch) (ch_challenge_type ch) (ch_title ch)
            (ch_target_value ch) progress_val (ch_status ch)
            (ch_started_at ch) (ch_expires_at ch) (ch_completed_at ch))
         (Qmin (round1 ratio) 100)).

Definition challenges_get_active (now : datetime) : db_m (list database.ChallengeView) :=
  active <~ database.get_active_challenges ;;
  active <~ match active with
            | [] =>
                _ <~ for_each challenges.CHALLENGE_TEMPLATES (seed_challenge now) ;;
                database.get_active_challenges
            | _ :: _ => dret active
            end ;;
  transactions <~ database.get_transactions ;;
  holdings <~ database.get_holdings ;;
  balance <~ database.get_portfolio ;;
  checklists_raw <~ database.get_checklists_raw isoformat 30 now ;;
  lift (map_pyres (show_challenge now holdings balance transactions checklists_raw)
          active).

End Endpoints.

(** *** PriceCache

    The in-memory cache of quotes: a dict from a key to a value and its
    expiry time ([time.time()], in seconds). *)

Module PriceCache.

Section Cache.

Variable V : Type.

Record t : Type := mk {
  _cache : list (string * (V * Q));
  default_ttl : Z
}.

(** [self._cache[key]], [self._cache[key] = entry], [del self._cache[key]] *)
Fixpoint lookup (key : string) (d : list (string * (V * Q))) : option (V * Q) :=
  match d with
  | [] => None
  | (k, e) :: rest => if String.eqb k key then Some e else lookup key rest
  end.

Fixpoint assign (key : string) (entry : V * Q) (d : list (string * (V * Q)))
  : list (string * (V * Q)) :=
  match d with
  | [] => [(key, entry)]
  | (k, e) :: rest =>
      if String.eqb k key then (k, entry) :: rest
      else (k, e) :: assign key entry rest
  end.

Fixpoint del (key : string) (d : list (string * (V * Q))) : list (string * (V * Q)) :=
  match d with
  | [] => []
  | (k, e) :: rest => if String.eqb k key then rest else (k, e) :: del key rest
  end.

(** [__init__(default_ttl)] *)
Definition init (default_ttl : Z) : t := mk [] default_ttl.

(** [get(key)] when [time.time()] reads [time]. *)
Definition get (time : Q) (key : string) (self : t) : option V * t :=
  match lookup key (_cache self) with
  | Some (value, expiry) =>
      if time <? expiry then (Some value, self)
      else (None, mk (del key (_cache self)) (default_ttl self))
  | None => (None, self)
  end.

(** [set(key, value, ttl)]: [ttl or self.default_ttl] takes the default
    for [None] and for [0]. *)
Definition set (time : Q) (key : string) (value : V) (ttl : option Z) (self : t) : t :=
  let effective :=
    match ttl with
    | Some n => if (n =? 0)%Z then default_ttl self else n
    | None => default_ttl self
    end in
  let expiry := time + inject_Z effective in
  mk (assign key (value, expiry) (_cache self)) (default_ttl self).

Definition clear (self : t) : t := mk [] (default_ttl self).

End Cache.

End PriceCache.

End server.

(** ** A parser for the examples

    [sample_fromisoformat] reads the two shapes [datetime.isoformat()]
    produces for a naive datetime, [YYYY-MM-DDTHH:MM:SS] and
    [YYYY-MM-DDTHH:MM:SS.ffffff], and rejects every other string.  It stands
    for [datetime.fromisoformat] in the examples only; the theorems hold for
    every parser. *)

Definition digit_of (c : ascii) : option Z :=
  let n := nat_of_ascii c in
  if ((48 <=? n) && (n <=? 57))%nat then Some (Z.of_nat (n - 48)) else None.

Fixpoint number_from (s : string) (acc : Z) : option Z :=
  match s with
  | EmptyString => Some acc
  | String c rest =>
      match digit_of c with
      | Some d => number_from rest (acc * 10 + d)%Z
      | None => None
      end
  end.

(** The decimal number written by the [len] characters of [s] from [pos]. *)
Definition number_at (pos len : nat) (s : string) : option Z :=
  let part := String.substring pos len s in
  if (String.length part =? len)%nat then number_from part 0 else None.

Definition char_at (pos : nat) (c : ascii) (s : string) : bool :=
  match String.get pos s with
  | Some c' => Ascii.eqb c c'
  | None => false
  end.

(** Days from 1970-01-01 to a date of the proleptic Gregorian calendar. *)
Definition days_from_civil (y m d : Z) : Z :=
  let y' := (if m <=? 2 then y - 1 else y)%Z in
  let era := (y' / 400)%Z in
  let yoe := (y' - era * 400)%Z in
  let mp := ((m + 9) mod 12)%Z in
  let doy := ((153 * mp + 2) / 5 + d - 1)%Z in
  let doe := (yoe * 365 + yoe / 4 - yoe / 100 + doy)%Z in
  (era * 146097 + doe - 719468)%Z.

Definition days_in_month (y m : Z) : Z :=
  if (m =? 2)%Z then
    if ((y mod 4 =? 0) && (negb (y mod 100 =? 0) || (y mod 400 =? 0)))%Z
    then 29%Z else 28%Z
  else if ((m =? 4) || (m =? 6) || (m =? 9) || (m =? 11))%Z then 30%Z
  else 31%Z.

Definition sample_fromisoformat (s : string) : option datetime :=
  let n := String.length s in
  if ((n =? 19) || ((n =? 26) && char_at 19 "."%char s))%nat
     && char_at 4 "-"%char s && char_at 7 "-"%char s && char_at 10 "T"%char s
     && char_at 13 ":"%char s && char_at 16 ":"%char s
  then
    match number_at 0 4 s, number_at 5 2 s, number_at 8 2 s,
          number_at 11 2 s, number_at 14 2 s, number_at 17 2 s,
          (if (n =? 26)%nat then number_at 20 6 s else Some 0%Z) with
    | Some y, Some m, Some d, Some hh, Some mm, Some ss, Some us =>
        if ((1 <=? y) && (1 <=? m) && (m <=? 12) && (1 <=? d)
            && (d <=? days_in_month y m) && (hh <? 24) && (mm <? 60) && (ss <? 60))%Z
        then Some ((((days_from_civil y m d * 24 + hh) * 60 + mm) * 60 + ss)
                   * usec_per_second + us)%Z
        else None
    | _, _, _, _, _, _, _ => None
    end
  else None.

(** The inverse direction, for the examples: [sample_isoformat] and
    [sample_date_isoformat] write a naive datetime and a day number as
    [datetime.isoformat()] and [date.isoformat()] do, and
    [sample_timestamp_ms] writes the milliseconds since the epoch. *)

Definition digit_char (d : Z) : ascii := ascii_of_nat (48 + Z.to_nat d).

(** The last [width] decimal digits of [n], most significant first. *)
Fixpoint decimal (width : nat) (n : Z) (acc : string) : string :=
  match width with
  | O => acc
  | S w => decimal w (n / 10)%Z (String (digit_char (n mod 10)%Z) acc)
  end.

(** The year, month and day of a day number. *)
Definition civil_from_days (z : Z) : Z * Z * Z :=
  let z' := (z + 719468)%Z in
  let era := (z' / 146097)%Z in
  let doe := (z' - era * 146097)%Z in
  let yoe := ((doe - doe / 1460 + doe / 36524 - doe / 146096) / 365)%Z in
  let doy := (doe - (365 * yoe + yoe / 4 - yoe / 100))%Z in
  let mp := ((5 * doy + 2) / 153)%Z in
  let d := (doy - (153 * mp + 2) / 5 + 1)%Z in
  let m := (if mp <? 10 then mp + 3 else mp - 9)%Z in
  let y := (yoe + era * 400 + (if m <=? 2 then 1 else 0))%Z in
  (y, m, d).

Definition sample_date_isoformat (day : Z) : string :=
  let '(y, m, d) := civil_from_days day in
  (decimal 4 y "" ++ "-" ++ decimal 2 m "" ++ "-" ++ decimal 2 d "")%string.

Definition sample_isoformat (dt : datetime) : string :=
  let day := (dt / usec_per_day)%Z in
  let rest := (dt mod usec_per_day)%Z in
  let us := (rest mod usec_per_second)%Z in
  let secs := (rest / usec_per_second)%Z in
  (sample_date_isoformat day ++ "T" ++ decimal 2 (secs / 3600) "" ++ ":"
   ++ decimal 2 ((secs / 60) mod 60) "" ++ ":" ++ decimal 2 (secs mod 60) ""
   ++ (if (us =? 0)%Z then "" else "." ++ decimal 6 us ""))%string.

Definition sample_timestamp_ms (dt : datetime) : string := decimal 13 (dt / 1000)%Z "".

(** * The formulas of the specification *)

(** Risk, as the specification words it: 50 when the total is not positive,
    else 100 - 15 max(0, 3 - n) - 2 max(0, 10 - cashPct)
    - sum of 1.5 max(0, positionPct - 25), clamped. *)
Definition risk_formula (holdings : list Holding) (balance : Q) : Q :=
  let value h := h_quantity h * holding_price h in
  let total := balance + Qsum (map value holdings) in
  if total <=? 0 then 50
  else
    let cashPct := balance / total * 100 in
    let positionPct h := value h / total * 100 in
    clamp (100
           - 15 * Qmax 0 (3 - Qnat (List.length holdings))
           - 2 * Qmax 0 (10 - cashPct)
           - Qsum (map (fun h => (3 # 2) * Qmax 0 (positionPct h - 25)) holdings)).

(** Strategy, as the specification words it. *)
Section StrategyFormula.

Variable fromisoformat : string -> option datetime.
Variable transactions : list Transaction.
















End StrategyFormula.

(** Panic sells, as the specification words them. *)
Section PanicSellPairs.

Variable fromisoformat : string -> option datetime.
Variable now : datetime.

(** The transactions of one symbol, in the order of the list. *)
Definition of_symbol (sym : string) (transactions : list Transaction)
  : list Transaction :=
  filter (fun t => String.eqb (t_symbol t) sym) transactions.

(** A sell and a buy qualify when the sell lies in the trailing 7 days, the
    buy (of a positive price) lies more than 0 and at most 48 hours before
    it, and the sell price is more than 10%% below the buy price. *)
Definition qualifying_pair (s b : Transaction) : bool :=
  match mentor_engine._parse_timestamp fromisoformat (t_timestamp s),
        mentor_engine._parse_timestamp fromisoformat (t_timestamp b) with
  | Some sell_ts, Some buy_ts =>
      let hours := total_seconds sell_ts buy_ts / 3600 in
      (now - timedelta_days 7 <=? sell_ts)%Z
      && (0 <? t_price b)
      && ((0 <? hours) && (hours <=? 48))
      && ((t_price s - t_price b) / t_price b * 100 <? -(10))
  | _, _ => false
  end.

(** The first qualifying pair of a symbol: its first sell that has a
    qualifying buy, with the first such buy. *)
Definition first_qualifying_pair (sym : string) (transactions : list Transaction)
  : option (Transaction * Transaction) :=
  let buys := filter is_buy (of_symbol sym transactions) in
  let sells := filter is_sell (of_symbol sym transactions) in
  match find (fun s => existsb (qualifying_pair s) buys) sells with
  | None => None
  | Some s =>
      match find (qualifying_pair s) buys with
      | None => None
      | Some b => Some (s, b)
      end
  end.

(** The alert that reports a pair: its loss in percent and the whole hours
    between the buy and the sell. *)
Definition pair_alert (sym : string) (p : Transaction * Transaction) : Alert :=
  let (s, b) := p in
  let hours :=
    match mentor_engine._parse_timestamp fromisoformat (t_timestamp s),
          mentor_engine._parse_timestamp fromisoformat (t_timestamp b) with
    | Some sell_ts, Some buy_ts => total_seconds sell_ts buy_ts / 3600
    | _, _ => 0
    end in
  mentor_engine.panic_alert sym ((t_price s - t_price b) / t_price b * 100) hours.

End PanicSellPairs.

(** The row [r] once a refresh at the time [iso_now] has decided on the
    challenge [ch] with the progress [p]: completed (and timestamped) when
    the progress reaches the target, else expired when the time is past the
    expiry, else still active; the progress is stored in each case. *)
Definition stamped (p : Q) (iso_now : string) (ch r : Challenge) : Challenge :=
  if ch_target_value ch <=? p then
    mkChallenge (ch_id r) (ch_challenge_type r) (ch_title r) (ch_target_value r)
      p Completed (ch_started_at r) (ch_expires_at r) (Some iso_now)
  else if String.ltb (ch_expires_at ch) iso_now then
    mkChallenge (ch_id r) (ch_challenge_type r) (ch_title r) (ch_target_value r)
      p Expired (ch_started_at r) (ch_expires_at r) None
  else
    mkChallenge (ch_id r) (ch_challenge_type r) (ch_title r) (ch_target_value r)
      p Active (ch_started_at r) (ch_expires_at r) None.

(** Challenges, as the specification words them. *)
Section ChallengeRefresh.

Variable fromisoformat : string -> option datetime.
Variable isoformat : datetime -> string.
Variable timestamp_ms : datetime -> string.
Variable run_cached_sentiment : string -> option Sentiment.
Variable now : datetime.

(** The value a read returns on a database. *)
Definition read {A : Type} (c : db_m A) (db : Database) (default : A) : A :=
  match fst (c db) with
  | Ret a => a
  | Raise _ => default
  end.

(** The progress [challenges_refresh] computes for a challenge, from the
    holdings, balance, transactions and checklists it has read. *)
Definition computed_progress (db : Database) (ch : Challenge) : Q :=
  match challenges.compute_challenge_progress fromisoformat run_cached_sentiment now
          (ch_challenge_type ch)
          (read database.get_holdings db [])
          (read database.get_portfolio db 0)
          (read database.get_transactions db [])
          (read (database.get_checklists_raw isoformat 30 now) db []) with
  | Ret v => v
  | Raise _ => 0
  end.

Definition is_active (ch : Challenge) : bool := is_active_status (ch_status ch).

(** The active challenges of a type. *)
Definition active_of_type (challenge_type : string) (rows : list Challenge)
  : list Challenge :=
  filter (fun r => is_active r && String.eqb (ch_challenge_type r) challenge_type) rows.

(** The PRIMARY KEY of [challenges]. *)
Definition unique_ids (rows : list Challenge) : Prop := NoDup (map ch_id rows).

Definition at_most_one_active_per_type (rows : list Challenge) : Prop :=
  forall challenge_type, (List.length (active_of_type challenge_type rows) <= 1)%nat.

(** No row carries an id this refresh would give to a seeded challenge. *)
Definition fresh_seed_ids (rows : list Challenge) : Prop :=
  forall tmpl, In tmpl challenges.CHALLENGE_TEMPLATES ->
               ~ In (server.seed_id timestamp_ms now tmpl) (map ch_id rows).

(** An active row after the first loop of the refresh. *)
Definition refreshed (db : Database) (r : Challenge) : Challenge :=
  if is_active r then stamped (computed_progress db r) (isoformat now) r r else r.

(** The row seeded for a template. *)
Definition seed_row (tmpl : ChallengeTemplate) : Challenge :=
  mkChallenge (server.seed_id timestamp_ms now tmpl) (tm_challenge_type tmpl)
    (tm_title tmpl) (tm_target_value tmpl) 0 Active (isoformat now)
    (isoformat (now + timedelta_days (tm_duration_days tmpl))%Z) None.

(** The templates whose type has no active challenge among [rows]. *)
Definition missing_templates (rows : list Challenge) : list ChallengeTemplate :=
  filter (fun tmpl => match active_of_type (tm_challenge_type tmpl) rows with
                      | [] => true
                      | _ :: _ => false
                      end)
         challenges.CHALLENGE_TEMPLATES.

(** The table after a refresh: every row refreshed, then a seeded row for
    each template left without an active challenge. *)
Definition refreshed_table (db : Database) : list Challenge :=
  let rows := map (refreshed db) (db_challenges db) in
  rows ++ map seed_row (missing_templates rows).

End ChallengeRefresh.





(** The results of an evaluation that carry a given badge type. *)
Definition badges_of_type (badge_type : string)
  (results : list scoring_engine.BadgeResult) : list scoring_engine.BadgeResult :=
  filter (fun b => String.eqb (scoring_engine.br_badge_type b) badge_type) results.

(** The threshold rule of [market_aware]: a psychology score of at least 70
    on at least 21 days of the history. *)
Definition market_aware_threshold_rule (daily_scores : list DailyScore) : bool :=
  (21 <=? count (fun ds => (70 <=? psychology_score ds)%Q) daily_scores)%nat.

(** Sample data: a day with every score at 90, and a [sentiment_fomo]
    trigger. *)
Definition sample_good_day (date : string) : DailyScore :=
  mkDailyScore ("ds-" ++ date) date 90 90 90 90 90 1 true date.

Definition sample_good_month : list DailyScore :=
  map sample_good_day
    [ "2024-03-01"; "2024-03-02"; "2024-03-03"; "2024-03-04"; "2024-03-05";
      "2024-03-06"; "2024-03-07"; "2024-03-08"; "2024-03-09"; "2024-03-10";
      "2024-03-11"; "2024-03-12"; "2024-03-13"; "2024-03-14"; "2024-03-15";
      "2024-03-16"; "2024-03-17"; "2024-03-18"; "2024-03-19"; "2024-03-20";
      "2024-03-21"; "2024-03-22" ]%string.

Definition sample_fomo_trigger : MentorTrigger :=
  mkMentorTrigger "sentiment_fomo" "warning" (Some "AAPL"%string) false
    "2024-03-20T10:00:00".

(** Sample data: two buys of AAPL, then a winning and a losing sell. *)
Definition sample_trades : list Transaction :=
  [ mkTransaction "t1" "AAPL" "stock" buy 10 100 1000 "2024-03-01T10:00:00";
    mkTransaction "t2" "AAPL" "stock" buy 10 120 1200 "2024-03-02T10:00:00";
    mkTransaction "t3" "AAPL" "stock" sell 5 130 650 "2024-03-06T10:00:00";
    mkTransaction "t4" "AAPL" "stock" sell 5 99 495 "2024-03-07T10:00:00" ]%string.

(** Sample data: on 2024-03-10 at noon, two symbols each sold at a loss of
    more than 10%% within 48 hours of their buy. *)
Definition sample_now : datetime := 1710072000000000%Z.

Definition sample_panic_trades : list Transaction :=
  [ mkTransaction "p1" "AAPL" "stock" buy 10 100 1000 "2024-03-09T10:00:00";
    mkTransaction "p2" "AAPL" "stock" sell 10 80 800 "2024-03-09T20:00:00";
    mkTransaction "p3" "MSFT" "stock" buy 5 200 1000 "2024-03-09T10:00:00";
    mkTransaction "p4" "MSFT" "stock" sell 5 150 750 "2024-03-10T08:00:00" ]%string.

(** Sample data: a portfolio with no cash, one holding and seven
    [panic_sell] triggers of the day before; no score has been computed
    yet.  [sample_later] is one hour after [sample_now], on the same day. *)
Definition sample_panic_trigger : MentorTrigger :=
  mkMentorTrigger "panic_sell" "critical" (Some "AAPL"%string) false
    "2024-03-09T10:00:00".

Definition sample_stressed_db : Database :=
  mkDatabase (Some 0)
    [mkHolding "AAPL" "stock" 1 100 None]
    [] []
    (repeat sample_panic_trigger 7)
    [] [] [].

Definition sample_later : datetime := (sample_now + timedelta_hours 1)%Z.

(** The aggregator with the sample clock functions. *)
Definition sample_aggregator (now : datetime)
  : db_m (scoring_engine.AllScores * list scoring_engine.BadgeResult) :=
  server._compute_daily_scores_internal sample_fromisoformat sample_isoformat
    sample_date_isoformat now.

(** The [firstEarnedAt] of a badge type, [None] when the badge has no row
    or has never been earned. *)
Definition first_earned_at_of (badge_type : string) (db : Database) : option string :=
  match find (fun r => String.eqb (b_badge_type r) badge_type) (db_badges db) with
  | Some r => b_first_earned_at r
  | None => None
  end.

(** A call keeps a property of the database, whether it returns or raises. *)
Definition keeps {A : Type} (P : Database -> Prop) (c : db_m A) : Prop :=
  forall db, P db -> P (snd (c db)).

(** The arguments of one call of [upsert_badge]. *)
Record BadgeUpsert : Type := mkBadgeUpsert {
  bu_badge_id : string;
  bu_badge_type : string;
  bu_earned : bool;
  bu_active : bool;
  bu_qualifying_days : nat;
  bu_first_earned_at : option string;
  bu_updated_at : string
}.

Definition apply_badge_upsert (u : BadgeUpsert) : db_m unit :=
  database.upsert_badge (bu_badge_id u) (bu_badge_type u) (bu_earned u) (bu_active u)
    (bu_qualifying_days u) (bu_first_earned_at u) (bu_updated_at u).

(** The database after a sequence of calls, one after the other. *)
Definition after_calls {A : Type} (calls : list (db_m A)) (db : Database) : Database :=
  fold_left (fun db c => snd (c db)) calls db.

(** Sample data: a badge earned on 2024-02-01, and an evaluation of
    2024-03-10 in which it is not earned. *)
Definition sample_badge_db : Database :=
  mkDatabase (Some 100000) [] [] [] [] []
    [mkBadge "badge-risk_guardian" "risk_guardian" true true 25
       (Some "2024-02-01T00:05:00"%string) (Some "2024-02-20T00:05:00"%string)
       "2024-02-20T00:05:00"]
    [].

Definition sample_lost_badge : BadgeUpsert :=
  mkBadgeUpsert "badge-risk_guardian" "risk_guardian" false false 3 None
    "2024-03-10T12:00:00".

(** Sample data: on 2024-03-10 at noon, a cash-only portfolio with an
    active challenge it completes, an active challenge past its expiry, and
    a challenge completed earlier. *)
Definition sample_challenge_db : Database :=
  mkDatabase (Some 100000) [] [] [] [] [] []
    [ mkChallenge "ch-cash_reserve-1708000000000" "cash_reserve" "Cash Discipline"
        7 0 Active "2024-02-15T12:26:40" "2024-03-16T12:26:40" None;
      mkChallenge "ch-trade_variety-1707000000000" "trade_variety"
        "Multi-Market Learner" 2 0 Active "2024-02-03T22:40:00" "2024-03-04T22:40:00"
        None;
      mkChallenge "ch-hold_duration-1700000000000" "hold_duration" "Patient Investor"
        5 5 Completed "2023-11-14T22:13:20" "2023-12-14T22:13:20"
        (Some "2023-11-20T08:00:00"%string) ]%string.

(** The refresh with the sample clock functions and an empty sentiment
    cache. *)
Definition sample_refresh (now : datetime) : db_m (list Challenge) :=
  server.challenges_refresh sample_fromisoformat sample_isoformat sample_timestamp_ms
    (fun _ => None) now.

(** A computation returns a score: it does not raise, and its value lies
    in [0,100]. *)
Definition in_range (r : pyres Q) : Prop :=
  exists v, r = Ret v /\ 0 <= v /\ v <= 100.

(** * Notions for the further properties *)

(** ** The portfolio tables *)

(** The key of a holding: [PRIMARY KEY (symbol, type)]. *)
Definition holding_key (h : Holding) : string * string := (h_symbol h, h_type h).

(** The constraints of the [holdings] table. *)
Definition holdings_constraints (rows : list Holding) : Prop :=
  NoDup (map holding_key rows) /\
  Forall (fun h => database.asset_type_ok (h_type h) = true) rows.


(** The row of key [(symbol, type)] with a new quantity and average price. *)
Definition set_position (symbol type : string) (quantity average_price : Q)
  (rows : list Holding) : list Holding :=
  map (fun r =>
         if database.same_holding symbol type r
         then mkHolding (h_symbol r) (h_type r) quantity average_price (h_currentPrice r)
         else r)
      rows.

(** The balance and the holdings an accepted trade leaves, and its action;
    [None] for a trade the endpoint turns down. *)
Definition trade_effect (balance : Q) (rows : list Holding) (trade : server.TradeRequest)
  : option (Q * list Holding * Action) :=
  let symbol := server.tr_symbol trade in
  let type := server.tr_type trade in
  let quantity := server.tr_quantity trade in
  let price := server.tr_price trade in
  let total := quantity * price in
  if quantity <=? 0 then None
  else
    match database.action_of_string (server.tr_action trade),
          find (database.same_holding symbol type) rows with
    | Some buy, Some e =>
        if (balance <? total) || negb (database.asset_type_ok type)
           || Qeq_bool (h_quantity e + quantity) 0
        then None
        else
          Some (balance - total,
                set_position symbol type (h_quantity e + quantity)
                  ((h_quantity e * h_averagePrice e + quantity * price)
                   / (h_quantity e + quantity)) rows,
                buy)
    | Some buy, None =>
        if (balance <? total) || negb (database.asset_type_ok type) then None
        else Some (balance - total, rows ++ [mkHolding symbol type quantity price None], buy)
    | Some sell, Some e =>
        if h_quantity e <? quantity then None
        else
          Some (balance + total,
                if Qeq_bool (h_quantity e) quantity
                then filter (fun r => negb (database.same_holding symbol type r)) rows
                else set_position symbol type (h_quantity e - quantity)
                       (h_averagePrice e) rows,
                sell)
    | _, _ => None
    end.

(** The database once the balance and the holdings of an accepted trade
    are written, and once its transaction is recorded too. *)
Definition settled (effect : Q * list Holding * Action) (db : Database) : Database :=
  let '(balance, rows, _) := effect in
  with_balance (match db_balance db with
                | Some _ => Some balance
                | None => None
                end)
    (with_holdings rows db).

Definition traded (isoformat : datetime -> string) (now : datetime) (tx_id : string)
  (trade : server.TradeRequest) (effect : Q * list Holding * Action) (db : Database)
  : Database :=
  with_transactions
    (db_transactions db ++
     [mkTransaction tx_id (server.tr_symbol trade) (server.tr_type trade) (snd effect)
        (server.tr_quantity trade) (server.tr_price trade)
        (server.tr_quantity trade * server.tr_price trade) (isoformat now)])
    (settled effect db).

(** The balance [get_portfolio] reads. *)
Definition balance_of (db : Database) : Q :=
  match db_balance db with
  | Some b => b
  | None => database.DEFAULT_BALANCE
  end.




(** The invariants of the [holdings] table under trading. *)
Definition portfolio_ok (rows : list Holding) : Prop :=
  holdings_constraints rows /\ Forall (fun h => 0 < h_quantity h) rows.




(** Sample data: 1000 in cash and two AAPL shares bought at 100. *)
Definition sample_portfolio_db : Database :=
  mkDatabase (Some 1000)
    [mkHolding "AAPL" "stock" 2 100 None]
    [mkTransaction "t1" "AAPL" "stock" buy 2 100 200 "2024-03-09T10:00:00"]
    [] [] [] [] [].

Definition sample_trade (symbol action : string) (quantity price : Q)
  : server.TradeRequest :=
  server.mkTradeRequest symbol symbol "stock" action quantity price.

Definition sample_execute_trade (tx_id : string) (trade : server.TradeRequest)
  : db_m server.TradeResponse :=
  server.db_execute_trade sample_isoformat sample_now tx_id trade.

(** ** The mentor checks *)

(** The share of a holding in the portfolio, in percent. *)
Definition share_pct (total_value : Q) (h : Holding) : Q :=
  h_quantity h * holding_price h / total_value * 100.


(** The triggers of a pattern type in the history. *)
Definition prior_occurrences (trigger_history : list MentorTrigger) (pt : string) : nat :=
  count (fun t => String.eqb (m_pattern_type t) pt) trigger_history.

Definition pattern_counts_of (trigger_history : list MentorTrigger)
  : list (string * nat) :=
  fold_left (fun counts t => mentor_engine.count_pattern (m_pattern_type t) counts)
    trigger_history [].

(** A dict of counts: no key twice, no count of zero. *)
Definition counts_ok (d : list (string * nat)) : Prop :=
  NoDup (map fst d) /\ Forall (fun kn => (0 < snd kn)%nat) d.

(** Sample data: three positions of equal value and no cash. *)
Definition sample_three_positions : list Holding :=
  [mkHolding "AAPL" "stock" 1 100 None;
   mkHolding "MSFT" "stock" 1 100 None;
   mkHolding "BTC" "crypto" 1 100 None].

(** ** Grades, badges and streaks *)

(** The grades, from the worst to the best. *)
Definition grade_rank (grade : string) : nat :=
  if String.eqb grade "A+" then 7
  else if String.eqb grade "A" then 6
  else if String.eqb grade "B+" then 5
  else if String.eqb grade "B" then 4
  else if String.eqb grade "C+" then 3
  else if String.eqb grade "C" then 2
  else if String.eqb grade "D" then 1
  else 0.

(** The result of a badge type in the list [evaluate_badges] returns. *)
Definition earned_badge (badge_type : string)
  (results : list scoring_engine.BadgeResult) : bool :=
  existsb (fun r => String.eqb (scoring_engine.br_badge_type r) badge_type
                    && scoring_engine.br_earned r)
    results.

(** A list in which every key is at least the keys after it. *)
Fixpoint descending {A : Type} (key : A -> Q) (xs : list A) : Prop :=
  match xs with
  | [] => True
  | x :: rest => Forall (fun y => key y <= key x) rest /\ descending key rest
  end.

(** A day whose five scores average 60 or more, and the number of such
    days at the head of a list. *)
Definition good_day (s : DailyScore) : bool :=
  60 <=? Qsum (map (fun d => scoring_engine.score_of d s) scoring_engine.score_dims) / 5.

Fixpoint leading_good_days (days : list DailyScore) : nat :=
  match days with
  | [] => 0
  | s :: rest => if good_day s then S (leading_good_days rest) else 0
  end.

(** ** The challenge endpoints *)

(** A call of [GET /api/challenges] or of [POST /api/challenges/refresh],
    with the time it reads. *)
Inductive ChallengeCall : Type :=
| GetActive (now : datetime)
| Refresh (now : datetime).

Section ChallengeCalls.

Variable fromisoformat : string -> option datetime.
Variable isoformat timestamp_ms : datetime -> string.
Variable run_cached_sentiment : string -> option Sentiment.

(** The database a call leaves. *)
Definition run_challenge_call (c : ChallengeCall) (db : Database) : Database :=
  match c with
  | GetActive now =>
      snd (server.challenges_get_active fromisoformat isoformat timestamp_ms
             run_cached_sentiment now db)
  | Refresh now =>
      snd (server.challenges_refresh fromisoformat isoformat timestamp_ms
             run_cached_sentiment now db)
  end.

Fixpoint run_challenge_calls (calls : list ChallengeCall) (db : Database) : Database :=
  match calls with
  | [] => db
  | c :: rest => run_challenge_calls rest (run_challenge_call c db)
  end.

(** A call that seeds comes at a time whose seed ids are not in the table:
    the refresh always looks for templates to seed, the read seeds when no
    challenge is active. *)
Definition call_at_fresh_time (c : ChallengeCall) (db : Database) : Prop :=
  match c with
  | GetActive now =>
      filter is_active (db_challenges db) = [] ->
      fresh_seed_ids timestamp_ms now (db_challenges db)
  | Refresh now => fresh_seed_ids timestamp_ms now (db_challenges db)
  end.

Fixpoint calls_at_fresh_times (calls : list ChallengeCall) (db : Database) : Prop :=
  match calls with
  | [] => True
  | c :: rest =>
      call_at_fresh_time c db /\ calls_at_fresh_times rest (run_challenge_call c db)
  end.

End ChallengeCalls.

(** Every template has exactly one active challenge. *)
Definition one_active_per_template (rows : list Challenge) : Prop :=
  forall tmpl, In tmpl challenges.CHALLENGE_TEMPLATES ->
               List.length (active_of_type (tm_challenge_type tmpl) rows) = 1%nat.

(** The id of a challenge as an endpoint shows it. *)
Definition view_id (v : database.ChallengeView) : string :=
  ch_id (database.cv_challenge v).

(** Sample data: a database with no challenge yet. *)
Definition sample_no_challenges : Database := with_challenges [] sample_portfolio_db.

(** ** The daily aggregation *)

(** The tables of daily scores and badges as the aggregator writes them: one
    row per date, with the id [ds-<date>]; one row per badge type, with the
    id [badge-<type>]. *)
Definition daily_scores_ok (rows : list DailyScore) : Prop :=
  NoDup (map ds_date rows) /\
  Forall (fun r => ds_id r = ("ds-" ++ ds_date r)%string) rows.

Definition badges_ok (rows : list Badge) : Prop :=
  NoDup (map b_badge_type rows) /\
  Forall (fun b => b_id b = ("badge-" ++ b_badge_type b)%string) rows.

(** The rows of a date, and the other rows. *)
Definition scores_of_date (date : string) (rows : list DailyScore) : list DailyScore :=
  filter (fun r => String.eqb (ds_date r) date) rows.

Definition scores_of_other_dates (date : string) (rows : list DailyScore)
  : list DailyScore :=
  filter (fun r => negb (String.eqb (ds_date r) date)) rows.

(** The five scores of a row, and of a result of [compute_all_scores]. *)
Definition row_scores (r : DailyScore) : list Q :=
  [risk_score r; discipline_score r; strategy_score r; psychology_score r;
   consistency_score r].

Definition all_scores (s : scoring_engine.AllScores) : list Q :=
  [scoring_engine.as_risk s; scoring_engine.as_discipline s;
   scoring_engine.as_strategy s; scoring_engine.as_psychology s;
   scoring_engine.as_consistency s].

(** The tables the aggregator only reads. *)
Definition read_only_tables (db : Database)
  : option Q * list Holding * list Transaction * list Checklist *
    list MentorTrigger * list Challenge :=
  (db_balance db, db_holdings db, db_transactions db, db_checklists db,
   db_mentor_triggers db, db_challenges db).

(** * Properties *)

(** ** Arithmetic of the embedding *)

Lemma Qltb_lt (x y : Q) : (x <? y) = true <-> x < y.
Proof.
  unfold Qltb. rewrite negb_true_iff. split; intro H.
  - apply Qnot_le_lt. intro Hle. apply Qle_bool_iff in Hle. congruence.
  - destruct (Qle_bool y x) eqn:E; [|reflexivity].
    apply Qle_bool_iff in E. exfalso. exact (Qlt_not_le _ _ H E).
Qed.

Lemma Qltb_ge (x y : Q) : (x <? y) = false <-> y <= x.
Proof.
  unfold Qltb. rewrite negb_false_iff. apply Qle_bool_iff.
Qed.

Lemma Qleb_gt (x y : Q) : (x <=? y) = false <-> y < x.
Proof.
  rewrite <- Qltb_lt. unfold Qltb. rewrite negb_true_iff. reflexivity.
Qed.

Lemma Qnat_nonneg (n : nat) : 0 <= Qnat n.
Proof.
  unfold Qnat, Qle. simpl. lia.
Qed.

Lemma Qnat_S_pos (n : nat) : 0 < Qnat (S n).
Proof.
  unfold Qnat, Qlt. simpl. lia.
Qed.

Lemma Qnat_S_neq0 (n : nat) : ~ Qnat (S n) == 0.
Proof.
  intro H. pose proof (Qnat_S_pos n) as P. rewrite H in P. exact (Qlt_irrefl _ P).
Qed.

Lemma Qnat_pos_neq0 (n : nat) : (0 < n)%nat -> ~ Qnat n == 0.
Proof.
  destruct n; [lia | intros _; apply Qnat_S_neq0].
Qed.

Lemma Qnat_le (n m : nat) : (n <= m)%nat -> Qnat n <= Qnat m.
Proof.
  intro H. unfold Qnat, Qle. simpl. lia.
Qed.

Lemma pydiv_ret (x y : Q) : ~ y == 0 -> pydiv x y = Ret (x / y).
Proof.
  intro H. unfold pydiv. destruct (Qeq_bool y 0) eqn:E; [|reflexivity].
  apply Qeq_bool_iff in E. contradiction.
Qed.

Lemma clamp_range (x : Q) : 0 <= clamp x /\ clamp x <= 100.
Proof.
  unfold clamp. split.
  - apply Q.le_max_l.
  - apply Q.max_lub; [discriminate | apply Q.le_min_l].
Qed.

Lemma clamp_compat (x y : Q) : x == y -> clamp x == clamp y.
Proof.
  intro H. unfold clamp. rewrite H. reflexivity.
Qed.

Lemma fold_left_Qplus (xs : list Q) (a : Q) : fold_left Qplus xs a == a + Qsum xs.
Proof.
  unfold Qsum. revert a. induction xs as [|x xs IH]; intro a; simpl.
  - lra.
  - rewrite IH. rewrite (IH (0 + x)). lra.
Qed.

Lemma Qsum_cons (x : Q) (xs : list Q) : Qsum (x :: xs) == x + Qsum xs.
Proof.
  unfold Qsum at 1. simpl. rewrite fold_left_Qplus. lra.
Qed.

(** ** The risk score *)

Lemma Qmax0_pos (x : Q) : 0 <= x -> Qmax 0 x == x.
Proof.
  intro H. apply Q.max_r. exact H.
Qed.

Lemma Qmax0_neg (x : Q) : x <= 0 -> Qmax 0 x == 0.
Proof.
  intro H. apply Q.max_l. exact H.
Qed.

Lemma concentration_loop_sum (total : Q) (vals : list Q) (score : Q) :
  ~ total == 0 ->
  exists v,
    scoring_engine.concentration_loop total vals score = Ret v /\
    v == score - Qsum (map (fun val => (3 # 2) * Qmax 0 (val / total * 100 - 25)) vals).
Proof.
  intro Htot. revert score. induction vals as [|val rest IH]; intro score.
  - exists score. split; [reflexivity | unfold Qsum; simpl; lra].
  - cbn [scoring_engine.concentration_loop]. rewrite (pydiv_ret _ _ Htot).
    cbn [pybind]. cbn [map].
    destruct (25 <? val / total * 100) eqn:E.
    + destruct (IH (score - (val / total * 100 - 25) * (3 # 2))) as [v [Hv Hs]].
      exists v. split; [exact Hv|]. rewrite Hs, Qsum_cons.
      apply Qltb_lt in E. rewrite Qmax0_pos by lra. lra.
    + destruct (IH score) as [v [Hv Hs]].
      exists v. split; [exact Hv|]. rewrite Hs, Qsum_cons.
      apply Qltb_ge in E. rewrite Qmax0_neg by lra. lra.
Qed.

Lemma total_value_sum (holdings : list Holding) (balance : Q) :
  scoring_engine.total_value holdings balance ==
  balance + Qsum (map (fun h => h_quantity h * holding_price h) holdings).
Proof.
  unfold scoring_engine.total_value, scoring_engine.position_values.
  apply fold_left_Qplus.
Qed.

Lemma diversity_penalty (n : nat) :
  (if (n <? 3)%nat then 100 - Qnat (3 - n) * 15 else 100) ==
  100 - 15 * Qmax 0 (3 - Qnat n).
Proof.
  destruct n as [|[|[|n]]]; try reflexivity.
  change ((S (S (S n)) <? 3)%nat) with false.
  rewrite Qmax0_neg; [lra|].
  pose proof (Qnat_le 3 (S (S (S n))) ltac:(lia)) as H.
  change (Qnat 3) with 3 in H. lra.
Qed.

Lemma Qsum_map_ext {A : Type} (f g : A -> Q) (xs : list A) :
  (forall x, f x == g x) -> Qsum (map f xs) == Qsum (map g xs).
Proof.
  intro H. induction xs as [|x xs IH]; [reflexivity|].
  cbn [map]. rewrite !Qsum_cons, IH, (H x). reflexivity.
Qed.

(** C7. [compute_risk_score] always returns, and its value is the formula of
    the specification: 50 when balance plus the holdings' value is not
    positive, else 100 minus the three penalties, clamped to [0,100].  With
    a balance of 100000 and no holding it returns 55, not 50. *)
Theorem risk_score_formula :
  (forall (holdings : list Holding) (balance : Q),
      exists v, scoring_engine.compute_risk_score holdings balance = Ret v /\
                v == risk_formula holdings balance) /\
  (exists v, scoring_engine.compute_risk_score [] 100000 = Ret v /\
             v == 55 /\ ~ v == 50).
Proof.
  split.
  - intros holdings balance.
    unfold scoring_engine.compute_risk_score, risk_formula.
    pose proof (total_value_sum holdings balance) as HT.
    set (T := scoring_engine.total_value holdings balance) in *.
    set (T' := balance + Qsum (map (fun h => h_quantity h * holding_price h) holdings)) in *.
    assert (ET : (T' <=? 0) = (T <=? 0)) by (rewrite HT; reflexivity).
    rewrite ET.
    destruct (T <=? 0) eqn:E.
    + exists 50. split; reflexivity.
    + apply Qleb_gt in E.
      assert (HT0 : ~ T == 0) by (intro H0; rewrite H0 in E; exact (Qlt_irrefl _ E)).
      rewrite (pydiv_ret _ _ HT0). cbn [pybind].
      match goal with
      | |- context [scoring_engine.concentration_loop T ?vals ?s] =>
          destruct (concentration_loop_sum T vals s HT0) as [v [Hv Hs]]
      end.
      rewrite Hv. cbn [pybind]. eexists. split; [reflexivity|].
      apply clamp_compat. rewrite Hs.
      unfold scoring_engine.position_values. rewrite map_map.
      rewrite (Qsum_map_ext
                 (fun x => (3 # 2) * Qmax 0 (h_quantity x * holding_price x / T * 100 - 25))
                 (fun h => (3 # 2) * Qmax 0 (h_quantity h * holding_price h / T' * 100 - 25)))
        by (intro x; rewrite HT; reflexivity).
      assert (Hcash :
        (if balance / T * 100 <? 10
         then (if (List.length holdings <? 3)%nat
               then 100 - Qnat (3 - List.length holdings) * 15 else 100)
              - (10 - balance / T * 100) * 2
         else (if (List.length holdings <? 3)%nat
               then 100 - Qnat (3 - List.length holdings) * 15 else 100)) ==
        100 - 15 * Qmax 0 (3 - Qnat (List.length holdings))
        - 2 * Qmax 0 (10 - balance / T' * 100)).
      { rewrite <- HT.
        destruct (balance / T * 100 <? 10) eqn:Ec; rewrite diversity_penalty.
        - apply Qltb_lt in Ec. rewrite (Qmax0_pos (10 - balance / T * 100)) by lra. lra.
        - apply Qltb_ge in Ec. rewrite (Qmax0_neg (10 - balance / T * 100)) by lra. lra. }
      rewrite Hcash. reflexivity.
  - eexists. split; [vm_compute; reflexivity|].
    split; [reflexivity | discriminate].
Qed.

(** ** Every score computer returns a score *)

Lemma in_range_clamp (x : Q) : in_range (Ret (clamp x)).
Proof.
  exists (clamp x). split; [reflexivity | apply clamp_range].
Qed.

Lemma in_range_const (c : Q) : 0 <= c -> c <= 100 -> in_range (Ret c).
Proof.
  intros H0 H1. exists c. auto.
Qed.

Lemma risk_in_range (holdings : list Holding) (balance : Q) :
  in_range (scoring_engine.compute_risk_score holdings balance).
Proof.
  unfold scoring_engine.compute_risk_score.
  set (T := scoring_engine.total_value holdings balance).
  destruct (T <=? 0) eqn:E.
  - apply in_range_const; discriminate.
  - apply Qleb_gt in E.
    assert (HT0 : ~ T == 0) by (intro H0; rewrite H0 in E; exact (Qlt_irrefl _ E)).
    rewrite (pydiv_ret _ _ HT0). cbn [pybind].
    match goal with
    | |- context [scoring_engine.concentration_loop T ?vals ?s] =>
        destruct (concentration_loop_sum T vals s HT0) as [v [Hv _]]
    end.
    rewrite Hv. cbn [pybind]. apply in_range_clamp.
Qed.

Lemma discipline_in_range (checklists : list Checklist) (trade_count : nat) :
  in_range (scoring_engine.compute_discipline_score checklists trade_count).
Proof.
  unfold scoring_engine.compute_discipline_score.
  destruct (trade_count =? 0)%nat; [apply in_range_const; discriminate|].
  destruct checklists as [|c cs]; [apply in_range_const; discriminate|].
  cbn [List.length Nat.eqb Nat.ltb Nat.leb].
  rewrite !(pydiv_ret _ _ (Qnat_S_neq0 _)). cbn [pybind].
  apply in_range_clamp.
Qed.

Lemma psychology_in_range (mentor_triggers : list MentorTrigger) :
  in_range (scoring_engine.compute_psychology_score mentor_triggers).
Proof.
  unfold scoring_engine.compute_psychology_score. apply in_range_clamp.
Qed.

Lemma variance_returns (xs : list Q) :
  (2 <= List.length xs)%nat -> exists v, scoring_engine.variance xs = Ret v.
Proof.
  intro H. unfold scoring_engine.variance.
  destruct (List.length xs) as [|[|n]] eqn:E; try lia.
  change (S (S n) <? 2)%nat with false. cbv iota.
  rewrite (pydiv_ret _ _ (Qnat_S_neq0 _)). cbn [pybind].
  change (S (S n) - 1)%nat with (S n).
  rewrite (pydiv_ret _ _ (Qnat_S_neq0 _)). eexists. reflexivity.
Qed.

Lemma consistency_in_range (history : list DailyScore) (active_days total_days : nat) :
  in_range (scoring_engine.compute_consistency_score history active_days total_days).
Proof.
  unfold scoring_engine.compute_consistency_score.
  destruct total_days as [|td]; [apply in_range_const; discriminate|].
  cbn [Nat.eqb]. rewrite (pydiv_ret _ _ (Qnat_S_neq0 _)). cbn [pybind].
  assert (Hd : ~ Qnat (Nat.max (List.length history) 1) == 0)
    by (apply Qnat_pos_neq0; lia).
  destruct (3 <=? List.length history)%nat.
  - destruct (3 <=? List.length (scoring_engine.all_scores history))%nat eqn:E3.
    + apply Nat.leb_le in E3.
      destruct (variance_returns (scoring_engine.all_scores history)) as [v Hv]; [lia|].
      rewrite Hv. cbn [pybind]. rewrite (pydiv_ret _ _ Hd). cbn [pybind].
      apply in_range_clamp.
    + cbn [pybind]. rewrite (pydiv_ret _ _ Hd). cbn [pybind]. apply in_range_clamp.
  - cbn [pybind]. rewrite (pydiv_ret _ _ Hd). cbn [pybind]. apply in_range_clamp.
Qed.

Lemma tally_loop_returns (buy_map : symbol_dict) (sells : list Transaction)
  (acc : scoring_engine.tally) :
  exists acc', scoring_engine.tally_loop buy_map sells acc = Ret acc'.
Proof.
  revert acc. induction sells as [|s rest IH]; intro acc.
  - exists acc. reflexivity.
  - cbn [scoring_engine.tally_loop].
    destruct (dict_get (t_symbol s) buy_map) as [|b bs]; [apply IH|].
    cbn [List.length]. rewrite (pydiv_ret _ _ (Qnat_S_neq0 _)). cbn [pybind].
    match goal with |- context [if ?c then _ else _] => destruct c end; apply IH.
Qed.

Lemma strategy_in_range (fromisoformat : string -> option datetime)
  (transactions : list Transaction) :
  in_range (scoring_engine.compute_strategy_score fromisoformat transactions).
Proof.
  unfold scoring_engine.compute_strategy_score.
  destruct (filter is_sell transactions) as [|s0 ss]; [apply in_range_const; discriminate|].
  destruct (tally_loop_returns (group_by_symbol (filter is_buy transactions))
              (s0 :: ss) (scoring_engine.mkTally 0 0 0 0)) as [acc Hacc].
  rewrite Hacc. cbn [pybind].
  destruct (scoring_engine.wins acc + scoring_engine.losses acc =? 0)%nat eqn:E0;
    [apply in_range_const; discriminate|].
  apply Nat.eqb_neq in E0.
  rewrite (pydiv_ret _ (Qnat (scoring_engine.wins acc + scoring_engine.losses acc)))
    by (apply Qnat_pos_neq0; lia).
  cbn [pybind].
  assert (Hpl : exists pl,
    (if 0 <? scoring_engine.total_loss acc
     then pydiv (scoring_engine.total_profit acc) (scoring_engine.total_loss acc)
     else Ret 2) = Ret pl).
  { destruct (0 <? scoring_engine.total_loss acc) eqn:El; [|eexists; reflexivity].
    apply Qltb_lt in El. rewrite pydiv_ret; [eexists; reflexivity|].
    intro H0. rewrite H0 in El. exact (Qlt_irrefl _ El). }
  destruct Hpl as [pl Hpl]. rewrite Hpl. cbn [pybind].
  destruct (scoring_engine.durations_loop fromisoformat
              (group_by_symbol (filter is_buy transactions)) (s0 :: ss)) as [|d ds].
  - cbn [pybind]. apply in_range_clamp.
  - cbn [List.length]. rewrite (pydiv_ret _ _ (Qnat_S_neq0 _)). cbn [pybind].
    repeat match goal with |- context [if ?c then _ else _] => destruct c end;
      cbn [pybind]; apply in_range_clamp.
Qed.


(** ** Badges *)

Lemma count_pos_of_In {A : Type} (p : A -> bool) (xs : list A) (x : A) :
  In x xs -> p x = true -> (0 < count p xs)%nat.
Proof.
  intros Hin Hp. unfold count.
  assert (In x (filter p xs)) as H by (apply filter_In; auto).
  destruct (filter p xs); [contradiction | simpl; lia].
Qed.

(** C8. With a supplied trigger list that holds a [sentiment_fomo] trigger,
    the one [market_aware] result of [evaluate_badges] is not earned (and
    not active), whatever the daily scores: the threshold rule is overruled. *)
Theorem market_aware_vetoed_by_sentiment_fomo :
  forall (daily_scores : list DailyScore) (mentor_triggers : list MentorTrigger),
    (exists t, In t mentor_triggers /\ m_pattern_type t = "sentiment_fomo"%string) ->
    exists b,
      badges_of_type "market_aware"
        (scoring_engine.evaluate_badges daily_scores (Some mentor_triggers)) = [b] /\
      scoring_engine.br_earned b = false /\
      scoring_engine.br_active b = false.
Proof.
  intros daily_scores mentor_triggers [t [Hin Hpt]].
  assert (Hc : (0 <? count scoring_engine.is_sentiment_fomo mentor_triggers)%nat = true).
  { apply Nat.ltb_lt. apply (count_pos_of_In _ _ t Hin).
    unfold scoring_engine.is_sentiment_fomo. rewrite Hpt. reflexivity. }
  unfold scoring_engine.evaluate_badges, scoring_engine.BADGE_DEFINITIONS, badges_of_type.
  cbn [map scoring_engine.evaluate_badge scoring_engine.bd_requires_sentiment
       scoring_engine.bd_days scoring_engine.bd_threshold scoring_engine.bd_score
       andb filter scoring_engine.br_badge_type].
  rewrite Hc.
  eexists. split; [reflexivity|].
  cbn [scoring_engine.br_earned scoring_engine.br_active].
  split; match goal with |- (if ?c then _ else _) = _ => destruct c end; reflexivity.
Qed.

(** A month whose threshold rule passes, with a [sentiment_fomo] trigger. *)
Lemma market_aware_veto_witness :
  market_aware_threshold_rule sample_good_month = true /\
  exists b,
    badges_of_type "market_aware"
      (scoring_engine.evaluate_badges sample_good_month (Some [sample_fomo_trigger])) = [b] /\
    scoring_engine.br_earned b = false /\
    scoring_engine.br_active b = false.
Proof.
  split; [vm_compute; reflexivity|].
  apply (market_aware_vetoed_by_sentiment_fomo sample_good_month [sample_fomo_trigger]).
  exists sample_fomo_trigger. split; [left; reflexivity | reflexivity].
Defined.

(** C9. Called without a trigger list ([mentor_triggers = None]),
    [evaluate_badges] decides [market_aware] by its threshold rule alone;
    so a month that earns the badge this way loses it once the same call is
    given a list with a [sentiment_fomo] trigger. *)
Theorem market_aware_without_trigger_list :
  (forall daily_scores : list DailyScore,
      exists b,
        badges_of_type "market_aware"
          (scoring_engine.evaluate_badges daily_scores None) = [b] /\
        scoring_engine.br_earned b = market_aware_threshold_rule daily_scores /\
        scoring_engine.br_active b = market_aware_threshold_rule daily_scores) /\
  (exists b b',
      badges_of_type "market_aware"
        (scoring_engine.evaluate_badges sample_good_month None) = [b] /\
      scoring_engine.br_earned b = true /\
      badges_of_type "market_aware"
        (scoring_engine.evaluate_badges sample_good_month (Some [sample_fomo_trigger])) = [b'] /\
      scoring_engine.br_earned b' = false).
Proof.
  split.
  - intro daily_scores.
    unfold scoring_engine.evaluate_badges, scoring_engine.BADGE_DEFINITIONS, badges_of_type.
    cbn [map scoring_engine.evaluate_badge scoring_engine.bd_requires_sentiment
         scoring_engine.bd_days scoring_engine.bd_threshold scoring_engine.bd_score
         andb filter scoring_engine.br_badge_type].
    eexists. split; [reflexivity|].
    cbn [scoring_engine.br_earned scoring_engine.br_active scoring_engine.score_of].
    unfold market_aware_threshold_rule.
    split; match goal with |- (if ?c then _ else _) = _ => destruct c end; reflexivity.
  - eexists. eexists. repeat split; vm_compute; reflexivity.
Qed.

(** ** Dictionaries keyed by symbol *)

Lemma dict_get_append (sym k : string) (tx : Transaction) (d : symbol_dict) :
  dict_get sym (dict_append k tx d) =
  if String.eqb k sym then dict_get sym d ++ [tx] else dict_get sym d.
Proof.
  induction d as [|[k' v] rest IH]; cbn [dict_append dict_get].
  - destruct (String.eqb k sym); reflexivity.
  - destruct (String.eqb_spec k' k) as [->|Hne]; cbn [dict_get].
    + destruct (String.eqb k sym); reflexivity.
    + rewrite IH. destruct (String.eqb_spec k sym) as [->|Hs]; [|reflexivity].
      destruct (String.eqb_spec k' sym) as [->|_]; [contradiction | reflexivity].
Qed.

Lemma dict_get_fold (sym : string) (txs : list Transaction) (d : symbol_dict) :
  dict_get sym (fold_left (fun d tx => dict_append (t_symbol tx) tx d) txs d) =
  dict_get sym d ++ filter (fun t => String.eqb (t_symbol t) sym) txs.
Proof.
  revert d. induction txs as [|tx txs IH]; intro d; cbn [fold_left filter].
  - rewrite app_nil_r. reflexivity.
  - rewrite IH, dict_get_append.
    destruct (String.eqb (t_symbol tx) sym); [|reflexivity].
    rewrite <- app_assoc. reflexivity.
Qed.

(** [d.get(sym, [])] on a grouped list is the sub-list of that symbol. *)
Lemma dict_get_group (sym : string) (txs : list Transaction) :
  dict_get sym (group_by_symbol txs) =
  filter (fun t => String.eqb (t_symbol t) sym) txs.
Proof.
  unfold group_by_symbol. rewrite dict_get_fold. reflexivity.
Qed.



(** ** The strategy score *)

Section StrategyRefinement.

Variable fromisoformat : string -> option datetime.
Variable transactions : list Transaction.

Let buy_map : symbol_dict := group_by_symbol (filter is_buy transactions).









End StrategyRefinement.



(** ** Grouping by symbol *)

Lemma dict_append_keys (k : string) (tx : Transaction) (d : symbol_dict) :
  map fst (dict_append k tx d) =
  if existsb (String.eqb k) (map fst d) then map fst d else map fst d ++ [k].
Proof.
  induction d as [|[k' v] rest IH]; [reflexivity|].
  cbn [dict_append map fst existsb].
  rewrite (String.eqb_sym k k').
  destruct (String.eqb k' k); cbn [map fst orb]; [reflexivity|].
  rewrite IH. destruct (existsb (String.eqb k) (map fst rest)); reflexivity.
Qed.

Lemma existsb_eqb_In (k : string) (ks : list string) :
  existsb (String.eqb k) ks = true <-> In k ks.
Proof.
  rewrite existsb_exists. split.
  - intros [x [Hin Hx]]. apply String.eqb_eq in Hx. subst. exact Hin.
  - intro Hin. exists k. split; [exact Hin | apply String.eqb_refl].
Qed.

Lemma dict_append_NoDup (k : string) (tx : Transaction) (d : symbol_dict) :
  NoDup (map fst d) -> NoDup (map fst (dict_append k tx d)).
Proof.
  intro H. rewrite dict_append_keys.
  destruct (existsb (String.eqb k) (map fst d)) eqn:E; [exact H|].
  apply NoDup_app; [exact H | repeat constructor; intros [] | ].
  intros x Hx [<-|[]]. apply existsb_eqb_In in Hx. congruence.
Qed.

Lemma group_by_symbol_NoDup (txs : list Transaction) :
  NoDup (map fst (group_by_symbol txs)).
Proof.
  unfold group_by_symbol.
  assert (G : forall d, NoDup (map fst d) ->
            NoDup (map fst (fold_left (fun d tx => dict_append (t_symbol tx) tx d) txs d))).
  { induction txs as [|tx txs IH]; intros d Hd; [exact Hd|].
    cbn [fold_left]. apply IH. apply dict_append_NoDup. exact Hd. }
  apply G. constructor.
Qed.

Lemma dict_get_In (k : string) (v : list Transaction) (d : symbol_dict) :
  NoDup (map fst d) -> In (k, v) d -> dict_get k d = v.
Proof.
  induction d as [|[k' v'] rest IH]; intros Hnd Hin; [contradiction|].
  cbn [map fst] in Hnd. inversion Hnd as [|? ? Hnot Hnd']; subst.
  cbn [dict_get]. destruct Hin as [Heq|Hin].
  - inversion Heq; subst. rewrite String.eqb_refl. reflexivity.
  - destruct (String.eqb_spec k' k) as [->|_]; [|apply IH; assumption].
    exfalso. apply Hnot. apply in_map_iff. exists (k, v). split; [reflexivity | exact Hin].
Qed.

Lemma dict_get_nonempty (k : string) (d : symbol_dict) :
  dict_get k d <> [] -> In (k, dict_get k d) d.
Proof.
  induction d as [|[k' v'] rest IH]; cbn [dict_get]; intro H; [contradiction H; reflexivity|].
  destruct (String.eqb_spec k' k) as [->|_]; [left; reflexivity | right; apply IH; exact H].
Qed.

(** An entry of the grouped dictionary holds the transactions of its key. *)
Lemma group_by_symbol_In (k : string) (v : list Transaction) (txs : list Transaction) :
  In (k, v) (group_by_symbol txs) -> v = of_symbol k txs.
Proof.
  intro H. rewrite <- (dict_get_In k v _ (group_by_symbol_NoDup txs) H).
  apply dict_get_group.
Qed.

Lemma group_by_symbol_key (k : string) (txs : list Transaction) :
  of_symbol k txs <> [] -> In (k, of_symbol k txs) (group_by_symbol txs).
Proof.
  intro H. unfold of_symbol in *. rewrite <- dict_get_group in *.
  apply dict_get_nonempty. exact H.
Qed.

(** ** The panic-sell detector *)

Lemma find_none_existsb {A : Type} (p : A -> bool) (xs : list A) :
  find p xs = None -> existsb p xs = false.
Proof.
  induction xs as [|x xs IH]; [reflexivity|]. cbn [find existsb].
  destruct (p x); [discriminate | exact IH].
Qed.

Lemma find_some_existsb {A : Type} (p : A -> bool) (xs : list A) (x : A) :
  find p xs = Some x -> existsb p xs = true.
Proof.
  intro H. apply find_some in H. apply existsb_exists. exists x. exact H.
Qed.

Lemma existsb_false_ext {A : Type} (p : A -> bool) (xs : list A) :
  (forall x, p x = false) -> existsb p xs = false.
Proof.
  intro H. induction xs as [|x xs IH]; [reflexivity|].
  cbn [existsb]. rewrite H, IH. reflexivity.
Qed.

Section PanicSell.

Variable fromisoformat : string -> option datetime.
Variable now : datetime.

Lemma panic_scan_buys_find (sym : string) (s : Transaction) (sell_ts : datetime)
  (buys : list Transaction) :
  mentor_engine._parse_timestamp fromisoformat (t_timestamp s) = Some sell_ts ->
  (now - timedelta_days 7 <=? sell_ts)%Z = true ->
  mentor_engine.panic_scan_buys fromisoformat sym sell_ts (t_price s) buys =
  Ret (option_map (fun b => pair_alert fromisoformat sym (s, b))
         (find (qualifying_pair fromisoformat now s) buys)).
Proof.
  intros Hs Hrecent. unfold qualifying_pair, pair_alert. rewrite Hs, Hrecent.
  induction buys as [|b rest IH]; [reflexivity|].
  cbn [mentor_engine.panic_scan_buys find].
  destruct (mentor_engine._parse_timestamp fromisoformat (t_timestamp b))
    as [buy_ts|] eqn:Hb; [|exact IH].
  assert (Hlt : (0 <? t_price b) = negb (t_price b <=? 0)) by reflexivity.
  rewrite Hlt. destruct (t_price b <=? 0) eqn:Ep; cbn [negb andb]; [exact IH|].
  destruct ((0 <? total_seconds sell_ts buy_ts / 3600)
            && (total_seconds sell_ts buy_ts / 3600 <=? 48)); cbn [andb]; [|exact IH].
  assert (Hp : ~ t_price b == 0).
  { intro H0. rewrite H0 in Ep. discriminate. }
  rewrite (pydiv_ret _ _ Hp). cbn [pybind].
  destruct ((t_price s - t_price b) / t_price b * 100 <? -(10)); [|exact IH].
  cbn [option_map]. rewrite Hb. reflexivity.
Qed.

Lemma qualifying_pair_unparsed_sell (s b : Transaction) :
  mentor_engine._parse_timestamp fromisoformat (t_timestamp s) = None ->
  qualifying_pair fromisoformat now s b = false.
Proof.
  intro H. unfold qualifying_pair. rewrite H. reflexivity.
Qed.


Lemma qualifying_pair_old_sell (s b : Transaction) (sell_ts : datetime) :
  mentor_engine._parse_timestamp fromisoformat (t_timestamp s) = Some sell_ts ->
  (sell_ts <? now - timedelta_days 7)%Z = true ->
  qualifying_pair fromisoformat now s b = false.
Proof.
  intros H Hold. unfold qualifying_pair. rewrite H.
  destruct (mentor_engine._parse_timestamp fromisoformat (t_timestamp b)); [|reflexivity].
  apply Z.ltb_lt in Hold.
  destruct (now - timedelta_days 7 <=? sell_ts)%Z eqn:E; [|reflexivity].
  apply Z.leb_le in E. lia.
Qed.

(** The loop over the sells of a symbol reports its first qualifying pair. *)
Lemma panic_scan_sells_find (sym : string) (buys sells : list Transaction) :
  mentor_engine.panic_scan_sells fromisoformat now sym buys sells =
  Ret (match find (fun s => existsb (qualifying_pair fromisoformat now s) buys) sells with
       | None => None
       | Some s =>
           match find (qualifying_pair fromisoformat now s) buys with
           | None => None
           | Some b => Some (pair_alert fromisoformat sym (s, b))
           end
       end).
Proof.
  induction sells as [|s rest IH]; [reflexivity|].
  cbn [mentor_engine.panic_scan_sells find].
  destruct (mentor_engine._parse_timestamp fromisoformat (t_timestamp s))
    as [sell_ts|] eqn:Hs.
  - destruct (sell_ts <? now - timedelta_days 7)%Z eqn:Hold.
    + rewrite (existsb_false_ext _ buys
                 (fun b => qualifying_pair_old_sell s b sell_ts Hs Hold)).
      exact IH.
    + assert (Hrecent : (now - timedelta_days 7 <=? sell_ts)%Z = true)
        by (apply Z.leb_le; apply Z.ltb_ge in Hold; exact Hold).
      rewrite (panic_scan_buys_find sym s sell_ts buys Hs Hrecent). cbn [pybind].
      destruct (find (qualifying_pair fromisoformat now s) buys) as [b|] eqn:Ef.
      * rewrite (find_some_existsb _ _ _ Ef). rewrite Ef. reflexivity.
      * rewrite (find_none_existsb _ _ Ef). exact IH.
  - rewrite (existsb_false_ext _ buys
               (fun b => qualifying_pair_unparsed_sell s b Hs)).
    exact IH.
Qed.

Lemma panic_for_symbol_spec (sym : string) (txs : list Transaction) :
  mentor_engine.panic_for_symbol fromisoformat now sym (of_symbol sym txs) =
  Ret (option_map (pair_alert fromisoformat sym)
         (first_qualifying_pair fromisoformat now sym txs)).
Proof.
  unfold mentor_engine.panic_for_symbol, first_qualifying_pair.
  rewrite panic_scan_sells_find.
  destruct (find _ (filter is_sell (of_symbol sym txs))) as [s|]; [|reflexivity].
  destruct (find _ (filter is_buy (of_symbol sym txs))); reflexivity.
Qed.

End PanicSell.

Lemma symbols_loop_pure
  (body : string -> list Transaction -> pyres (option Alert))
  (g : string -> list Transaction -> option Alert)
  (d : symbol_dict) (alerts : list Alert) :
  (forall k v, In (k, v) d -> body k v = Ret (g k v)) ->
  mentor_engine.symbols_loop body d alerts =
  Ret (alerts ++ flat_map (fun kv => match g (fst kv) (snd kv) with
                                     | Some a => [a]
                                     | None => []
                                     end) d).
Proof.
  revert alerts. induction d as [|[k v] rest IH]; intros alerts H.
  - cbn. rewrite app_nil_r. reflexivity.
  - cbn [mentor_engine.symbols_loop flat_map fst snd].
    rewrite (H k v (or_introl eq_refl)). cbn [pybind].
    rewrite IH by (intros k' v' Hin; apply H; right; exact Hin).
    destruct (g k v); [rewrite <- app_assoc|]; reflexivity.
Qed.

Lemma In_flat_map_option {A B : Type} (g : A -> option B) (xs : list A) (b : B) :
  In b (flat_map (fun x => match g x with Some y => [y] | None => [] end) xs) <->
  exists x, In x xs /\ g x = Some b.
Proof.
  rewrite in_flat_map. split; intros [x [Hin H]]; exists x; (split; [exact Hin|]).
  - destruct (g x); [destruct H as [->|[]]; reflexivity | contradiction].
  - rewrite H. left. reflexivity.
Qed.

(** One alert at most per key, when the alert of a key names that key. *)
Lemma alerts_NoDup (g : string -> list Transaction -> option Alert) (d : symbol_dict) :
  NoDup (map fst d) ->
  (forall k v a, g k v = Some a -> a_symbol a = Some k) ->
  NoDup (map a_symbol
           (flat_map (fun kv => match g (fst kv) (snd kv) with
                                | Some a => [a]
                                | None => []
                                end) d)).
Proof.
  intros Hnd Hsym. induction d as [|[k v] rest IH]; [constructor|].
  cbn [map fst] in Hnd. inversion Hnd as [|? ? Hnot Hnd']; subst.
  cbn [flat_map fst snd]. destruct (g k v) as [a|] eqn:Eg; [|apply IH; exact Hnd'].
  cbn [app map]. constructor; [|apply IH; exact Hnd'].
  intro Hin. apply in_map_iff in Hin. destruct Hin as [a' [Ha' Hin]].
  apply (In_flat_map_option (fun kv => g (fst kv) (snd kv))) in Hin.
  destruct Hin as [[k' v'] [Hkv Hg]]. cbn [fst snd] in Hg.
  rewrite (Hsym k v a Eg), (Hsym k' v' a' Hg) in Ha'. inversion Ha'; subst.
  apply Hnot. apply in_map_iff. exists (k, v'). split; [reflexivity | exact Hkv].
Qed.

Lemma first_qualifying_pair_symbol (fromisoformat : string -> option datetime)
  (now : datetime) (sym : string) (txs : list Transaction) (p : Transaction * Transaction) :
  first_qualifying_pair fromisoformat now sym txs = Some p -> of_symbol sym txs <> [].
Proof.
  unfold first_qualifying_pair. intros H E. rewrite E in H. discriminate.
Qed.

(** C2, as amended. The panic-sell detector returns at most one alert per
    symbol, not per run: its alerts name pairwise different symbols, and a
    symbol has an alert exactly when it has a qualifying pair (a sell of the
    trailing 7 days with a buy of the symbol more than 0 and at most 48 hours
    earlier, sold more than 10%% below the buy price), the alert reporting
    the first such pair of that symbol. *)
Theorem panic_sell_one_alert_per_symbol :
  forall (fromisoformat : string -> option datetime) (now : datetime)
         (transactions : list Transaction),
  exists alerts,
    mentor_engine.detect_panic_sell fromisoformat now transactions = Ret alerts /\
    NoDup (map a_symbol alerts) /\
    (forall a, In a alerts <->
               exists sym p,
                 first_qualifying_pair fromisoformat now sym transactions = Some p /\
                 a = pair_alert fromisoformat sym p).
Proof.
  intros f now txs.
  set (g := fun (k : string) (_ : list Transaction) =>
              option_map (pair_alert f k) (first_qualifying_pair f now k txs)).
  eexists. split; [|split].
  - unfold mentor_engine.detect_panic_sell.
    apply (symbols_loop_pure _ g).
    intros k v Hin. rewrite (group_by_symbol_In k v txs Hin).
    apply panic_for_symbol_spec.
  - cbn [app]. apply alerts_NoDup; [apply group_by_symbol_NoDup|].
    intros k v a. unfold g.
    destruct (first_qualifying_pair f now k txs) as [[s b]|]; [|discriminate].
    cbn. intro H. inversion H. reflexivity.
  - intro a. cbn [app].
    rewrite (In_flat_map_option (fun kv => g (fst kv) (snd kv))). unfold g. split.
    + intros [[k v] [Hin Hg]]. cbn [fst] in Hg.
      destruct (first_qualifying_pair f now k txs) as [p|] eqn:Ep; [|discriminate].
      exists k, p. split; [exact Ep|]. cbn in Hg. inversion Hg. reflexivity.
    + intros [sym [p [Hp ->]]].
      exists (sym, of_symbol sym txs). split.
      * apply group_by_symbol_key. exact (first_qualifying_pair_symbol f now sym txs p Hp).
      * cbn [fst]. rewrite Hp. reflexivity.
Qed.

(** The claim as stated fails: one run over two symbols, each with a
    qualifying pair, returns two alerts. *)
Lemma panic_sell_two_alerts_in_one_run :
  exists alerts,
    mentor_engine.detect_panic_sell sample_fromisoformat sample_now sample_panic_trades
    = Ret alerts /\
    map a_symbol alerts = [Some "AAPL"%string; Some "MSFT"%string] /\
    ~ (List.length alerts <= 1)%nat.
Proof.
  eexists. split; [vm_compute; reflexivity|].
  split; [reflexivity | cbn; lia].
Qed.

(** ** The daily score aggregator *)

(** C1, at a failing input. With no cash, one holding and seven panic-sell
    triggers, the first run of the day stores a consistency score of 50; a
    second run one hour later, with the transactions, holdings, balance,
    checklists and triggers untouched, reads a history that now holds the
    first run's row, counts it as a drawdown day and overwrites the score
    with 30.  The row stays single and its other values stay the same. *)
Theorem aggregator_second_run_changes_consistency :
  exists res1 db1 res2 db2 r1 r2,
    sample_aggregator sample_now sample_stressed_db = (Ret res1, db1) /\
    sample_aggregator sample_later db1 = (Ret res2, db2) /\
    sample_date_isoformat (date_of sample_now)
    = sample_date_isoformat (date_of sample_later) /\
    (db_balance db1, db_holdings db1, db_transactions db1, db_checklists db1,
     db_mentor_triggers db1)
    = (db_balance sample_stressed_db, db_holdings sample_stressed_db,
       db_transactions sample_stressed_db, db_checklists sample_stressed_db,
       db_mentor_triggers sample_stressed_db) /\
    db_daily_scores db1 = [r1] /\
    db_daily_scores db2 = [r2] /\
    ds_date r1 = "2024-03-10"%string /\
    ds_date r2 = "2024-03-10"%string /\
    (risk_score r2, discipline_score r2, strategy_score r2, psychology_score r2,
     ds_trade_count r2, ds_active_day r2)
    = (risk_score r1, discipline_score r1, strategy_score r1, psychology_score r1,
       ds_trade_count r1, ds_active_day r1) /\
    consistency_score r1 == 50 /\
    consistency_score r2 == 30.
Proof.
  do 6 eexists.
  split; [vm_compute; reflexivity|].
  split; [vm_compute; reflexivity|].
  repeat split; vm_compute; reflexivity.
Qed.

(** ** Badges in the database *)

Lemma keeps_dbind {A B : Type} (P : Database -> Prop) (c : db_m A) (k : A -> db_m B) :
  keeps P c -> (forall a, keeps P (k a)) -> keeps P (dbind c k).
Proof.
  intros Hc Hk db HP. unfold dbind. specialize (Hc db HP).
  destruct (c db) as [[a|e] db']; cbn [snd] in *; [apply Hk; exact Hc | exact Hc].
Qed.

Lemma keeps_query {A : Type} (P : Database -> Prop) (f : Database -> A) :
  keeps P (query f).
Proof.
  intros db HP. exact HP.
Qed.

Lemma keeps_lift {A : Type} (P : Database -> Prop) (r : pyres A) : keeps P (lift r).
Proof.
  intros db HP. exact HP.
Qed.

Lemma keeps_dret {A : Type} (P : Database -> Prop) (a : A) : keeps P (dret a).
Proof.
  intros db HP. exact HP.
Qed.

Lemma keeps_for_each {A : Type} (P : Database -> Prop) (xs : list A)
  (body : A -> db_m unit) :
  (forall x, keeps P (body x)) -> keeps P (for_each xs body).
Proof.
  intro Hb. induction xs as [|x xs IH]; cbn [for_each].
  - apply keeps_dret.
  - apply keeps_dbind; [apply Hb | intros _; exact IH].
Qed.

Lemma find_map_same_key {A : Type} (p : A -> bool) (f : A -> A) (xs : list A) :
  (forall x, p (f x) = p x) -> find p (map f xs) = option_map f (find p xs).
Proof.
  intro H. induction xs as [|x xs IH]; [reflexivity|].
  cbn [map find]. rewrite H. destruct (p x); [reflexivity | exact IH].
Qed.

Lemma find_app_some {A : Type} (p : A -> bool) (xs ys : list A) (x : A) :
  find p xs = Some x -> find p (xs ++ ys) = Some x.
Proof.
  induction xs as [|x' xs IH]; [discriminate|]. cbn [app find].
  destruct (p x'); [auto | exact IH].
Qed.

Lemma upsert_badge_keeps_first_earned (badge_type ts : string)
  (badge_id type' : string) (earned active : bool) (qualifying_days : nat)
  (first_earned_at : option string) (updated_at : string) :
  keeps (fun db => first_earned_at_of badge_type db = Some ts)
    (database.upsert_badge badge_id type' earned active qualifying_days
       first_earned_at updated_at).
Proof.
  intros db H. unfold database.upsert_badge, first_earned_at_of in *.
  destruct (find (fun r => String.eqb (b_badge_type r) badge_type) (db_badges db))
    as [r|] eqn:Ef; [|discriminate].
  destruct (existsb (fun r => String.eqb (b_badge_type r) type') (db_badges db)).
  - cbn [snd with_badges db_badges].
    rewrite find_map_same_key.
    + rewrite Ef. cbn [option_map].
      destruct (String.eqb (b_badge_type r) type'); [|exact H].
      cbn [b_first_earned_at]. rewrite H. reflexivity.
    + intro x. destruct (String.eqb_spec (b_badge_type x) type') as [E|E];
        [cbn [b_badge_type]; rewrite E|]; reflexivity.
  - destruct (existsb (fun r => String.eqb (b_id r) badge_id) (db_badges db));
      cbn [snd with_badges db_badges].
    + rewrite Ef. exact H.
    + rewrite (find_app_some _ _ _ _ Ef). exact H.
Qed.

Lemma upsert_daily_score_keeps_badges (P : list Badge -> Prop)
  (isoformat : datetime -> string) (score_id date : string)
  (r d s p c : Q) (trade_count : nat) (active_day : bool) (now : datetime) :
  keeps (fun db => P (db_badges db))
    (database.upsert_daily_score isoformat score_id date r d s p c
       trade_count active_day now).
Proof.
  intros db H. unfold database.upsert_daily_score.
  repeat match goal with |- context [if ?b then _ else _] => destruct b end;
    exact H.
Qed.

(** C4. Once the [first_earned_at] of a badge holds a timestamp, it keeps
    that timestamp through every sequence of [upsert_badge] calls, whatever
    their arguments (earned or not), and through every sequence of runs of
    the daily score aggregator. *)
Theorem first_earned_at_is_sticky :
  forall (db : Database) (badge_type ts : string),
    first_earned_at_of badge_type db = Some ts ->
    (forall upserts : list BadgeUpsert,
        first_earned_at_of badge_type
          (after_calls (map apply_badge_upsert upserts) db) = Some ts) /\
    (forall (fromisoformat : string -> option datetime)
            (isoformat : datetime -> string) (date_isoformat : Z -> string)
            (clock : list datetime),
        first_earned_at_of badge_type
          (after_calls
             (map (server._compute_daily_scores_internal fromisoformat isoformat
                     date_isoformat) clock)
             db) = Some ts).
Proof.
  intros db badge_type ts H. split.
  - intro upserts. revert db H. induction upserts as [|u us IH]; intros db H; [exact H|].
    cbn [map after_calls fold_left]. apply IH.
    apply upsert_badge_keeps_first_earned. exact H.
  - intros f iso diso clock. revert db H.
    induction clock as [|now clock IH]; intros db H; [exact H|].
    cbn [map after_calls fold_left]. apply IH. revert db H.
    change (keeps (fun db => first_earned_at_of badge_type db = Some ts)
              (server._compute_daily_scores_internal f iso diso now)).
    unfold server._compute_daily_scores_internal.
    do 6 (apply keeps_dbind; [apply keeps_query | intro]).
    apply keeps_dbind; [apply keeps_lift | intro].
    apply keeps_dbind;
      [exact (upsert_daily_score_keeps_badges
                (fun rows =>
                   match find (fun r => String.eqb (b_badge_type r) badge_type) rows with
                   | Some r => b_first_earned_at r
                   | None => None
                   end = Some ts)
                _ _ _ _ _ _ _ _ _ _ _)
      | intro].
    apply keeps_dbind; [apply keeps_query | intro].
    apply keeps_dbind;
      [apply keeps_for_each; intro; apply upsert_badge_keeps_first_earned | intro].
    apply keeps_dret.
Qed.

Lemma first_earned_at_witness :
  first_earned_at_of "risk_guardian" sample_badge_db = Some "2024-02-01T00:05:00"%string /\
  first_earned_at_of "risk_guardian"
    (after_calls (map apply_badge_upsert [sample_lost_badge]) sample_badge_db)
  = Some "2024-02-01T00:05:00"%string.
Proof.
  split; [reflexivity|].
  exact (proj1 (first_earned_at_is_sticky sample_badge_db "risk_guardian"
                  "2024-02-01T00:05:00" eq_refl) [sample_lost_badge]).
Defined.

(** ** Ordered reads *)

Lemma insert_desc_perm {A : Type} (key : A -> string) (x : A) (xs : list A) :
  Permutation (insert_desc key x xs) (x :: xs).
Proof.
  induction xs as [|y ys IH]; cbn [insert_desc]; [reflexivity|].
  destruct (String.leb (key y) (key x)); [reflexivity|].
  rewrite IH. apply perm_swap.
Qed.

Lemma order_by_desc_perm {A : Type} (key : A -> string) (xs : list A) :
  Permutation (order_by_desc key xs) xs.
Proof.
  unfold order_by_desc. induction xs as [|x xs IH]; cbn [fold_right]; [reflexivity|].
  rewrite insert_desc_perm. constructor. exact IH.
Qed.

Lemma order_by_desc_In {A : Type} (key : A -> string) (xs : list A) (x : A) :
  In x (order_by_desc key xs) <-> In x xs.
Proof.
  split; apply Permutation_in;
    [apply order_by_desc_perm | apply Permutation_sym, order_by_desc_perm].
Qed.

(** ** Strings *)

Lemma string_length_append (a b : string) :
  String.length (String.append a b) = (String.length a + String.length b)%nat.
Proof.
  induction a as [|c a IH]; cbn [String.append String.length]; [reflexivity|].
  rewrite IH. reflexivity.
Qed.

Lemma string_app_inv_tail (a b s : string) :
  String.append a s = String.append b s -> a = b.
Proof.
  revert b. induction a as [|c a IH]; intros [|c' b] H; cbn [String.append] in H.
  - reflexivity.
  - exfalso. apply (f_equal String.length) in H. cbn [String.length] in H.
    rewrite string_length_append in H. lia.
  - exfalso. apply (f_equal String.length) in H. cbn [String.length] in H.
    rewrite string_length_append in H. lia.
  - inversion H. f_equal. apply IH. assumption.
Qed.

(** ** Refreshing the challenges *)

Lemma with_challenges_twice (rows rows' : list Challenge) (db : Database) :
  with_challenges rows (with_challenges rows' db) = with_challenges rows db.
Proof.
  reflexivity.
Qed.

Lemma unique_id_row (rows : list Challenge) (a b : Challenge) :
  NoDup (map ch_id rows) -> In a rows -> In b rows -> ch_id a = ch_id b -> a = b.
Proof.
  induction rows as [|r rows IH]; intros Hnd Ha Hb Hid; [contradiction|].
  cbn [map] in Hnd. inversion Hnd as [|? ? Hnot Hnd']; subst.
  destruct Ha as [->|Ha], Hb as [->|Hb].
  - reflexivity.
  - exfalso. apply Hnot. rewrite Hid. apply in_map. exact Hb.
  - exfalso. apply Hnot. rewrite <- Hid. apply in_map. exact Ha.
  - apply IH; assumption.
Qed.

Section RefreshLoop.

Variable fromisoformat : string -> option datetime.
Variable isoformat : datetime -> string.
Variable run_cached_sentiment : string -> option Sentiment.
Variable now : datetime.

(** What the refresh has read before its loop. *)
Variable holdings : list Holding.
Variable balance : Q.
Variable transactions : list Transaction.
Variable checklists : list Checklist.

Lemma cash_reserve_returns :
  exists v, challenges.compute_cash_reserve fromisoformat now balance holdings
              transactions = Ret v.
Proof.
  unfold challenges.compute_cash_reserve.
  match goal with |- context [if ?t <=? 0 then _ else _] => destruct (t <=? 0) eqn:E end.
  - eexists. reflexivity.
  - apply Qleb_gt in E.
    rewrite pydiv_ret by (intro H0; rewrite H0 in E; exact (Qlt_irrefl _ E)).
    cbn [pybind].
    match goal with |- context [if ?c then _ else _] => destruct c end;
      eexists; reflexivity.
Qed.

Lemma progress_returns (challenge_type : string) :
  exists v,
    challenges.compute_challenge_progress fromisoformat run_cached_sentiment now
      challenge_type holdings balance transactions checklists = Ret v.
Proof.
  unfold challenges.compute_challenge_progress.
  repeat match goal with
         | |- context [if String.eqb ?a ?b then _ else _] => destruct (String.eqb a b)
         end;
    try (eexists; reflexivity).
  apply cash_reserve_returns.
Qed.

(** The progress of a challenge on what was read. *)
Let progress (ch : Challenge) : Q :=
  match challenges.compute_challenge_progress fromisoformat run_cached_sentiment now
          (ch_challenge_type ch) holdings balance transactions checklists with
  | Ret v => v
  | Raise _ => 0
  end.

(** The row [r] after the update the loop makes for the challenge [ch]. *)
Let stamp (ch r : Challenge) : Challenge :=
  stamped (progress ch) (isoformat now) ch r.

Let step (rows : list Challenge) (ch : Challenge) : list Challenge :=
  map (fun r => if String.eqb (ch_id r) (ch_id ch) then stamp ch r else r) rows.

Lemma stamp_id (ch r : Challenge) : ch_id (stamp ch r) = ch_id r.
Proof.
  unfold stamp, stamped. repeat match goal with |- context [if ?c then _ else _] => destruct c end;
    reflexivity.
Qed.

Lemma stamp_type (ch r : Challenge) :
  ch_challenge_type (stamp ch r) = ch_challenge_type r.
Proof.
  unfold stamp, stamped. repeat match goal with |- context [if ?c then _ else _] => destruct c end;
    reflexivity.
Qed.

Lemma refresh_challenge_run (ch : Challenge) (db : Database) :
  server.refresh_challenge fromisoformat isoformat run_cached_sentiment now
    holdings balance transactions checklists ch db =
  (Ret tt, with_challenges (step (db_challenges db) ch) db).
Proof.
  unfold server.refresh_challenge, step, stamp, stamped, progress, dbind, lift.
  destruct (progress_returns (ch_challenge_type ch)) as [v Hv]. rewrite Hv.
  destruct (ch_target_value ch <=? v); [reflexivity|].
  destruct (String.ltb (ch_expires_at ch) (isoformat now)); reflexivity.
Qed.

Lemma for_each_refresh (active : list Challenge) (db : Database) :
  for_each active
    (server.refresh_challenge fromisoformat isoformat run_cached_sentiment now
       holdings balance transactions checklists) db =
  (Ret tt, with_challenges (fold_left step active (db_challenges db)) db).
Proof.
  revert db. induction active as [|ch rest IH]; intro db.
  - destruct db; reflexivity.
  - cbn [for_each fold_left]. unfold dbind at 1. rewrite refresh_challenge_run.
    rewrite IH. reflexivity.
Qed.

Lemma step_ids (rows : list Challenge) (ch : Challenge) :
  map ch_id (step rows ch) = map ch_id rows.
Proof.
  unfold step. rewrite map_map. apply map_ext. intro r.
  destruct (String.eqb (ch_id r) (ch_id ch)); [apply stamp_id | reflexivity].
Qed.

(** On a table with unique ids, the loop over some of its rows stamps
    exactly these rows, each with its own decision. *)
Lemma fold_step_map (active rows : list Challenge) :
  NoDup (map ch_id rows) ->
  NoDup (map ch_id active) ->
  (forall ch, In ch active -> In ch rows) ->
  fold_left step active rows =
  map (fun r => if existsb (fun ch => String.eqb (ch_id r) (ch_id ch)) active
                then stamp r r else r) rows.
Proof.
  revert rows. induction active as [|ch rest IH]; intros rows Hrows Hact Hsub.
  - cbn [fold_left existsb]. rewrite map_id. reflexivity.
  - cbn [fold_left]. cbn [map] in Hact. inversion Hact as [|? ? Hnot Hact']; subst.
    rewrite IH.
    + unfold step. rewrite map_map. apply map_ext_in. intros r Hr. cbn [existsb].
      destruct (String.eqb_spec (ch_id r) (ch_id ch)) as [E|E]; cbn [orb].
      * assert (r = ch) by (apply (unique_id_row rows); auto; apply Hsub; left; reflexivity).
        subst r.
        assert (Hn : existsb (fun ch0 => String.eqb (ch_id (stamp ch ch)) (ch_id ch0)) rest
                     = false).
        { destruct (existsb _ rest) eqn:Ex; [|reflexivity].
          apply existsb_exists in Ex. destruct Ex as [c [Hc Hid]].
          apply String.eqb_eq in Hid. rewrite stamp_id in Hid.
          exfalso. apply Hnot. rewrite Hid. apply in_map. exact Hc. }
        rewrite Hn. reflexivity.
      * reflexivity.
    + rewrite step_ids. exact Hrows.
    + exact Hact'.
    + intros c Hc. unfold step. apply in_map_iff. exists c.
      split; [|apply Hsub; right; exact Hc].
      destruct (String.eqb_spec (ch_id c) (ch_id ch)) as [E|E]; [|reflexivity].
      exfalso. apply Hnot. rewrite <- E. apply in_map. exact Hc.
Qed.

End RefreshLoop.

Lemma template_types_NoDup :
  NoDup (map tm_challenge_type challenges.CHALLENGE_TEMPLATES).
Proof.
  cbn. repeat constructor; cbn; intuition discriminate.
Qed.

Section SeedLoop.

Variable isoformat : datetime -> string.
Variable timestamp_ms : datetime -> string.
Variable now : datetime.

Lemma seed_id_type (t1 t2 : ChallengeTemplate) :
  server.seed_id timestamp_ms now t1 = server.seed_id timestamp_ms now t2 ->
  tm_challenge_type t1 = tm_challenge_type t2.
Proof.
  unfold server.seed_id. intro H. cbn [String.append] in H. inversion H as [H'].
  exact (string_app_inv_tail _ _ _ H').
Qed.

Lemma seed_ids_NoDup (templates : list ChallengeTemplate) :
  NoDup (map tm_challenge_type templates) ->
  NoDup (map (server.seed_id timestamp_ms now) templates).
Proof.
  induction templates as [|t ts IH]; intro H; [constructor|].
  cbn [map] in *. inversion H as [|? ? Hnot Hnd]; subst.
  constructor; [|apply IH; exact Hnd].
  intro Hin. apply in_map_iff in Hin. destruct Hin as [t' [Hid Ht']].
  apply Hnot. rewrite <- (seed_id_type _ _ Hid). apply in_map. exact Ht'.
Qed.

(** The seeding loop appends a row for every template it does not skip. *)
Lemma for_each_seed (skip : ChallengeTemplate -> bool)
  (templates : list ChallengeTemplate) (db : Database) :
  NoDup (map (server.seed_id timestamp_ms now) templates) ->
  (forall t, In t templates ->
             ~ In (server.seed_id timestamp_ms now t) (map ch_id (db_challenges db))) ->
  for_each templates
    (fun tmpl => if skip tmpl then dret tt
                 else server.seed_challenge isoformat timestamp_ms now tmpl) db =
  (Ret tt,
   with_challenges
     (db_challenges db
      ++ map (seed_row isoformat timestamp_ms now)
           (filter (fun t => negb (skip t)) templates))
     db).
Proof.
  revert db. induction templates as [|t ts IH]; intros db Hnd Hfresh.
  - cbn. rewrite app_nil_r. destruct db; reflexivity.
  - cbn [for_each filter map]. cbn [map] in Hnd.
    inversion Hnd as [|? ? Hnot Hnd']; subst. unfold dbind at 1.
    destruct (skip t); cbn [negb].
    + cbn [dret]. apply IH; [exact Hnd'|].
      intros t' Ht'. apply Hfresh. right. exact Ht'.
    + unfold server.seed_challenge, database.add_challenge.
      assert (Hx : existsb (fun r => String.eqb (ch_id r) (server.seed_id timestamp_ms now t))
                     (db_challenges db) = false).
      { destruct (existsb _ (db_challenges db)) eqn:Ex; [|reflexivity].
        apply existsb_exists in Ex. destruct Ex as [r [Hr Hid]].
        apply String.eqb_eq in Hid. exfalso.
        apply (Hfresh t (or_introl eq_refl)). rewrite <- Hid. apply in_map. exact Hr. }
      rewrite Hx. rewrite IH.
      * cbn [db_challenges with_challenges map]. rewrite <- app_assoc. reflexivity.
      * exact Hnd'.
      * intros t' Ht'. cbn [db_challenges with_challenges].
        rewrite map_app, in_app_iff. intros [Hin|[Hin|[]]].
        -- exact (Hfresh t' (or_intror Ht') Hin).
        -- cbn [ch_id] in Hin. apply Hnot. rewrite Hin. apply in_map. exact Ht'.
Qed.

End SeedLoop.

Lemma active_rows_NoDup (rows : list Challenge) :
  unique_ids rows ->
  NoDup (map ch_id (order_by_desc ch_started_at (filter is_active rows))).
Proof.
  intro H.
  apply (Permutation_NoDup (l := map ch_id (filter is_active rows))).
  - apply Permutation_map, Permutation_sym, order_by_desc_perm.
  - unfold unique_ids in H. induction rows as [|r rows IH]; [constructor|].
    cbn [map] in H. inversion H as [|? ? Hnot Hnd]; subst. cbn [filter].
    destruct (is_active r); [|apply IH; exact Hnd].
    cbn [map]. constructor; [|apply IH; exact Hnd].
    intro Hin. apply Hnot. apply in_map_iff in Hin. destruct Hin as [x [Hx Hin]].
    apply filter_In in Hin. rewrite <- Hx. apply in_map. apply Hin.
Qed.

Lemma active_rows_exists (rows : list Challenge) (r : Challenge) :
  unique_ids rows -> In r rows ->
  existsb (fun ch => String.eqb (ch_id r) (ch_id ch))
    (order_by_desc ch_started_at (filter is_active rows)) = is_active r.
Proof.
  intros Hu Hr. destruct (is_active r) eqn:Ea.
  - apply existsb_exists. exists r. split; [|apply String.eqb_refl].
    apply order_by_desc_In. apply filter_In. auto.
  - destruct (existsb _ _) eqn:Ex; [|reflexivity].
    apply existsb_exists in Ex. destruct Ex as [ch [Hch Hid]].
    apply order_by_desc_In in Hch. apply filter_In in Hch. destruct Hch as [Hin Hact].
    apply String.eqb_eq in Hid.
    rewrite (unique_id_row rows r ch Hu Hr Hin Hid) in Ea. congruence.
Qed.

Lemma skip_missing (rows : list Challenge) (ty : string) :
  negb (existsb (String.eqb ty)
          (map ch_challenge_type (order_by_desc ch_started_at (filter is_active rows)))) =
  match active_of_type ty rows with
  | [] => true
  | _ :: _ => false
  end.
Proof.
  destruct (active_of_type ty rows) as [|a l] eqn:Ea.
  - apply negb_true_iff. destruct (existsb _ _) eqn:Ex; [|reflexivity].
    apply existsb_exists in Ex. destruct Ex as [t [Ht Heq]].
    apply in_map_iff in Ht. destruct Ht as [r [Hty Hr]].
    apply order_by_desc_In in Hr. apply filter_In in Hr. destruct Hr as [Hin Hact].
    apply String.eqb_eq in Heq. subst t.
    assert (In r (active_of_type (ch_challenge_type r) rows)).
    { unfold active_of_type. apply filter_In. split; [exact Hin|].
      rewrite Hact, String.eqb_refl. reflexivity. }
    rewrite Heq in Ea. rewrite Ea in H. contradiction.
  - apply negb_false_iff. apply existsb_exists. exists ty.
    split; [|apply String.eqb_refl].
    assert (Ha : In a (active_of_type ty rows)) by (rewrite Ea; left; reflexivity).
    unfold active_of_type in Ha. apply filter_In in Ha. destruct Ha as [Hin Hc].
    apply andb_true_iff in Hc. destruct Hc as [Hact Hty]. apply String.eqb_eq in Hty.
    apply in_map_iff. exists a. split; [exact Hty|].
    apply order_by_desc_In. apply filter_In. auto.
Qed.

Lemma refreshed_id f iso rcs now db r : ch_id (refreshed f iso rcs now db r) = ch_id r.
Proof.
  unfold refreshed, stamped.
  repeat match goal with |- context [if ?c then _ else _] => destruct c end; reflexivity.
Qed.

(** The refresh returns, and leaves the refreshed table. *)
Lemma challenges_refresh_run f iso tms rcs now db :
  unique_ids (db_challenges db) ->
  fresh_seed_ids tms now (db_challenges db) ->
  server.challenges_refresh f iso tms rcs now db =
  (Ret (order_by_desc ch_started_at
          (filter is_active (refreshed_table f iso tms rcs now db))),
   with_challenges (refreshed_table f iso tms rcs now db) db).
Proof.
  intros Hu Hf.
  unfold server.challenges_refresh.
  unfold dbind at 1. unfold database.get_active_challenges at 1, query at 1.
  unfold dbind at 1. unfold database.get_transactions at 1, query at 1.
  unfold dbind at 1. unfold database.get_holdings at 1, query at 1.
  unfold dbind at 1. unfold database.get_portfolio at 1, query at 1.
  unfold dbind at 1. unfold database.get_checklists_raw at 1, query at 1.
  unfold dbind at 1. rewrite for_each_refresh.
  rewrite fold_step_map;
    [ | exact Hu | apply active_rows_NoDup; exact Hu
      | intros ch Hch; apply order_by_desc_In in Hch; apply filter_In in Hch; apply Hch ].
  match goal with
  | |- context [with_challenges (map ?g (db_challenges db)) db] =>
      rewrite (map_ext_in g (refreshed f iso rcs now db))
  end.
  2:{ intros r Hr. change (fun r0 => is_active_status (ch_status r0)) with is_active.
      rewrite (active_rows_exists _ _ Hu Hr). reflexivity. }
  unfold dbind at 1. unfold database.get_active_challenges at 1, query at 1.
  cbn [db_challenges with_challenges].
  unfold dbind at 1.
  rewrite (for_each_seed iso tms now
             (fun tmpl => existsb (String.eqb (tm_challenge_type tmpl))
                            (map ch_challenge_type
                               (order_by_desc ch_started_at
                                  (filter (fun r => is_active_status (ch_status r))
                                     (map (refreshed f iso rcs now db) (db_challenges db))))))).
  { cbn [db_challenges with_challenges].
    unfold dbind, database.get_active_challenges, query, dret.
    cbn [db_challenges with_challenges].
    unfold refreshed_table, missing_templates.
    rewrite (filter_ext _ _ (fun t => skip_missing _ (tm_challenge_type t))).
    reflexivity. }
  { apply seed_ids_NoDup. apply template_types_NoDup. }
  intros t Ht. cbn [db_challenges with_challenges]. rewrite map_map.
  rewrite (map_ext _ ch_id (refreshed_id f iso rcs now db)).
  apply Hf. exact Ht.
Qed.

Lemma filter_key_le_1 {A : Type} (key : A -> string) (xs : list A) (k : string) :
  NoDup (map key xs) ->
  (List.length (filter (fun x => String.eqb (key x) k) xs) <= 1)%nat.
Proof.
  induction xs as [|x xs IH]; intro H; cbn [filter map List.length] in *; [lia|].
  inversion H as [|? ? Hnot Hnd]; subst.
  destruct (String.eqb_spec (key x) k) as [E|E]; [|apply IH; exact Hnd].
  assert (Hnil : filter (fun y => String.eqb (key y) k) xs = []).
  { destruct (filter _ xs) as [|y ys] eqn:Ef; [reflexivity|].
    assert (Hy : In y (filter (fun y => String.eqb (key y) k) xs))
      by (rewrite Ef; left; reflexivity).
    apply filter_In in Hy. destruct Hy as [Hy Hk]. apply String.eqb_eq in Hk.
    exfalso. apply Hnot. rewrite E, <- Hk. apply in_map. exact Hy. }
  rewrite Hnil. cbn. lia.
Qed.

Section RefreshedTable.

Variable f : string -> option datetime.
Variable iso tms : datetime -> string.
Variable rcs : string -> option Sentiment.
Variable now : datetime.
Variable db : Database.

Let rows := db_challenges db.
(** The rows kept from before the refresh, and the rows it seeds. *)
Let kept := map (refreshed f iso rcs now db) rows.
Let seeds := map (seed_row iso tms now) (missing_templates kept).

Lemma refreshed_type r :
  ch_challenge_type (refreshed f iso rcs now db r) = ch_challenge_type r.
Proof.
  unfold refreshed, stamped.
  repeat match goal with |- context [if ?c then _ else _] => destruct c end; reflexivity.
Qed.

Lemma refreshed_active r :
  is_active (refreshed f iso rcs now db r) = true -> is_active r = true.
Proof.
  unfold refreshed. destruct (is_active r) eqn:E; [reflexivity|].
  rewrite E. discriminate.
Qed.

Lemma refreshed_inactive r :
  is_active r = false -> refreshed f iso rcs now db r = r.
Proof.
  unfold refreshed. intros ->. reflexivity.
Qed.

Lemma active_refreshed_le (ty : string) (l : list Challenge) :
  (List.length (active_of_type ty (map (refreshed f iso rcs now db) l))
   <= List.length (active_of_type ty l))%nat.
Proof.
  unfold active_of_type. induction l as [|r l IH]; [cbn; lia|].
  cbn [map filter]. rewrite refreshed_type.
  destruct (String.eqb (ch_challenge_type r) ty); rewrite ?andb_false_r, ?andb_true_r.
  - destruct (is_active (refreshed f iso rcs now db r)) eqn:E.
    + rewrite (refreshed_active r E). cbn [List.length]. lia.
    + destruct (is_active r); cbn [List.length]; lia.
  - exact IH.
Qed.

Lemma active_of_type_seeds (ty : string) (l : list ChallengeTemplate) :
  active_of_type ty (map (seed_row iso tms now) l) =
  map (seed_row iso tms now) (filter (fun t => String.eqb (tm_challenge_type t) ty) l).
Proof.
  unfold active_of_type. induction l as [|t l IH]; [reflexivity|].
  cbn [map filter]. cbn [seed_row is_active ch_status is_active_status ch_challenge_type andb].
  destruct (String.eqb (tm_challenge_type t) ty); cbn [map]; rewrite IH; reflexivity.
Qed.

Lemma missing_templates_types (l : list Challenge) :
  NoDup (map tm_challenge_type (missing_templates l)).
Proof.
  unfold missing_templates.
  generalize template_types_NoDup. generalize challenges.CHALLENGE_TEMPLATES.
  induction l0 as [|t ts IH]; intro H; [constructor|].
  cbn [map filter] in *. inversion H as [|? ? Hnot Hnd]; subst.
  destruct (active_of_type (tm_challenge_type t) l); [|apply IH; exact Hnd].
  cbn [map]. constructor; [|apply IH; exact Hnd].
  intro Hin. apply Hnot. apply in_map_iff in Hin. destruct Hin as [x [Hx Hin]].
  apply filter_In in Hin. rewrite <- Hx. apply in_map. apply Hin.
Qed.

Lemma active_table_split (ty : string) :
  active_of_type ty (refreshed_table f iso tms rcs now db) =
  active_of_type ty kept ++ active_of_type ty seeds.
Proof.
  unfold refreshed_table, active_of_type. cbv zeta. apply filter_app.
Qed.

Lemma seeds_of_type_le_1 (ty : string) : (List.length (active_of_type ty seeds) <= 1)%nat.
Proof.
  unfold seeds. rewrite active_of_type_seeds, length_map.
  apply filter_key_le_1. apply missing_templates_types.
Qed.

Lemma seeds_of_active_type (ty : string) :
  active_of_type ty kept <> [] -> active_of_type ty seeds = [].
Proof.
  intro Hne. unfold seeds. rewrite active_of_type_seeds.
  destruct (filter _ (missing_templates kept)) as [|t l] eqn:Ef; [reflexivity|].
  assert (Ht : In t (filter (fun t => String.eqb (tm_challenge_type t) ty)
                       (missing_templates kept))) by (rewrite Ef; left; reflexivity).
  apply filter_In in Ht. destruct Ht as [Hm Hty]. apply String.eqb_eq in Hty.
  unfold missing_templates in Hm. apply filter_In in Hm. destruct Hm as [_ Hm].
  rewrite Hty in Hm. destruct (active_of_type ty kept); [contradiction | discriminate].
Qed.

Lemma seeds_of_missing_type (tmpl : ChallengeTemplate) :
  In tmpl challenges.CHALLENGE_TEMPLATES ->
  active_of_type (tm_challenge_type tmpl) kept = [] ->
  (1 <= List.length (active_of_type (tm_challenge_type tmpl) seeds))%nat.
Proof.
  intros Hin Hnil. unfold seeds. rewrite active_of_type_seeds, length_map.
  assert (Ht : In tmpl (filter (fun t => String.eqb (tm_challenge_type t)
                                            (tm_challenge_type tmpl))
                          (missing_templates kept))).
  { apply filter_In. split; [|apply String.eqb_refl].
    unfold missing_templates. apply filter_In. split; [exact Hin|].
    rewrite Hnil. reflexivity. }
  destruct (filter _ (missing_templates kept)); [contradiction | cbn; lia].
Qed.

End RefreshedTable.

(** C5. On a table with unique ids and at most one active challenge per
    type (what seeding and refreshing leave), refreshed at a time whose seed
    ids are new, [challenges_refresh] returns, and in the table it leaves:
    every active challenge whose progress reaches its target is completed,
    with the time of the refresh as completion time; every other active
    challenge past its expiry is expired; a completed or expired row is
    untouched, so it is never active again; each of the 7 template types has
    exactly one active challenge; and ids are still unique, with at most one
    active challenge per type. *)
Theorem challenge_refresh_invariants :
  forall (fromisoformat : string -> option datetime)
         (isoformat timestamp_ms : datetime -> string)
         (run_cached_sentiment : string -> option Sentiment)
         (now : datetime) (db : Database),
    unique_ids (db_challenges db) ->
    at_most_one_active_per_type (db_challenges db) ->
    fresh_seed_ids timestamp_ms now (db_challenges db) ->
    exists updated db',
      server.challenges_refresh fromisoformat isoformat timestamp_ms
        run_cached_sentiment now db = (Ret updated, db') /\
      (forall ch, In ch (db_challenges db) -> is_active ch = true ->
                  ch_target_value ch
                  <= computed_progress fromisoformat isoformat run_cached_sentiment now db ch ->
                  exists ch', In ch' (db_challenges db') /\ ch_id ch' = ch_id ch /\
                              ch_status ch' = Completed /\
                              ch_completed_at ch' = Some (isoformat now)) /\
      (forall ch, In ch (db_challenges db) -> is_active ch = true ->
                  computed_progress fromisoformat isoformat run_cached_sentiment now db ch
                  < ch_target_value ch ->
                  String.ltb (ch_expires_at ch) (isoformat now) = true ->
                  exists ch', In ch' (db_challenges db') /\ ch_id ch' = ch_id ch /\
                              ch_status ch' = Expired) /\
      (forall ch ch', In ch (db_challenges db) -> is_active ch = false ->
                      In ch' (db_challenges db') -> ch_id ch' = ch_id ch -> ch' = ch) /\
      (forall tmpl, In tmpl challenges.CHALLENGE_TEMPLATES ->
                    List.length (active_of_type (tm_challenge_type tmpl)
                                   (db_challenges db')) = 1%nat) /\
      unique_ids (db_challenges db') /\
      at_most_one_active_per_type (db_challenges db') /\
      Permutation updated (filter is_active (db_challenges db')).
Proof.
  intros f iso tms rcs now db Hu H1 Hf.
  eexists. eexists. split; [apply challenges_refresh_run; assumption|].
  cbn [db_challenges with_challenges].
  set (T := refreshed_table f iso tms rcs now db).
  assert (HuT : unique_ids T).
  { unfold T, refreshed_table, unique_ids. cbv zeta. rewrite map_app.
    apply NoDup_app.
    - rewrite map_map. rewrite (map_ext _ ch_id (refreshed_id f iso rcs now db)). exact Hu.
    - rewrite map_map. cbn [seed_row ch_id].
      apply seed_ids_NoDup. apply missing_templates_types.
    - intros x Hx Hs. rewrite map_map in Hx, Hs.
      rewrite (map_ext _ ch_id (refreshed_id f iso rcs now db)) in Hx.
      apply in_map_iff in Hs. destruct Hs as [t [Ht Hin]].
      unfold missing_templates in Hin. apply filter_In in Hin.
      cbn [seed_row ch_id] in Ht. subst x. exact (Hf t (proj1 Hin) Hx). }
  assert (HinT : forall ch, In ch (db_challenges db) ->
                            In (refreshed f iso rcs now db ch) T).
  { intros ch Hch. unfold T, refreshed_table. cbv zeta.
    apply in_or_app. left. apply in_map. exact Hch. }
  assert (Hle : forall ty, (List.length (active_of_type ty T) <= 1)%nat).
  { intro ty. unfold T. rewrite active_table_split, length_app.
    pose proof (active_refreshed_le f iso rcs now db ty (db_challenges db)) as Hk.
    pose proof (H1 ty) as H1'.
    pose proof (seeds_of_type_le_1 f iso tms rcs now db ty) as Hs.
    destruct (active_of_type ty (map (refreshed f iso rcs now db) (db_challenges db)))
      as [|a l] eqn:Ea.
    - cbn [List.length]. lia.
    - rewrite (seeds_of_active_type f iso tms rcs now db ty)
        by (rewrite Ea; discriminate).
      cbn [List.length] in *. lia. }
  repeat split.
  - intros ch Hch Hact Hp. exists (refreshed f iso rcs now db ch).
    split; [apply HinT; exact Hch|].
    unfold refreshed, stamped. rewrite Hact.
    apply Qle_bool_iff in Hp. rewrite Hp. repeat split.
  - intros ch Hch Hact Hp Hexp. exists (refreshed f iso rcs now db ch).
    split; [apply HinT; exact Hch|].
    unfold refreshed, stamped. rewrite Hact.
    apply Qleb_gt in Hp. rewrite Hp, Hexp. split; reflexivity.
  - intros ch ch' Hch Hact Hch' Hid.
    apply (unique_id_row T); [exact HuT | exact Hch' | | exact Hid].
    rewrite <- (refreshed_inactive f iso rcs now db ch Hact). apply HinT. exact Hch.
  - intros tmpl Ht. pose proof (Hle (tm_challenge_type tmpl)) as Hl.
    unfold T in *. rewrite active_table_split, length_app in *.
    destruct (active_of_type (tm_challenge_type tmpl)
                (map (refreshed f iso rcs now db) (db_challenges db))) as [|a l] eqn:Ea.
    + pose proof (seeds_of_missing_type f iso tms rcs now db tmpl Ht Ea).
      cbn [List.length] in *. lia.
    + cbn [List.length] in *. lia.
  - exact HuT.
  - exact Hle.
  - apply order_by_desc_perm.
Qed.

Lemma challenge_refresh_witness :
  unique_ids (db_challenges sample_challenge_db) /\
  at_most_one_active_per_type (db_challenges sample_challenge_db) /\
  fresh_seed_ids sample_timestamp_ms sample_now (db_challenges sample_challenge_db) /\
  exists updated db',
    sample_refresh sample_now sample_challenge_db = (Ret updated, db') /\
    forall tmpl, In tmpl challenges.CHALLENGE_TEMPLATES ->
                 List.length (active_of_type (tm_challenge_type tmpl)
                                (db_challenges db')) = 1%nat.
Proof.
  assert (H1 : unique_ids (db_challenges sample_challenge_db)).
  { unfold unique_ids. cbn. repeat constructor; cbn; intuition discriminate. }
  assert (H2 : at_most_one_active_per_type (db_challenges sample_challenge_db)).
  { intro ty. unfold active_of_type. cbn -[String.eqb].
    destruct (String.eqb_spec "cash_reserve" ty) as [E1|E1];
      destruct (String.eqb_spec "trade_variety" ty) as [E2|E2];
      cbn [List.length]; try lia.
    subst ty. discriminate. }
  assert (H3 : fresh_seed_ids sample_timestamp_ms sample_now
                 (db_challenges sample_challenge_db)).
  { intros tmpl Hin. cbn in Hin.
    repeat (destruct Hin as [<-|Hin]; [vm_compute; intuition discriminate|]).
    contradiction. }
  split; [exact H1|]. split; [exact H2|]. split; [exact H3|].
  destruct (challenge_refresh_invariants sample_fromisoformat sample_isoformat
              sample_timestamp_ms (fun _ => None) sample_now sample_challenge_db
              H1 H2 H3)
    as [updated [db' [Hrun [_ [_ [_ [H4 _]]]]]]].
  exists updated, db'. split; [exact Hrun | exact H4].
Defined.

(** ** Unparseable timestamps *)

Section Removal.

Context {A : Type}.








End Removal.



Section SkippedByDetectors.

Variable fromisoformat : string -> option datetime.
Variable get_cached_sentiment : string -> option Sentiment.
Variable now : datetime.
Variable bad : Transaction.

Hypothesis bad_timestamp :
  mentor_engine._parse_timestamp fromisoformat (t_timestamp bad) = None.





(** *** panic sells *)



(** *** FOMO buys *)




(** *** holding losers *)





End SkippedByDetectors.




Section SkippedByScores.

Variable fromisoformat : string -> option datetime.
Variable bad : Transaction.

Hypothesis bad_timestamp :
  scoring_engine._parse_timestamp fromisoformat (t_timestamp bad) = None.







End SkippedByScores.

Section SkippedByChallenges.

Variable fromisoformat : string -> option datetime.
Variable run_cached_sentiment : string -> option Sentiment.
Variable now : datetime.
Variable bad : Transaction.

Hypothesis bad_timestamp :
  challenges._parse_timestamp fromisoformat (t_timestamp bad) = None.








End SkippedByChallenges.




(** * Further properties of the code *)

(** ** The trade endpoint *)

Lemma find_view (symbol type : string) (rows : list Holding) :
  find (database.same_holding symbol type)
    (map (fun h => mkHolding (h_symbol h) (h_type h) (h_quantity h)
                     (h_averagePrice h) None) rows)
  = option_map (fun h => mkHolding (h_symbol h) (h_type h) (h_quantity h)
                     (h_averagePrice h) None)
      (find (database.same_holding symbol type) rows).
Proof.
  induction rows as [|h rest IH]; [reflexivity|].
  cbn [map find]. unfold database.same_holding at 1 3. cbn [h_symbol h_type].
  fold (database.same_holding symbol type h).
  destruct (database.same_holding symbol type h); [reflexivity|exact IH].
Qed.

Lemma same_holding_type (symbol type : string) (h : Holding) :
  database.same_holding symbol type h = true -> h_symbol h = symbol /\ h_type h = type.
Proof.
  unfold database.same_holding. intros H. apply andb_prop in H. destruct H as [H1 H2].
  apply String.eqb_eq in H1. apply String.eqb_eq in H2. auto.
Qed.

Lemma existsb_id_fresh (tx_id : string) (rows : list Transaction) :
  ~ In tx_id (map t_id rows) ->
  existsb (fun r => String.eqb (t_id r) tx_id) rows = false.
Proof.
  intros H. destruct (existsb _ rows) eqn:E; [|reflexivity].
  apply existsb_exists in E. destruct E as [r [Hin Hr]].
  apply String.eqb_eq in Hr. exfalso. apply H. rewrite <- Hr. apply in_map. exact Hin.
Qed.

Lemma find_existsb {A : Type} (p : A -> bool) (xs : list A) :
  existsb p xs = match find p xs with Some _ => true | None => false end.
Proof.
  induction xs as [|x xs IH]; [reflexivity|].
  cbn. destruct (p x); [reflexivity|exact IH].
Qed.

Section Trade.
Variable isoformat : datetime -> string.
Variable now : datetime.
Variable tx_id : string.
Variable trade : server.TradeRequest.

Lemma record_run (db' : Database) (b : Q) (a : Action) :
  database.action_of_string (server.tr_action trade) = Some a ->
  database.asset_type_ok (server.tr_type trade) = true ->
  (_ <~ database.save_portfolio b ;;
   _ <~ database.add_transaction tx_id (server.tr_symbol trade)
          (server.tr_name trade) (server.tr_type trade)
          (server.tr_action trade) (server.tr_quantity trade)
          (server.tr_price trade)
          (server.tr_quantity trade * server.tr_price trade) (isoformat now) ;;
   dret (server.TradeSuccess (server.tr_action trade)
           (server.tr_quantity trade) (server.tr_symbol trade))) db'
  = if existsb (fun r => String.eqb (t_id r) tx_id) (db_transactions db')
    then (Raise IntegrityError,
          with_balance (match db_balance db' with
                        | Some _ => Some b
                        | None => None
                        end) db')
    else (Ret (server.TradeSuccess (server.tr_action trade)
                 (server.tr_quantity trade) (server.tr_symbol trade)),
          with_transactions
            (db_transactions db' ++
             [mkTransaction tx_id (server.tr_symbol trade) (server.tr_type trade) a
                (server.tr_quantity trade) (server.tr_price trade)
                (server.tr_quantity trade * server.tr_price trade) (isoformat now)])
            (with_balance (match db_balance db' with
                           | Some _ => Some b
                           | None => None
                           end) db')).
Proof.
  intros Ha Ht.
  unfold dbind, database.save_portfolio, database.add_transaction, dret.
  rewrite Ha, Ht. cbn [negb with_balance db_transactions].
  destruct (existsb _ (db_transactions db')); reflexivity.
Qed.

Variable db : Database.

(** The endpoint on a table that meets its CHECK: an accepted trade writes
    the balance and the holdings of [trade_effect], then records the
    transaction (which fails on an id already used); any other trade leaves
    the database as it was. *)
Lemma trade_run :
  Forall (fun h => database.asset_type_ok (h_type h) = true) (db_holdings db) ->
  match trade_effect (balance_of db) (db_holdings db) trade with
  | Some effect =>
      server.db_execute_trade isoformat now tx_id trade db
      = if existsb (fun r => String.eqb (t_id r) tx_id) (db_transactions db)
        then (Raise IntegrityError, settled effect db)
        else (Ret (server.TradeSuccess (server.tr_action trade)
                     (server.tr_quantity trade) (server.tr_symbol trade)),
              traded isoformat now tx_id trade effect db)
  | None =>
      snd (server.db_execute_trade isoformat now tx_id trade db) = db /\
      forall a q s, fst (server.db_execute_trade isoformat now tx_id trade db)
                    <> Ret (server.TradeSuccess a q s)
  end.
Proof.
  intros Htypes.
  unfold server.db_execute_trade, trade_effect, balance_of.
  destruct (server.tr_quantity trade <=? 0);
    [split; [reflexivity|intros ? ? ?; cbn; discriminate]|].
  unfold database.get_portfolio, database.get_holdings.
  cbn [dbind query].
  rewrite find_view.
  unfold database.action_of_string.
  destruct (String.eqb (server.tr_action trade) "buy") eqn:Ebuy.
  - assert (Ha : database.action_of_string (server.tr_action trade) = Some buy)
      by (unfold database.action_of_string; rewrite Ebuy; reflexivity).
    destruct (find _ (db_holdings db)) as [e|] eqn:Hfind; cbn [option_map].
    + cbn [h_quantity h_averagePrice].
      destruct (_ <? _); cbn [orb]; [split; [reflexivity|intros ? ? ?; cbn; discriminate]|].
      unfold dbind at 1. unfold dbind at 1. unfold lift.
      unfold database.upsert_holding.
      destruct (database.asset_type_ok (server.tr_type trade)) eqn:Et; cbn [negb orb].
      * unfold pydiv.
        destruct (Qeq_bool (h_quantity e + server.tr_quantity trade) 0);
          [split; [reflexivity|intros ? ? ?; cbn; discriminate]|].
        rewrite find_existsb, Hfind.
        rewrite record_run with (a := buy) by assumption.
        reflexivity.
      * destruct (pydiv _ _); split; try reflexivity; intros ? ? ?; cbn; discriminate.
    + destruct (_ <? _); cbn [orb]; [split; [reflexivity|intros ? ? ?; cbn; discriminate]|].
      unfold dbind at 1. unfold database.upsert_holding.
      destruct (database.asset_type_ok (server.tr_type trade)) eqn:Et; cbn [negb];
        [|split; [reflexivity|intros ? ? ?; cbn; discriminate]].
      rewrite find_existsb, Hfind.
      rewrite record_run with (a := buy) by assumption.
      reflexivity.
  - destruct (String.eqb (server.tr_action trade) "sell") eqn:Esell;
      [|cbv beta iota; split; [reflexivity|intros ? ? ?; cbn; discriminate]].
    assert (Ha : database.action_of_string (server.tr_action trade) = Some sell)
      by (unfold database.action_of_string; rewrite Ebuy, Esell; reflexivity).
    destruct (find _ (db_holdings db)) as [e|] eqn:Hfind; cbn [option_map];
      [|split; [reflexivity|intros ? ? ?; cbn; discriminate]].
    cbn [h_quantity h_averagePrice].
    destruct (_ <? _); [split; [reflexivity|intros ? ? ?; cbn; discriminate]|].
    assert (Et : database.asset_type_ok (server.tr_type trade) = true).
    { apply find_some in Hfind. destruct Hfind as [Hin Hsame].
      apply same_holding_type in Hsame. destruct Hsame as [_ Hty].
      rewrite Forall_forall in Htypes. rewrite <- Hty. apply Htypes. exact Hin. }
    unfold dbind at 1.
    destruct (Qeq_bool _ _).
    + unfold database.delete_holding.
      rewrite record_run with (a := sell) by assumption.
      reflexivity.
    + unfold database.update_holding_quantity.
      rewrite record_run with (a := sell) by assumption.
      reflexivity.
Qed.

End Trade.


Section TradeOutcomes.

Variable isoformat : datetime -> string.
Variable now : datetime.
Variable tx_id : string.
Variable trade : server.TradeRequest.
Variable db : Database.

(** X1. On a holdings table that meets its CHECK and with a transaction id
    not yet used, a trade that is not answered with the success message
    leaves the database exactly as it was: the four rejections, the zero
    division and the constraint failures all come before the first write. *)
Theorem trade_failure_leaves_database :
  Forall (fun h => database.asset_type_ok (h_type h) = true) (db_holdings db) ->
  ~ In tx_id (map t_id (db_transactions db)) ->
  (forall a q s, fst (server.db_execute_trade isoformat now tx_id trade db)
                 <> Ret (server.TradeSuccess a q s)) ->
  snd (server.db_execute_trade isoformat now tx_id trade db) = db.
Proof.
  intros Htypes Hfresh Hfail.
  pose proof (trade_run isoformat now tx_id trade db Htypes) as Hrun.
  destruct (trade_effect _ _ trade) as [effect|].
  - rewrite (existsb_id_fresh _ _ Hfresh) in Hrun.
    exfalso. eapply Hfail. rewrite Hrun. reflexivity.
  - exact (proj1 Hrun).
Qed.

(** X2. The endpoint is not atomic when the transaction id is already
    used: an affordable buy of an asset not yet held raises IntegrityError
    at the last step, after the holding was inserted and the balance was
    debited, and records no transaction. *)
Theorem trade_id_clash_keeps_the_writes (b : Q) :
  db_balance db = Some b ->
  server.tr_action trade = "buy"%string ->
  0 < server.tr_quantity trade ->
  server.tr_quantity trade * server.tr_price trade <= b ->
  database.asset_type_ok (server.tr_type trade) = true ->
  find (database.same_holding (server.tr_symbol trade) (server.tr_type trade))
    (db_holdings db) = None ->
  In tx_id (map t_id (db_transactions db)) ->
  let r := server.db_execute_trade isoformat now tx_id trade db in
  fst r = Raise IntegrityError /\
  db_balance (snd r)
  = Some (b - server.tr_quantity trade * server.tr_price trade) /\
  db_holdings (snd r)
  = db_holdings db ++
    [mkHolding (server.tr_symbol trade) (server.tr_type trade)
       (server.tr_quantity trade) (server.tr_price trade) None] /\
  db_transactions (snd r) = db_transactions db.
Proof.
  intros Hb Hbuy Hq Htotal Htype Hnew Hclash r.
  assert (Hr : r = (Raise IntegrityError,
                    with_balance
                      (Some (b - server.tr_quantity trade * server.tr_price trade))
                      (with_holdings
                         (db_holdings db ++
                          [mkHolding (server.tr_symbol trade) (server.tr_type trade)
                             (server.tr_quantity trade) (server.tr_price trade) None])
                         db))).
  { subst r. unfold server.db_execute_trade.
    assert (E1 : (server.tr_quantity trade <=? 0) = false) by (apply Qleb_gt; exact Hq).
    rewrite E1. unfold database.get_portfolio, database.get_holdings.
    cbn [dbind query]. rewrite find_view, Hnew, Hbuy, Hb.
    cbn [String.eqb Ascii.eqb Bool.eqb option_map].
    assert (E2 : (b <? server.tr_quantity trade * server.tr_price trade) = false)
      by (apply Qltb_ge; exact Htotal).
    rewrite E2.
    unfold dbind at 1. unfold database.upsert_holding.
    rewrite Htype. cbn [negb]. rewrite find_existsb, Hnew.
    unfold dbind, database.save_portfolio, database.add_transaction.
    rewrite ?Htype.
    cbn [database.action_of_string String.eqb Ascii.eqb Bool.eqb negb].
    cbn [with_holdings with_balance db_transactions db_balance].
    assert (E3 : existsb (fun r => String.eqb (t_id r) tx_id) (db_transactions db) = true).
    { apply existsb_exists. apply in_map_iff in Hclash. destruct Hclash as [t [Ht Hin]].
      exists t. split; [exact Hin|]. apply String.eqb_eq. exact Ht. }
    rewrite E3, Hb. reflexivity. }
  rewrite Hr. repeat split; reflexivity.
Qed.

End TradeOutcomes.

Lemma trade_failure_witness :
  snd (sample_execute_trade "t2" (sample_trade "MSFT" "buy" 10 500) sample_portfolio_db)
  = sample_portfolio_db.
Proof.
  apply (trade_failure_leaves_database sample_isoformat sample_now "t2"
           (sample_trade "MSFT" "buy" 10 500) sample_portfolio_db).
  - repeat constructor.
  - cbn. intuition discriminate.
  - intros a q s. vm_compute. discriminate.
Defined.

Lemma trade_id_clash_witness :
  fst (sample_execute_trade "t1" (sample_trade "MSFT" "buy" 1 100) sample_portfolio_db)
  = Raise IntegrityError /\
  db_balance
    (snd (sample_execute_trade "t1" (sample_trade "MSFT" "buy" 1 100)
            sample_portfolio_db))
  = Some (1000 - 1 * 100).
Proof.
  destruct (trade_id_clash_keeps_the_writes sample_isoformat sample_now "t1"
              (sample_trade "MSFT" "buy" 1 100) sample_portfolio_db 1000
              eq_refl eq_refl eq_refl ltac:(vm_compute; discriminate) eq_refl eq_refl
              (or_introl eq_refl))
    as [H1 [H2 _]].
  split; [exact H1|exact H2].
Defined.

Lemma same_holding_key (s t : string) (r : Holding) :
  database.same_holding s t r = true <-> holding_key r = (s, t).
Proof.
  unfold database.same_holding, holding_key. rewrite andb_true_iff, !String.eqb_eq.
  split; [intros [-> ->]; reflexivity|intros H; inversion H; auto].
Qed.

Lemma set_position_keys (s t : string) (q a : Q) (rows : list Holding) :
  map holding_key (set_position s t q a rows) = map holding_key rows.
Proof.
  unfold set_position. rewrite map_map. apply map_ext. intros r.
  destruct (database.same_holding s t r); reflexivity.
Qed.






Section CostBasis.

Variable isoformat : datetime -> string.
Variable now : datetime.
Variable tx_id : string.
Variable trade : server.TradeRequest.
Variable db : Database.


End CostBasis.


Lemma NoDup_map_filter {A B : Type} (f : A -> B) (p : A -> bool) (xs : list A) :
  NoDup (map f xs) -> NoDup (map f (filter p xs)).
Proof.
  induction xs as [|x xs IH]; intros H; [constructor|].
  cbn [map] in H. inversion H as [|k ks Hk Hrest]; subst.
  cbn [filter]. destruct (p x); [|exact (IH Hrest)].
  cbn [map]. constructor; [|exact (IH Hrest)].
  intros Hin. apply Hk. apply in_map_iff in Hin. destruct Hin as [y [Hy Hin]].
  apply filter_In in Hin. rewrite <- Hy. apply in_map. exact (proj1 Hin).
Qed.

Lemma NoDup_snoc {A : Type} (x : A) (xs : list A) :
  NoDup xs -> ~ In x xs -> NoDup (xs ++ [x]).
Proof.
  intros Hnd Hx. apply (Permutation_NoDup (Permutation_cons_append xs x)).
  constructor; assumption.
Qed.

Lemma set_position_ok (s t : string) (q a : Q) (rows : list Holding) :
  0 < q -> portfolio_ok rows -> portfolio_ok (set_position s t q a rows).
Proof.
  intros Hq [[Hnd Hty] Hpos]. repeat split.
  - rewrite set_position_keys. exact Hnd.
  - unfold set_position. rewrite Forall_map. revert Hty. apply Forall_impl.
    intros r Hr. destruct (database.same_holding s t r); exact Hr.
  - unfold set_position. rewrite Forall_map.
    revert Hpos. apply Forall_impl.
    intros r Hr. destruct (database.same_holding s t r); [exact Hq|exact Hr].
Qed.

(** What an accepted trade leaves meets the invariants again. *)
Lemma trade_effect_ok (balance : Q) (rows : list Holding) (trade : server.TradeRequest)
  (balance' : Q) (rows' : list Holding) (a : Action) :
  portfolio_ok rows ->
  trade_effect balance rows trade = Some (balance', rows', a) ->
  portfolio_ok rows' /\
  (0 <= server.tr_price trade -> 0 <= balance -> 0 <= balance').
Proof.
  intros Hok Heff. unfold trade_effect in Heff.
  destruct (server.tr_quantity trade <=? 0) eqn:Eq; [discriminate|].
  apply Qleb_gt in Eq.
  destruct (database.action_of_string (server.tr_action trade)) as [[|]|];
    [| |discriminate].
  - destruct (find _ rows) as [e|] eqn:Hfind.
    + destruct (_ || _) eqn:Hc; [discriminate|].
      apply orb_false_elim in Hc. destruct Hc as [Hc _].
      apply orb_false_elim in Hc. destruct Hc as [Hbal _].
      apply Qltb_ge in Hbal.
      injection Heff as <- <- _. split; [|intros _ _; lra].
      apply set_position_ok; [|exact Hok].
      apply find_some in Hfind. destruct Hfind as [Hin _].
      destruct Hok as [_ Hpos]. rewrite Forall_forall in Hpos.
      specialize (Hpos e Hin). lra.
    + destruct (_ || _) eqn:Hc; [discriminate|].
      apply orb_false_elim in Hc. destruct Hc as [Hbal Hty].
      apply Qltb_ge in Hbal. apply negb_false_iff in Hty.
      injection Heff as <- <- _. split; [|intros _ _; lra].
      destruct Hok as [[Hnd Htypes] Hpos]. repeat split.
      * rewrite map_app. cbn [map]. apply NoDup_snoc; [exact Hnd|].
        intros Hin. apply in_map_iff in Hin. destruct Hin as [r [Hr Hin]].
        assert (Hs : database.same_holding (server.tr_symbol trade)
                       (server.tr_type trade) r = true)
          by (apply same_holding_key; exact Hr).
        pose proof (find_none _ _ Hfind r Hin) as Hn. congruence.
      * apply Forall_app. split; [exact Htypes|]. constructor; [exact Hty|constructor].
      * apply Forall_app. split; [exact Hpos|]. constructor; [exact Eq|constructor].
  - destruct (find _ rows) as [e|] eqn:Hfind; [|discriminate].
    destruct (_ <? _) eqn:Hlt; [discriminate|]. apply Qltb_ge in Hlt.
    injection Heff as <- <- _.
    split.
    + destruct (Qeq_bool (h_quantity e) (server.tr_quantity trade)) eqn:Heq.
      * destruct Hok as [[Hnd Htypes] Hpos]. repeat split.
        -- apply NoDup_map_filter. exact Hnd.
        -- apply Forall_forall. intros r Hr. apply filter_In in Hr.
           rewrite Forall_forall in Htypes. apply Htypes. exact (proj1 Hr).
        -- apply Forall_forall. intros r Hr. apply filter_In in Hr.
           rewrite Forall_forall in Hpos. apply Hpos. exact (proj1 Hr).
      * apply set_position_ok; [|exact Hok].
        assert (Hne : ~ h_quantity e == server.tr_quantity trade).
        { intros H0. apply Qeq_bool_iff in H0. congruence. }
        apply Qle_lt_or_eq in Hlt. destruct Hlt as [Hlt|Heq']; [lra|].
        exfalso. apply Hne. symmetry. exact Heq'.
    + intros Hp Hb.
      assert (0 <= server.tr_quantity trade * server.tr_price trade)
        by (apply Qmult_le_0_compat; lra).
      lra.
Qed.

Section TradeInvariants.

Variable isoformat : datetime -> string.
Variable now : datetime.
Variable tx_id : string.
Variable trade : server.TradeRequest.
Variable db : Database.

Lemma trade_holdings_balance :
  portfolio_ok (db_holdings db) ->
  portfolio_ok (db_holdings (snd (server.db_execute_trade isoformat now tx_id trade db))) /\
  (0 <= server.tr_price trade -> 0 <= balance_of db ->
   0 <= balance_of (snd (server.db_execute_trade isoformat now tx_id trade db))).
Proof.
  intros Hok.
  pose proof (trade_run isoformat now tx_id trade db (proj2 (proj1 Hok))) as Hrun.
  destruct (trade_effect _ _ trade) as [[[b' rows'] a]|] eqn:Heff.
  - destruct (trade_effect_ok _ _ _ _ _ _ Hok Heff) as [Hok' Hbal].
    assert (Hb : 0 <= server.tr_price trade -> 0 <= balance_of db ->
                 0 <= balance_of (settled (b', rows', a) db)).
    { intros Hp Hb0. specialize (Hbal Hp Hb0).
      unfold balance_of, settled. cbn [db_balance with_balance].
      destruct (db_balance db); [exact Hbal|unfold database.DEFAULT_BALANCE; lra]. }
    destruct (existsb _ (db_transactions db)); rewrite Hrun; cbn [snd];
      (split; [exact Hok'|exact Hb]).
  - destruct Hrun as [Hsame _]. rewrite Hsame. split; [exact Hok|auto].
Qed.

(** X4. Whatever the answer of the endpoint, the holdings keep their keys
    unique, their types valid and their quantities positive; and the
    balance stays non-negative when the price of the trade is not negative
    (a sell at a negative price is not turned down). *)
Theorem trade_keeps_portfolio_invariants :
  portfolio_ok (db_holdings db) ->
  0 <= balance_of db ->
  let db' := snd (server.db_execute_trade isoformat now tx_id trade db) in
  portfolio_ok (db_holdings db') /\
  (0 <= server.tr_price trade -> 0 <= balance_of db').
Proof.
  intros Hok Hb db'. subst db'.
  destruct (trade_holdings_balance Hok) as [H1 H2]. split; [exact H1|].
  intros Hp. exact (H2 Hp Hb).
Qed.

End TradeInvariants.

Lemma trade_invariants_witness :
  portfolio_ok
    (db_holdings
       (snd (sample_execute_trade "t2" (sample_trade "AAPL" "sell" 1 150)
               sample_portfolio_db))) /\
  0 <= balance_of
         (snd (sample_execute_trade "t2" (sample_trade "AAPL" "sell" 1 150)
                 sample_portfolio_db)).
Proof.
  assert (Hok : portfolio_ok (db_holdings sample_portfolio_db)).
  { split; [split|]; repeat constructor. cbn. intuition. }
  destruct (trade_keeps_portfolio_invariants sample_isoformat sample_now "t2"
              (sample_trade "AAPL" "sell" 1 150) sample_portfolio_db Hok
              ltac:(vm_compute; discriminate))
    as [H1 H2].
  split; [exact H1|]. apply H2. vm_compute. discriminate.
Defined.


Lemma filter_all {A : Type} (p : A -> bool) (xs : list A) :
  (forall x, In x xs -> p x = true) -> filter p xs = xs.
Proof.
  induction xs as [|x xs IH]; intros H; [reflexivity|].
  cbn [filter]. rewrite (H x (or_introl eq_refl)). f_equal.
  apply IH. intros y Hy. apply H. right. exact Hy.
Qed.



Section RoundTrip.

Variable isoformat : datetime -> string.
Variables now1 now2 : datetime.
Variables id1 id2 : string.
Variables symbol name type : string.
Variables q p : Q.
Variable db : Database.

Let buy_request := server.mkTradeRequest symbol name type "buy" q p.
Let sell_request := server.mkTradeRequest symbol name type "sell" q p.
Let db1 := snd (server.db_execute_trade isoformat now1 id1 buy_request db).
Let db2 := snd (server.db_execute_trade isoformat now2 id2 sell_request db1).

Hypothesis Htypes :
  Forall (fun h => database.asset_type_ok (h_type h) = true) (db_holdings db).
Hypothesis Hq : 0 < q.
Hypothesis Hid1 : ~ In id1 (map t_id (db_transactions db)).
Hypothesis Hid2 : ~ In id2 (map t_id (db_transactions db)).
Hypothesis Hids : id1 <> id2.
Hypothesis Htype : database.asset_type_ok type = true.




End RoundTrip.












Section Ledger.

Variable isoformat : datetime -> string.






End Ledger.



(** ** The mentor checks *)

(** *** The position detectors *)

Lemma over_concentration_loop_spec (total_value : Q) (holdings : list Holding) :
  ~ total_value == 0 ->
  mentor_engine.over_concentration_loop total_value holdings
  = Ret (map (fun h => mkPositionAlert "over_concentration" "warning" (h_symbol h)
                         (share_pct total_value h))
           (filter (fun h => 30 <? share_pct total_value h) holdings)).
Proof.
  intros Hne. induction holdings as [|h rest IH]; [reflexivity|].
  cbn [mentor_engine.over_concentration_loop]. rewrite (pydiv_ret _ _ Hne).
  cbn [pybind]. rewrite IH. cbn [pybind filter]. fold (share_pct total_value h).
  destruct (30 <? share_pct total_value h); reflexivity.
Qed.

Lemma high_risk_position_loop_spec (total_value : Q) (holdings : list Holding) :
  ~ total_value == 0 ->
  mentor_engine.high_risk_position_loop total_value holdings
  = Ret (map (fun h => mkPositionAlert "high_risk_position" "warning" (h_symbol h)
                         (share_pct total_value h))
           (filter (fun h => 25 <? share_pct total_value h) holdings)).
Proof.
  intros Hne. induction holdings as [|h rest IH]; [reflexivity|].
  cbn [mentor_engine.high_risk_position_loop]. rewrite (pydiv_ret _ _ Hne).
  cbn [pybind]. rewrite IH. cbn [pybind filter]. fold (share_pct total_value h).
  destruct (25 <? share_pct total_value h); reflexivity.
Qed.

Lemma detect_over_concentration_spec (holdings : list Holding) (balance : Q) :
  mentor_engine.detect_over_concentration holdings balance
  = Ret (if mentor_engine.portfolio_value holdings balance <=? 0 then []
         else map (fun h => mkPositionAlert "over_concentration" "warning" (h_symbol h)
                              (share_pct (mentor_engine.portfolio_value holdings balance) h))
                (filter (fun h => 30 <? share_pct
                                          (mentor_engine.portfolio_value holdings balance) h)
                   holdings)).
Proof.
  unfold mentor_engine.detect_over_concentration.
  destruct (_ <=? 0) eqn:E; [reflexivity|].
  apply over_concentration_loop_spec. apply Qleb_gt in E. intros H0. rewrite H0 in E.
  exact (Qlt_irrefl _ E).
Qed.

Lemma detect_high_risk_position_spec (holdings : list Holding) (balance : Q) :
  mentor_engine.detect_high_risk_position holdings balance
  = Ret (if mentor_engine.portfolio_value holdings balance <=? 0 then []
         else map (fun h => mkPositionAlert "high_risk_position" "warning" (h_symbol h)
                              (share_pct (mentor_engine.portfolio_value holdings balance) h))
                (filter (fun h => 25 <? share_pct
                                          (mentor_engine.portfolio_value holdings balance) h)
                   holdings)).
Proof.
  unfold mentor_engine.detect_high_risk_position.
  destruct (_ <=? 0) eqn:E; [reflexivity|].
  apply high_risk_position_loop_spec. apply Qleb_gt in E. intros H0. rewrite H0 in E.
  exact (Qlt_irrefl _ E).
Qed.

(** X9. The two position detectors never raise, and every holding the
    over_concentration detector reports (a share above 30 percent) is
    reported by the high_risk_position detector too, with the same share. *)
Theorem over_concentration_implies_high_risk (holdings : list Holding) (balance : Q) :
  exists concentration high_risk,
    mentor_engine.detect_over_concentration holdings balance = Ret concentration /\
    mentor_engine.detect_high_risk_position holdings balance = Ret high_risk /\
    forall a, In a concentration ->
              pa_pattern_type a = "over_concentration"%string /\
              30 < pa_pct a /\
              In (mkPositionAlert "high_risk_position" "warning" (pa_symbol a) (pa_pct a))
                 high_risk.
Proof.
  rewrite detect_over_concentration_spec, detect_high_risk_position_spec.
  eexists. eexists. split; [reflexivity|]. split; [reflexivity|].
  intros a Ha. destruct (_ <=? 0); [contradiction|].
  apply in_map_iff in Ha. destruct Ha as [h [<- Hh]].
  apply filter_In in Hh. destruct Hh as [Hin Hp].
  cbn [pa_pattern_type pa_pct pa_symbol]. apply Qltb_lt in Hp.
  split; [reflexivity|]. split; [exact Hp|].
  apply in_map_iff. exists h. split; [reflexivity|].
  apply filter_In. split; [exact Hin|]. apply Qltb_lt.
  apply Qlt_trans with (y := 30); [reflexivity|exact Hp].
Qed.

Lemma portfolio_value_sum (holdings : list Holding) (balance : Q) :
  mentor_engine.portfolio_value holdings balance
  == balance + Qsum (map (fun h => h_quantity h * holding_price h) holdings).
Proof.
  unfold mentor_engine.portfolio_value. revert balance.
  induction holdings as [|h rest IH]; intros balance; cbn [fold_left map].
  - change (Qsum (@nil Q)) with 0. lra.
  - rewrite IH, Qsum_cons. lra.
Qed.

(** What the holdings above a share are worth: more than that share of the
    total each, and no more than all the holdings together. *)
Lemma large_positions_bound (limit total_value : Q) (holdings : list Holding) :
  0 < total_value ->
  Forall (fun h => 0 <= h_quantity h * holding_price h) holdings ->
  let n := List.length (filter (fun h => limit <? share_pct total_value h) holdings) in
  Qnat n * (limit / 100 * total_value)
  <= Qsum (map (fun h => h_quantity h * holding_price h) holdings) /\
  ((0 < n)%nat ->
   Qnat n * (limit / 100 * total_value)
   < Qsum (map (fun h => h_quantity h * holding_price h) holdings)).
Proof.
  intros Ht Hpos. induction Hpos as [|h rest Hh _ IH].
  - cbn [filter List.length map]. change (Qsum (@nil Q)) with 0.
    change (Qnat 0) with 0. split; [lra|intros H; inversion H].
  - cbn [filter map]. cbv zeta in IH |- *. rewrite Qsum_cons.
    destruct IH as [IH1 IH2].
    destruct (limit <? share_pct total_value h) eqn:E.
    + apply Qltb_lt in E. unfold share_pct in E.
      assert (Hv : limit / 100 * total_value < h_quantity h * holding_price h).
      { assert (Hx : h_quantity h * holding_price h
                     == h_quantity h * holding_price h / total_value * 100
                        * (total_value / 100)) by (field; lra).
        rewrite Hx.
        assert (Hy : limit / 100 * total_value == limit * (total_value / 100))
          by (field; lra).
        rewrite Hy. apply Qmult_lt_compat_r; [|exact E].
        apply Qlt_shift_div_l; lra. }
      cbn [List.length]. unfold Qnat in *. rewrite Nat2Z.inj_succ, <- Z.add_1_r.
      rewrite inject_Z_plus. change (inject_Z 1) with 1.
      split; [|intros _]; lra.
    + split; [lra|]. intros Hn. specialize (IH2 Hn). lra.
Qed.

(** X10. With a non-negative balance and non-negative position values,
    each of the two position detectors yields at most three alerts: four
    holdings cannot each exceed a quarter of the total. *)
Theorem at_most_three_position_alerts (holdings : list Holding) (balance : Q) :
  0 <= balance ->
  Forall (fun h => 0 <= h_quantity h * holding_price h) holdings ->
  exists concentration high_risk,
    mentor_engine.detect_over_concentration holdings balance = Ret concentration /\
    mentor_engine.detect_high_risk_position holdings balance = Ret high_risk /\
    (List.length concentration <= 3)%nat /\
    (List.length high_risk <= 3)%nat.
Proof.
  intros Hb Hpos.
  rewrite detect_over_concentration_spec, detect_high_risk_position_spec.
  eexists. eexists. split; [reflexivity|]. split; [reflexivity|].
  destruct (_ <=? 0) eqn:E; [cbn; lia|].
  apply Qleb_gt in E. rewrite !length_map.
  set (total := mentor_engine.portfolio_value holdings balance) in *.
  assert (Hsum : Qsum (map (fun h => h_quantity h * holding_price h) holdings) <= total).
  { subst total. rewrite portfolio_value_sum. lra. }
  clearbody total.
  assert (Hcount : forall limit n,
             25 <= limit ->
             ((0 < n)%nat -> Qnat n * (limit / 100 * total) < total) -> (n <= 3)%nat).
  { intros limit n Hl Hn.
    destruct (Nat.le_gt_cases n 3) as [Hle|Hgt]; [exact Hle|exfalso].
    specialize (Hn ltac:(lia)).
    assert (H4 : 4 <= Qnat n).
    { unfold Qnat. change 4 with (inject_Z 4). rewrite <- Zle_Qle. lia. }
    assert (H0 : 0 <= limit / 100) by (apply Qle_shift_div_l; [reflexivity|lra]).
    assert (H5 : 4 * (limit / 100 * total) <= Qnat n * (limit / 100 * total)).
    { apply Qmult_le_compat_r; [exact H4|].
      apply Qmult_le_0_compat; [exact H0|apply Qlt_le_weak; exact E]. }
    assert (H6 : 25 / 100 * total <= limit / 100 * total).
    { apply Qmult_le_compat_r; [|apply Qlt_le_weak; exact E].
      apply Qle_shift_div_l; [reflexivity|].
      assert (Hx : 25 / 100 * 100 == 25) by reflexivity. rewrite Hx. exact Hl. }
    assert (H7 : 4 * (25 / 100 * total) == total) by field.
    assert (H8 : 4 * (25 / 100 * total) <= 4 * (limit / 100 * total)).
    { apply Qmult_le_l; [reflexivity|exact H6]. }
    rewrite H7 in H8.
    apply (Qlt_irrefl total).
    eapply Qle_lt_trans; [exact H8|]. eapply Qle_lt_trans; [exact H5|exact Hn]. }
  split.
  - apply (Hcount 30); [lra|]. intros Hn.
    eapply Qlt_le_trans;
      [apply (proj2 (large_positions_bound 30 total holdings E Hpos)); exact Hn
      |exact Hsum].
  - apply (Hcount 25); [lra|]. intros Hn.
    eapply Qlt_le_trans;
      [apply (proj2 (large_positions_bound 25 total holdings E Hpos)); exact Hn
      |exact Hsum].
Qed.

Lemma three_position_alerts_witness :
  exists concentration high_risk,
    mentor_engine.detect_over_concentration sample_three_positions 0 = Ret concentration /\
    mentor_engine.detect_high_risk_position sample_three_positions 0 = Ret high_risk /\
    (List.length concentration <= 3)%nat /\
    (List.length high_risk <= 3)%nat.
Proof.
  apply (at_most_three_position_alerts sample_three_positions 0).
  - discriminate.
  - repeat constructor; discriminate.
Defined.

(** *** All checks *)


Section AllChecks.

Variable fromisoformat : string -> option datetime.
Variable get_cached_sentiment : string -> option Sentiment.
Variable now : datetime.









End AllChecks.

(** *** Escalation *)

Lemma get_count_count_pattern (pt pt' : string) (d : list (string * nat)) :
  mentor_engine.get_count pt (mentor_engine.count_pattern pt' d)
  = if String.eqb pt' pt then S (mentor_engine.get_count pt d)
    else mentor_engine.get_count pt d.
Proof.
  induction d as [|[k n] rest IH].
  - cbn. destruct (String.eqb pt' pt); reflexivity.
  - cbn [mentor_engine.count_pattern mentor_engine.get_count].
    destruct (String.eqb_spec k pt') as [->|Hk].
    + cbn [mentor_engine.get_count]. destruct (String.eqb pt' pt); reflexivity.
    + cbn [mentor_engine.get_count]. destruct (String.eqb_spec k pt) as [->|Hk2].
      * apply String.eqb_neq in Hk. rewrite String.eqb_sym, Hk. reflexivity.
      * exact IH.
Qed.

Lemma get_count_fold (pt : string) (history : list MentorTrigger)
  (d : list (string * nat)) :
  mentor_engine.get_count pt
    (fold_left (fun counts t => mentor_engine.count_pattern (m_pattern_type t) counts)
       history d)
  = (mentor_engine.get_count pt d + prior_occurrences history pt)%nat.
Proof.
  revert d. induction history as [|t rest IH]; intros d.
  - cbn. lia.
  - cbn [fold_left]. rewrite IH, get_count_count_pattern.
    unfold prior_occurrences, count. cbn [filter].
    destruct (String.eqb (m_pattern_type t) pt); cbn [List.length]; lia.
Qed.

Lemma get_count_history (pt : string) (history : list MentorTrigger) :
  mentor_engine.get_count pt (pattern_counts_of history) = prior_occurrences history pt.
Proof.
  unfold pattern_counts_of. rewrite get_count_fold. reflexivity.
Qed.

Lemma count_pattern_keys (pt : string) (d : list (string * nat)) (k : string) :
  In k (map fst (mentor_engine.count_pattern pt d)) <-> k = pt \/ In k (map fst d).
Proof.
  induction d as [|[k' n] rest IH].
  - cbn. intuition.
  - cbn [mentor_engine.count_pattern]. destruct (String.eqb_spec k' pt) as [->|Hk].
    + cbn. intuition.
    + cbn [map fst In]. rewrite IH. intuition.
Qed.

Lemma count_pattern_ok (pt : string) (d : list (string * nat)) :
  counts_ok d -> counts_ok (mentor_engine.count_pattern pt d).
Proof.
  intros [Hnd Hpos]. induction d as [|[k n] rest IH].
  - split; cbn; repeat constructor. intros [].
  - cbn [map fst] in Hnd. inversion Hnd as [|x xs Hx Hrest]; subst.
    inversion Hpos as [|y ys Hy Hys]; subst.
    cbn [mentor_engine.count_pattern]. destruct (String.eqb_spec k pt) as [->|Hk].
    + split; [exact Hnd|]. constructor; [cbn; lia|exact Hys].
    + destruct (IH Hrest Hys) as [IH1 IH2]. split.
      * cbn [map fst]. constructor; [|exact IH1].
        rewrite count_pattern_keys. intros [->|Hin]; [congruence|contradiction].
      * constructor; [exact Hy|exact IH2].
Qed.

Lemma pattern_counts_ok (history : list MentorTrigger) :
  counts_ok (pattern_counts_of history).
Proof.
  unfold pattern_counts_of.
  assert (H : forall d, counts_ok d ->
                        counts_ok (fold_left
                                     (fun counts t =>
                                        mentor_engine.count_pattern (m_pattern_type t) counts)
                                     history d)).
  { induction history as [|t rest IH]; intros d Hd; [exact Hd|].
    cbn [fold_left]. apply IH. apply count_pattern_ok. exact Hd. }
  apply H. split; constructor.
Qed.

Lemma counts_entry (d : list (string * nat)) (k : string) (n : nat) :
  counts_ok d ->
  (In (k, n) d <-> mentor_engine.get_count k d = n /\ (0 < n)%nat).
Proof.
  intros [Hnd Hpos]. induction d as [|[k' n'] rest IH].
  - cbn. split; [intros []|intros [<- H]; lia].
  - cbn [map fst] in Hnd. inversion Hnd as [|x xs Hx Hrest]; subst.
    inversion Hpos as [|y ys Hy Hys]; subst. cbn [snd] in Hy.
    specialize (IH Hrest Hys).
    cbn [mentor_engine.get_count In]. destruct (String.eqb_spec k' k) as [->|Hk].
    + split.
      * intros [H|H]; [injection H as ->; split; [reflexivity|exact Hy]|].
        exfalso. apply Hx. apply (in_map fst) in H. exact H.
      * intros [-> _]. left. reflexivity.
    + rewrite <- IH. split; [intros [H|H]; [congruence|exact H]|intros H; right; exact H].
Qed.

(** X12. [enrich_alerts_with_history] returns the alerts in their order,
    each with the number of triggers of its pattern type in the history as
    prior count and the escalation level of that count; the improvement
    notes are, once each, the pattern types that occur three times or more
    in the history and in no current alert. *)
Theorem enrichment_counts_the_history (alerts : list MentorAlert)
  (trigger_history : list MentorTrigger) :
  let enriched := fst (mentor_engine.enrich_alerts_with_history alerts trigger_history) in
  let notes := snd (mentor_engine.enrich_alerts_with_history alerts trigger_history) in
  let prior := prior_occurrences trigger_history in
  map ea_alert enriched = alerts /\
  (forall ea, In ea enriched ->
     ea_prior_count ea = prior (alert_pattern_type (ea_alert ea)) /\
     ea_escalation_level ea
     = (if (ea_prior_count ea =? 0)%nat then "first"
        else if (ea_prior_count ea <=? 3)%nat then "recurring"
             else "persistent")%string) /\
  NoDup (map in_pattern_type notes) /\
  (forall pt n,
     In (mkImprovementNote pt n) notes <->
     n = prior pt /\ (3 <= n)%nat /\ ~ In pt (map alert_pattern_type alerts)).
Proof.
  cbv zeta. unfold mentor_engine.enrich_alerts_with_history. cbn [fst snd].
  fold (pattern_counts_of trigger_history).
  pose proof (pattern_counts_ok trigger_history) as Hok.
  repeat apply conj.
  - rewrite map_map. rewrite <- (map_id alerts) at 2. apply map_ext.
    intros a. destruct (_ =? 0)%nat; [reflexivity|]. destruct (_ <=? 3)%nat; reflexivity.
  - intros ea Hea. apply in_map_iff in Hea. destruct Hea as [a [<- _]].
    rewrite get_count_history.
    destruct (_ =? 0)%nat eqn:E0; cbn [ea_prior_count ea_alert ea_escalation_level].
    + rewrite E0. split; reflexivity.
    + destruct (_ <=? 3)%nat eqn:E3; cbn [ea_prior_count ea_alert ea_escalation_level];
        rewrite E0, E3; split; reflexivity.
  - destruct Hok as [Hnd _]. revert Hnd.
    generalize (pattern_counts_of trigger_history) as d.
    induction d as [|[k n] rest IH]; intros Hnd; [constructor|].
    cbn [map fst] in Hnd. inversion Hnd as [|x xs Hx Hrest]; subst.
    cbn [flat_map]. rewrite map_app.
    destruct (_ && _); cbn [map app in_pattern_type]; [|exact (IH Hrest)].
    constructor; [|exact (IH Hrest)].
    intros Hin. apply Hx. apply in_map_iff in Hin. destruct Hin as [note [Hk Hin]].
    apply in_flat_map in Hin. destruct Hin as [[k' n'] [Hin' Hnote]].
    destruct (_ && _); [|contradiction]. destruct Hnote as [<-|[]].
    cbn [in_pattern_type] in Hk. subst k'. apply (in_map fst) in Hin'. exact Hin'.
  - intros pt n. rewrite in_flat_map. split.
    + intros [[k m] [Hin Hnote]].
      destruct (3 <=? m)%nat eqn:E3; cbn [andb] in Hnote; [|contradiction].
      destruct (existsb _ _) eqn:Ex; cbn [negb] in Hnote; [contradiction|].
      destruct Hnote as [H|[]]. injection H as -> ->.
      apply (counts_entry _ _ _ Hok) in Hin. destruct Hin as [Hget _].
      rewrite get_count_history in Hget. apply Nat.leb_le in E3.
      split; [symmetry; exact Hget|]. split; [exact E3|].
      intros Hin. assert (Ht : existsb (String.eqb pt) (map alert_pattern_type alerts) = true).
      { apply existsb_exists. exists pt. split; [exact Hin|apply String.eqb_refl]. }
      congruence.
    + intros [-> [H3 Hnot]]. exists (pt, prior_occurrences trigger_history pt). split.
      * apply (counts_entry _ _ _ Hok). rewrite get_count_history. split; [reflexivity|lia].
      * apply Nat.leb_le in H3. rewrite H3. cbn [andb].
        destruct (existsb _ _) eqn:Ex; cbn [negb]; [|left; reflexivity].
        exfalso. apply Hnot. apply existsb_exists in Ex. destruct Ex as [x [Hx Heq]].
        apply String.eqb_eq in Heq. subst x. exact Hx.
Qed.

(** ** Grades, badges and the profile *)

Lemma Qsum_le (xs ys : list Q) :
  Forall2 Qle xs ys -> Qsum xs <= Qsum ys.
Proof.
  induction 1 as [|x y xs ys Hxy _ IH]; [apply Qle_refl|].
  rewrite !Qsum_cons. lra.
Qed.

Lemma average_score_le (s1 s2 : scoring_engine.Scores) :
  (forall d, scoring_engine.scores_get d s1 <= scoring_engine.scores_get d s2) ->
  scoring_engine.average_score s1 <= scoring_engine.average_score s2.
Proof.
  intros H. unfold scoring_engine.average_score.
  apply Qmult_le_compat_r; [|discriminate].
  apply Qsum_le. unfold scoring_engine.score_dims. cbn [map].
  repeat constructor; apply H.
Qed.

(** X13. [compute_overall_grade] is monotone: when no score of a report
    is lower than in another, its grade is not lower either. *)
Theorem overall_grade_is_monotone (s1 s2 : scoring_engine.Scores) :
  (forall d, scoring_engine.scores_get d s1 <= scoring_engine.scores_get d s2) ->
  (grade_rank (scoring_engine.compute_overall_grade s1)
   <= grade_rank (scoring_engine.compute_overall_grade s2))%nat.
Proof.
  intros H. apply average_score_le in H.
  unfold scoring_engine.compute_overall_grade.
  generalize dependent (scoring_engine.average_score s2).
  generalize (scoring_engine.average_score s1).
  intros a1 a2 H.
  repeat match goal with
         | |- context [?c <=? a1] =>
             let E := fresh "E" in
             destruct (c <=? a1) eqn:E;
             [apply Qle_bool_iff in E|apply Qleb_gt in E]
         end;
  repeat match goal with
         | |- context [?c <=? a2] =>
             let E := fresh "E" in
             destruct (c <=? a2) eqn:E;
             [apply Qle_bool_iff in E|apply Qleb_gt in E]
         end;
  try (cbn; lia); exfalso; lra.
Qed.

Lemma overall_grade_witness :
  (grade_rank (scoring_engine.compute_overall_grade
                 (scoring_engine.mkScores 50 50 50 50 50))
   <= grade_rank (scoring_engine.compute_overall_grade
                    (scoring_engine.mkScores 90 60 90 90 90)))%nat.
Proof.
  apply (overall_grade_is_monotone (scoring_engine.mkScores 50 50 50 50 50)
           (scoring_engine.mkScores 90 60 90 90 90)).
  intros d. destruct d; discriminate.
Defined.

Lemma deduction_bounds (pattern : string) :
  5 <= scoring_engine.deduction pattern /\ scoring_engine.deduction pattern <= 15.
Proof.
  unfold scoring_engine.deduction.
  repeat match goal with |- context [String.eqb ?a ?b] => destruct (String.eqb a b) end;
    split; discriminate.
Qed.

Lemma psychology_fold_bounds (triggers : list MentorTrigger) (start : Q) :
  let score := fold_left (fun score trigger =>
                            score - scoring_engine.deduction (m_pattern_type trigger))
                 triggers start in
  start - 15 * Qnat (List.length triggers) <= score /\
  score <= start - 5 * Qnat (List.length triggers).
Proof.
  revert start. induction triggers as [|t rest IH]; intros start; cbn [fold_left List.length].
  - change (Qnat 0) with 0. cbv zeta. lra.
  - specialize (IH (start - scoring_engine.deduction (m_pattern_type t))).
    cbv zeta in IH |- *.
    destruct (deduction_bounds (m_pattern_type t)) as [H5 H15].
    assert (Hn : Qnat (S (List.length rest)) == Qnat (List.length rest) + 1).
    { unfold Qnat. rewrite Nat2Z.inj_succ, <- Z.add_1_r, inject_Z_plus. reflexivity. }
    rewrite Hn. lra.
Qed.

(** X14. [compute_psychology_score] returns, and every trigger costs
    between 5 and 15 points: the score of n triggers lies between
    max(0, 100 - 15 n) and max(0, 100 - 5 n), so it is 0 from twenty
    triggers on, whatever their pattern types. *)
Theorem psychology_score_bounds (mentor_triggers : list MentorTrigger) :
  exists score,
    scoring_engine.compute_psychology_score mentor_triggers = Ret score /\
    Qmax 0 (100 - 15 * Qnat (List.length mentor_triggers)) <= score /\
    score <= Qmax 0 (100 - 5 * Qnat (List.length mentor_triggers)) /\
    ((20 <= List.length mentor_triggers)%nat -> score == 0).
Proof.
  unfold scoring_engine.compute_psychology_score. eexists. split; [reflexivity|].
  destruct (psychology_fold_bounds mentor_triggers 100) as [Hlo Hhi].
  cbv zeta in Hlo, Hhi. unfold clamp.
  set (score := fold_left _ mentor_triggers 100) in *. clearbody score.
  assert (Hn : 0 <= Qnat (List.length mentor_triggers)) by apply Qnat_nonneg.
  set (n := Qnat (List.length mentor_triggers)) in *.
  assert (H20 : (20 <= List.length mentor_triggers)%nat -> 20 <= n).
  { intros H. subst n. unfold Qnat. change 20 with (inject_Z 20).
    rewrite <- Zle_Qle. lia. }
  clearbody n.
  repeat apply conj.
  - apply Q.max_lub; [apply Q.le_max_l|].
    apply Q.max_le_iff. right. apply Q.min_glb; lra.
  - apply Q.max_lub; [apply Q.le_max_l|].
    apply Q.max_le_iff. right. eapply Qle_trans; [apply Q.le_min_r|exact Hhi].
  - intros H. specialize (H20 H). apply Qle_antisym.
    + apply Q.max_lub; [lra|]. eapply Qle_trans; [apply Q.le_min_r|lra].
    + apply Q.le_max_l.
Qed.

(** *** Badges *)

Lemma count_le_length {A : Type} (p : A -> bool) (xs : list A) :
  (count p xs <= List.length xs)%nat.
Proof.
  unfold count. induction xs as [|x xs IH]; [cbn; lia|].
  cbn [filter]. destruct (p x); cbn [List.length]; lia.
Qed.

Lemma count_impl {A : Type} (p q : A -> bool) (xs : list A) :
  (forall x, p x = true -> q x = true) -> (count p xs <= count q xs)%nat.
Proof.
  intros H. unfold count. induction xs as [|x xs IH]; [cbn; lia|].
  cbn [filter]. destruct (p x) eqn:E.
  - rewrite (H x E). cbn [List.length]. lia.
  - destruct (q x); cbn [List.length]; lia.
Qed.

(** X15. [evaluate_badges] returns one result per entry of
    [BADGE_DEFINITIONS], in that order; the qualifying days of a result
    never exceed the number of daily scores, [active] equals [earned], and
    no badge is earned from fewer than 21 daily scores. *)
Theorem badges_need_three_weeks (daily_scores : list DailyScore)
  (mentor_triggers : option (list MentorTrigger)) :
  map scoring_engine.br_badge_type
    (scoring_engine.evaluate_badges daily_scores mentor_triggers)
  = map fst scoring_engine.BADGE_DEFINITIONS /\
  forall r, In r (scoring_engine.evaluate_badges daily_scores mentor_triggers) ->
            (scoring_engine.br_qualifying_days r <= List.length daily_scores)%nat /\
            scoring_engine.br_active r = scoring_engine.br_earned r /\
            (scoring_engine.br_earned r = true ->
             (21 <= scoring_engine.br_qualifying_days r)%nat /\
             (21 <= List.length daily_scores)%nat).
Proof.
  split; [reflexivity|].
  intros r Hr. unfold scoring_engine.evaluate_badges in Hr.
  apply in_map_iff in Hr. destruct Hr as [[bt defn] [<- Hin]].
  assert (Hd : scoring_engine.bd_days defn = 21%nat).
  { cbn in Hin. repeat (destruct Hin as [H|Hin]; [injection H as _ <-; reflexivity|]).
    contradiction. }
  unfold scoring_engine.evaluate_badge.
  cbn [scoring_engine.br_qualifying_days scoring_engine.br_active
       scoring_engine.br_earned].
  rewrite Hd.
  set (n := count _ daily_scores).
  assert (Hn : (n <= List.length daily_scores)%nat) by apply count_le_length.
  split; [exact Hn|]. split; [reflexivity|].
  intros He.
  assert (H21 : (21 <=? n)%nat = true).
  { destruct (21 <=? n)%nat; [reflexivity|].
    rewrite andb_false_r in He. exact He. }
  apply Nat.leb_le in H21. lia.
Qed.

(** X16. Whenever [psychology_champion] is earned and no [sentiment_fomo]
    trigger is supplied, [market_aware] is earned too: its threshold (70) is
    below the champion's (75) on the same score. *)
Theorem psychology_champion_implies_market_aware (daily_scores : list DailyScore)
  (mentor_triggers : option (list MentorTrigger)) :
  earned_badge "psychology_champion"
    (scoring_engine.evaluate_badges daily_scores mentor_triggers) = true ->
  match mentor_triggers with
  | Some triggers => count scoring_engine.is_sentiment_fomo triggers = 0%nat
  | None => True
  end ->
  earned_badge "market_aware"
    (scoring_engine.evaluate_badges daily_scores mentor_triggers) = true.
Proof.
  unfold earned_badge, scoring_engine.evaluate_badges, scoring_engine.BADGE_DEFINITIONS.
  cbn [map existsb scoring_engine.evaluate_badge scoring_engine.br_badge_type
       scoring_engine.br_earned scoring_engine.bd_score scoring_engine.bd_threshold
       scoring_engine.bd_days scoring_engine.bd_requires_sentiment
       scoring_engine.score_of andb String.eqb Ascii.eqb Bool.eqb orb].
  rewrite !orb_false_r.
  intros Hc Hveto.
  assert (Hle : (count (fun ds => (75 <=? psychology_score ds)%Q) daily_scores
                 <= count (fun ds => (70 <=? psychology_score ds)%Q) daily_scores)%nat).
  { apply count_impl. intros ds H. apply Qle_bool_iff in H. apply Qle_bool_iff. lra. }
  apply Nat.leb_le in Hc.
  assert (H70 : (21 <=? count (fun ds => (70 <=? psychology_score ds)%Q)
                                daily_scores)%nat
                = true) by (apply Nat.leb_le; lia).
  rewrite H70. destruct mentor_triggers as [triggers|]; [|reflexivity].
  rewrite Hveto. reflexivity.
Qed.

Lemma champion_implies_market_aware_witness :
  earned_badge "market_aware"
    (scoring_engine.evaluate_badges sample_good_month (Some [])) = true.
Proof.
  apply (psychology_champion_implies_market_aware sample_good_month (Some [])).
  - vm_compute. reflexivity.
  - reflexivity.
Defined.

(** *** Rounding to one decimal *)

Lemma round_half_even_floor (x : Q) :
  (Qfloor x <= round_half_even x <= Qfloor x + 1)%Z.
Proof.
  unfold round_half_even.
  destruct (_ <? (1 # 2)); [lia|].
  destruct ((1 # 2) <? _); [lia|].
  destruct (Z.even (Qfloor x)); lia.
Qed.

Lemma round_half_even_lower (n : Z) (x : Q) :
  inject_Z n <= x -> (n <= round_half_even x)%Z.
Proof.
  intros H. pose proof (round_half_even_floor x) as [Hf _].
  apply Qfloor_resp_le in H. rewrite Qfloor_Z in H. lia.
Qed.

Lemma round_half_even_upper (n : Z) (x : Q) :
  x <= inject_Z n -> (round_half_even x <= n)%Z.
Proof.
  intros H. pose proof (Qfloor_le x) as Hfl.
  assert (Hfn : (Qfloor x <= n)%Z).
  { apply Qfloor_resp_le in H. rewrite Qfloor_Z in H. exact H. }
  destruct (Z.eq_dec (Qfloor x) n) as [Heq|Hne].
  - unfold round_half_even.
    assert (Hr : x - inject_Z (Qfloor x) < 1 # 2).
    { rewrite Heq. lra. }
    apply Qltb_lt in Hr. rewrite Hr. lia.
  - pose proof (round_half_even_floor x) as [_ Hu]. lia.
Qed.

Lemma round1_range (x : Q) : 0 <= x -> x <= 100 -> 0 <= round1 x /\ round1 x <= 100.
Proof.
  intros H0 H100. unfold round1.
  assert (Hlo : (0 <= round_half_even (x * 10))%Z).
  { apply round_half_even_lower. change (inject_Z 0) with 0. lra. }
  assert (Hhi : (round_half_even (x * 10) <= 1000)%Z).
  { apply round_half_even_upper. change (inject_Z 1000) with 1000. lra. }
  rewrite Zle_Qle in Hlo, Hhi.
  change (inject_Z 0) with 0 in Hlo. change (inject_Z 1000) with 1000 in Hhi.
  set (r := inject_Z (round_half_even (x * 10))) in *. clearbody r.
  split.
  - apply Qle_shift_div_l; [reflexivity|]. lra.
  - apply Qle_shift_div_r; [reflexivity|]. lra.
Qed.

(** *** The trader profile *)

Lemma insert_by_score_perm {A : Type} (key : A -> Q) (x : A) (xs : list A) :
  Permutation (scoring_engine.insert_by_score key x xs) (x :: xs).
Proof.
  induction xs as [|y ys IH]; [reflexivity|].
  cbn [scoring_engine.insert_by_score]. destruct (key y <=? key x); [reflexivity|].
  rewrite IH. apply perm_swap.
Qed.

Lemma sorted_by_score_perm {A : Type} (key : A -> Q) (xs : list A) :
  Permutation (scoring_engine.sorted_by_score key xs) xs.
Proof.
  induction xs as [|x xs IH]; [reflexivity|].
  cbn [scoring_engine.sorted_by_score fold_right].
  rewrite insert_by_score_perm. constructor. exact IH.
Qed.

Lemma insert_by_score_descending {A : Type} (key : A -> Q) (x : A) (xs : list A) :
  descending key xs -> descending key (scoring_engine.insert_by_score key x xs).
Proof.
  induction xs as [|y ys IH]; intros H.
  - cbn. split; [constructor|exact I].
  - cbn [scoring_engine.insert_by_score]. destruct H as [Hall Hl].
    destruct (key y <=? key x) eqn:E.
    + apply Qle_bool_iff in E. cbn [descending]. split; [|split; assumption].
      constructor; [exact E|].
      revert Hall. apply Forall_impl. intros z Hz. lra.
    + apply Qleb_gt in E. cbn [descending]. split; [|apply IH; exact Hl].
      apply (Permutation_Forall (Permutation_sym (insert_by_score_perm key x ys))).
      constructor; [lra|exact Hall].
Qed.

Lemma sorted_by_score_descending {A : Type} (key : A -> Q) (xs : list A) :
  descending key (scoring_engine.sorted_by_score key xs).
Proof.
  induction xs as [|x xs IH]; [exact I|].
  cbn [scoring_engine.sorted_by_score fold_right].
  apply insert_by_score_descending. exact IH.
Qed.

Lemma count_le_Q {A : Type} (p : A -> bool) (xs : list A) :
  Qnat (count p xs) <= Qnat (List.length xs).
Proof.
  unfold Qnat. rewrite <- Zle_Qle. apply inj_le. apply count_le_length.
Qed.

(** X17. [compute_trader_profile] returns; its win rate lies in [0,100]
    and is 0 without sells; with scores, the strengths are the labels of
    the two highest dimensions and the weaknesses those of the two lowest of
    the five dimensions sorted by score, so no dimension is both; without
    scores both lists are empty and the skill level is Beginner. *)
Theorem trader_profile_facts (scores : option scoring_engine.Scores)
  (badges : list scoring_engine.BadgeStatus) (transactions : list Transaction)
  (active_days challenges_completed : nat) :
  exists profile,
    scoring_engine.compute_trader_profile scores badges transactions active_days
      challenges_completed = Ret profile /\
    0 <= scoring_engine.tp_winRate profile /\
    scoring_engine.tp_winRate profile <= 100 /\
    (filter is_sell transactions = [] -> scoring_engine.tp_winRate profile == 0) /\
    match scores with
    | None =>
        scoring_engine.tp_strengths profile = [] /\
        scoring_engine.tp_weaknesses profile = [] /\
        scoring_engine.tp_skillLevel profile = "Beginner"%string
    | Some s =>
        exists d1 d2 d3 d4 d5,
          Permutation [d1; d2; d3; d4; d5] scoring_engine.score_dims /\
          descending (fun d => scoring_engine.scores_get d s) [d1; d2; d3; d4; d5] /\
          scoring_engine.tp_strengths profile
          = [scoring_engine.SCORE_LABELS d1; scoring_engine.SCORE_LABELS d2] /\
          scoring_engine.tp_weaknesses profile
          = [scoring_engine.SCORE_LABELS d4; scoring_engine.SCORE_LABELS d5]
    end.
Proof.
  unfold scoring_engine.compute_trader_profile.
  set (sells := filter is_sell transactions).
  set (wins := count _ sells).
  assert (Hrate : exists w,
             match sells with
             | [] => Ret 0
             | _ :: _ => q <- pydiv (Qnat wins) (Qnat (List.length sells)) ;; Ret (q * 100)
             end = Ret w /\ 0 <= w /\ w <= 100 /\ (sells = [] -> w = 0)).
  { pose proof (count_le_Q (fun s =>
                              (0 <? scoring_engine.first_buy_price (t_symbol s) transactions)
                              && (scoring_engine.first_buy_price (t_symbol s) transactions
                                  <? t_price s)) sells) as Hle.
    fold wins in Hle. pose proof (Qnat_nonneg wins) as Hw.
    destruct sells as [|s0 rest] eqn:Es.
    - exists 0. repeat split; try reflexivity; discriminate.
    - assert (Hpos : 0 < Qnat (List.length (s0 :: rest))) by apply Qnat_S_pos.
      rewrite pydiv_ret by (intro H0; rewrite H0 in Hpos; exact (Qlt_irrefl _ Hpos)).
      cbn [pybind]. eexists. split; [reflexivity|].
      set (n := Qnat (List.length (s0 :: rest))) in *. clearbody n.
      set (w := Qnat wins) in *. clearbody w.
      assert (H1 : 0 <= w / n) by (apply Qle_shift_div_l; lra).
      assert (H2 : w / n <= 1) by (apply Qle_shift_div_r; lra).
      repeat split; try lra. discriminate. }
  destruct Hrate as [w [Hw [Hw0 [Hw100 Hwnil]]]]. rewrite Hw. cbn [pybind].
  destruct (round1_range w Hw0 Hw100) as [Hr0 Hr100].
  assert (Hnil : sells = [] -> round1 w == 0).
  { intros H. rewrite (Hwnil H). reflexivity. }
  destruct scores as [s|].
  - pose proof (sorted_by_score_perm (fun d => scoring_engine.scores_get d s)
                  scoring_engine.score_dims) as Hperm.
    pose proof (sorted_by_score_descending (fun d => scoring_engine.scores_get d s)
                  scoring_engine.score_dims) as Hdesc.
    pose proof (Permutation_length Hperm) as Hlen.
    destruct (scoring_engine.sorted_by_score _ scoring_engine.score_dims)
      as [|d1 [|d2 [|d3 [|d4 [|d5 [|d6 rest]]]]]]; try discriminate.
    eexists. split; [reflexivity|].
    cbn [scoring_engine.tp_winRate scoring_engine.tp_strengths
         scoring_engine.tp_weaknesses].
    split; [exact Hr0|]. split; [exact Hr100|]. split; [exact Hnil|].
    exists d1, d2, d3, d4, d5. split; [exact Hperm|]. split; [exact Hdesc|].
    split; reflexivity.
  - eexists. split; [reflexivity|].
    cbn [scoring_engine.tp_winRate scoring_engine.tp_strengths
         scoring_engine.tp_weaknesses scoring_engine.tp_skillLevel].
    split; [exact Hr0|]. split; [exact Hr100|]. split; [exact Hnil|].
    repeat split; reflexivity.
Qed.

(** *** The behaviour summary *)

Lemma window_average_returns (window : list DailyScore) (d : scoring_engine.Dimension) :
  exists v, scoring_engine.window_average window d = Ret v.
Proof.
  unfold scoring_engine.window_average.
  destruct (filter _ _) as [|v vals]; [eexists; reflexivity|].
  rewrite pydiv_ret by apply Qnat_S_neq0. eexists. reflexivity.
Qed.

Lemma avg_for_window_returns (window : list DailyScore) :
  exists v, scoring_engine.avg_for_window window = Ret v.
Proof.
  unfold scoring_engine.avg_for_window.
  destruct (window_average_returns window scoring_engine.Risk) as [v1 ->].
  destruct (window_average_returns window scoring_engine.Discipline) as [v2 ->].
  destruct (window_average_returns window scoring_engine.Strategy) as [v3 ->].
  destruct (window_average_returns window scoring_engine.Psychology) as [v4 ->].
  destruct (window_average_returns window scoring_engine.Consistency) as [v5 ->].
  eexists. reflexivity.
Qed.

Lemma leading_good_app (run rest : list DailyScore) :
  forallb good_day run = true ->
  leading_good_days (run ++ rest) = (List.length run + leading_good_days rest)%nat.
Proof.
  induction run as [|s run IH]; intros H; [reflexivity|].
  cbn [forallb] in H. apply andb_prop in H. destruct H as [Hs Hrun].
  cbn [app leading_good_days List.length]. rewrite Hs, (IH Hrun). reflexivity.
Qed.

Lemma forallb_rev {A : Type} (p : A -> bool) (xs : list A) :
  forallb p (rev xs) = forallb p xs.
Proof.
  induction xs as [|x xs IH]; [reflexivity|].
  cbn [rev forallb]. rewrite forallb_app, IH. cbn [forallb].
  rewrite andb_true_r. apply andb_comm.
Qed.

(** The good days at the end of a list are a run of good days. *)
Lemma trailing_good_run (days : list DailyScore) :
  exists before run,
    days = before ++ run /\ forallb good_day run = true /\
    List.length run = leading_good_days (rev days).
Proof.
  assert (H : forall l, exists run rest,
               l = run ++ rest /\ forallb good_day run = true /\
               List.length run = leading_good_days l).
  { induction l as [|s l IH].
    - exists [], []. repeat split.
    - cbn [leading_good_days]. destruct (good_day s) eqn:E.
      + destruct IH as [run [rest [Hl [Hg Hn]]]].
        exists (s :: run), rest. cbn [app forallb List.length].
        rewrite E, Hg, Hn, <- Hl. repeat split.
      + exists [], (s :: l). repeat split. }
  destruct (H (rev days)) as [run [rest [Hl [Hg Hn]]]].
  exists (rev rest), (rev run). repeat split.
  - rewrite <- rev_app_distr, <- Hl, rev_involutive. reflexivity.
  - rewrite forallb_rev. exact Hg.
  - rewrite length_rev. exact Hn.
Qed.

Lemma good_suffix_le (before run : list DailyScore) :
  forallb good_day run = true ->
  (List.length run <= leading_good_days (rev (before ++ run)))%nat.
Proof.
  intros H. rewrite rev_app_distr, leading_good_app by (rewrite forallb_rev; exact H).
  rewrite length_rev. lia.
Qed.

Lemma app_snoc_cases {A : Type} (l l1 l2 : list A) (x : A) :
  l ++ [x] = l1 ++ l2 ->
  (l2 = [] /\ l1 = l ++ [x]) \/ (exists l2', l2 = l2' ++ [x] /\ l = l1 ++ l2').
Proof.
  intros H. induction l2 as [|y l2' _] using rev_ind.
  - left. rewrite app_nil_r in H. auto.
  - right. rewrite app_assoc in H. apply app_inj_tail in H. destruct H as [H ->].
    exists l2'. auto.
Qed.

(** The two counters of the streak loop after the days of a list. *)
Lemma streak_loop_spec (days : list DailyScore) :
  let (longest, current) := fold_left scoring_engine.streak_step days (0%nat, 0%nat) in
  current = leading_good_days (rev days) /\
  (forall before run after,
     days = before ++ run ++ after -> forallb good_day run = true ->
     (List.length run <= longest)%nat) /\
  (exists before run after,
     days = before ++ run ++ after /\ forallb good_day run = true /\
     List.length run = longest).
Proof.
  induction days as [|x days IH] using rev_ind.
  - cbn. split; [reflexivity|]. split.
    + intros before run after H _. destruct before; [|discriminate].
      destruct run; [cbn; lia|discriminate].
    + exists [], [], []. repeat split.
  - rewrite fold_left_app. cbn [fold_left].
    destruct (fold_left scoring_engine.streak_step days (0%nat, 0%nat))
      as [longest current].
    destruct IH as [Hcur [Hmax Hex]].
    unfold scoring_engine.streak_step. fold (good_day x).
    rewrite rev_app_distr. cbn [rev app leading_good_days].
    destruct (good_day x) eqn:Ex.
    + split; [rewrite Hcur; reflexivity|]. split.
      * intros before run after H Hg.
        rewrite app_assoc in H. apply app_snoc_cases in H.
        destruct H as [[-> H]|[after' [-> H]]].
        -- symmetry in H. apply app_snoc_cases in H.
           destruct H as [[-> _]|[run' [-> H]]]; [cbn; lia|].
           rewrite forallb_app in Hg. apply andb_prop in Hg. destruct Hg as [Hg _].
           pose proof (good_suffix_le before run' Hg) as Hle.
           rewrite <- H, <- Hcur in Hle. rewrite length_app. cbn [List.length]. lia.
        -- rewrite <- app_assoc in H. specialize (Hmax _ _ _ H Hg). lia.
      * destruct (Nat.le_gt_cases (S current) longest) as [Hle|Hgt].
        -- destruct Hex as [before [run [after [H [Hg Hn]]]]].
           exists before, run, (after ++ [x]). rewrite H, <- !app_assoc.
           repeat split; [exact Hg|lia].
        -- destruct (trailing_good_run days) as [before [run [H [Hg Hn]]]].
           exists before, (run ++ [x]), []. rewrite app_nil_r, app_assoc, <- H.
           split; [reflexivity|]. split.
           ++ rewrite forallb_app, Hg. cbn [forallb]. rewrite Ex. reflexivity.
           ++ rewrite length_app. cbn [List.length]. lia.
    + split; [reflexivity|]. split.
      * intros before run after H Hg.
        rewrite app_assoc in H. apply app_snoc_cases in H.
        destruct H as [[-> H]|[after' [-> H]]].
        -- symmetry in H. apply app_snoc_cases in H.
           destruct H as [[-> _]|[run' [-> H]]]; [cbn; lia|].
           rewrite forallb_app in Hg. apply andb_prop in Hg. destruct Hg as [_ Hg].
           cbn [forallb] in Hg. rewrite Ex in Hg. discriminate.
        -- rewrite <- app_assoc in H. exact (Hmax _ _ _ H Hg).
      * destruct Hex as [before [run [after [H [Hg Hn]]]]].
        exists before, run, (after ++ [x]). rewrite H, <- !app_assoc.
        repeat split; [exact Hg|exact Hn].
Qed.

Section BehaviorSummaryFacts.

Variable date_isoformat : Z -> string.
Variable now : datetime.

(** X18. [compute_behavior_summary] returns; the current streak is the
    number of good days (five-score average of 60 or more) at the end of
    the list, the longest streak is the length of a longest run of
    consecutive good days, and current <= longest <= total scored days. *)
Theorem behavior_summary_streaks (all_scores : list DailyScore)
  (trigger_counts : list (string * nat)) :
  exists summary,
    scoring_engine.compute_behavior_summary date_isoformat now all_scores trigger_counts
    = Ret summary /\
    scoring_engine.bs_totalScoredDays summary = List.length all_scores /\
    scoring_engine.bs_currentStreak summary = leading_good_days (rev all_scores) /\
    (forall before run after,
       all_scores = before ++ run ++ after -> forallb good_day run = true ->
       (List.length run <= scoring_engine.bs_longestStreak summary)%nat) /\
    (exists before run after,
       all_scores = before ++ run ++ after /\ forallb good_day run = true /\
       List.length run = scoring_engine.bs_longestStreak summary) /\
    (scoring_engine.bs_currentStreak summary
     <= scoring_engine.bs_longestStreak summary
     <= scoring_engine.bs_totalScoredDays summary)%nat.
Proof.
  unfold scoring_engine.compute_behavior_summary.
  destruct (avg_for_window_returns
              (filter (fun s => String.leb (date_isoformat (date_of now - 30)) (ds_date s))
                 all_scores)) as [cur ->].
  destruct (avg_for_window_returns
              (filter (fun s => String.leb (date_isoformat (date_of now - 60)) (ds_date s)
                                && String.ltb (ds_date s)
                                     (date_isoformat (date_of now - 30)))
                 all_scores)) as [prev ->].
  cbn [pybind].
  pose proof (streak_loop_spec all_scores) as Hloop.
  destruct (fold_left scoring_engine.streak_step all_scores (0%nat, 0%nat))
    as [longest current].
  destruct Hloop as [Hcur [Hmax Hex]].
  eexists. split; [reflexivity|].
  cbn [scoring_engine.bs_totalScoredDays scoring_engine.bs_currentStreak
       scoring_engine.bs_longestStreak].
  split; [reflexivity|]. split; [exact Hcur|]. split; [exact Hmax|].
  split; [exact Hex|]. split.
  - destruct (trailing_good_run all_scores) as [before [run [H [Hg Hn]]]].
    rewrite Hcur, <- Hn. apply (Hmax before run []); [|exact Hg].
    rewrite app_nil_r. exact H.
  - destruct Hex as [before [run [after [H [_ Hn]]]]].
    rewrite <- Hn, H, !length_app. lia.
Qed.

End BehaviorSummaryFacts.

(** ** Challenge progress *)

Section ProgressBounds.

Variable fromisoformat : string -> option datetime.
Variable run_cached_sentiment : string -> option Sentiment.
Variable now : datetime.

Lemma Qnat_min_le (n m : nat) : 0 <= Qnat (Nat.min n m) /\ Qnat (Nat.min n m) <= Qnat m.
Proof.
  split; [apply Qnat_nonneg|]. apply Qnat_le. apply Nat.le_min_r.
Qed.

Lemma cash_reserve_bounds (balance : Q) (holdings : list Holding)
  (transactions : list Transaction) :
  exists v, challenges.compute_cash_reserve fromisoformat now balance holdings
              transactions = Ret v /\ 0 <= v /\ v <= 7.
Proof.
  unfold challenges.compute_cash_reserve.
  match goal with |- context [if ?t <=? 0 then _ else _] => destruct (t <=? 0) eqn:E end.
  - exists 0. repeat split; discriminate.
  - apply Qleb_gt in E.
    rewrite pydiv_ret by (intro H0; rewrite H0 in E; exact (Qlt_irrefl _ E)).
    cbn [pybind].
    match goal with |- context [if ?c then _ else _] => destruct c end.
    + eexists. split; [reflexivity|]. apply (Qnat_min_le _ 7).
    + exists 0. repeat split; discriminate.
Qed.

Lemma hold_duration_bounds (holdings : list Holding) (transactions : list Transaction) :
  0 <= challenges.compute_hold_duration fromisoformat now holdings transactions /\
  challenges.compute_hold_duration fromisoformat now holdings transactions <= 5.
Proof.
  unfold challenges.compute_hold_duration.
  match goal with |- context [fold_left ?f holdings 0] => set (step := f) end.
  assert (H : forall start, 0 <= start -> 0 <= fold_left step holdings start).
  { induction holdings as [|h rest IH]; intros start Hs; [exact Hs|].
    cbn [fold_left]. apply IH. subst step. cbv beta.
    destruct (filter _ transactions); [exact Hs|].
    destruct (challenges.earliest_timestamp _ _); [|exact Hs].
    apply Q.max_le_iff. left. exact Hs. }
  split.
  - apply Q.min_glb; [apply H; apply Qle_refl|discriminate].
  - apply Q.le_min_r.
Qed.

(** X19. For each of the seven challenge templates the progress computation
    returns a value that is never negative; except for [diversify_sectors]
    and [trade_variety], whose counts are not capped, it is at most the
    template's target. *)
Theorem challenge_progress_bounds (tmpl : ChallengeTemplate)
  (holdings : list Holding) (balance : Q) (transactions : list Transaction)
  (checklists : list Checklist) :
  In tmpl challenges.CHALLENGE_TEMPLATES ->
  exists progress,
    challenges.compute_challenge_progress fromisoformat run_cached_sentiment now
      (tm_challenge_type tmpl) holdings balance transactions checklists = Ret progress /\
    0 <= progress /\
    (tm_challenge_type tmpl <> "diversify_sectors"%string ->
     tm_challenge_type tmpl <> "trade_variety"%string ->
     progress <= tm_target_value tmpl).
Proof.
  intros Hin. cbn in Hin.
  destruct Hin as [<-|[<-|[<-|[<-|[<-|[<-|[<-|[]]]]]]]];
    cbn [tm_challenge_type tm_target_value];
    unfold challenges.compute_challenge_progress;
    cbn [String.eqb Ascii.eqb Bool.eqb].
  - eexists. split; [reflexivity|]. split; [apply Qnat_nonneg|]. intros H. congruence.
  - destruct (cash_reserve_bounds balance holdings transactions) as [v [Hv [H0 H7]]].
    exists v. auto.
  - eexists. split; [reflexivity|]. unfold challenges.compute_checklist_streak.
    split; [apply Qnat_nonneg|]. intros _ _. apply (Qnat_min_le _ 10).
  - eexists. split; [reflexivity|].
    destruct (hold_duration_bounds holdings transactions) as [H0 H5]. auto.
  - eexists. split; [reflexivity|]. split; [apply Qnat_nonneg|]. intros _ H. congruence.
  - eexists. split; [reflexivity|]. unfold challenges.compute_neutral_trader.
    split; [apply Qnat_nonneg|]. intros _ _. apply (Qnat_min_le _ 3).
  - eexists. split; [reflexivity|]. unfold challenges.compute_hype_resistant.
    destruct (challenges.hype_buy_dates _ _ _); [split; [discriminate|intros _ _; discriminate]|].
    split; [apply Qnat_nonneg|]. intros _ _. apply (Qnat_min_le _ 7).
Qed.

End ProgressBounds.

Lemma challenge_progress_witness :
  In (mkChallengeTemplate "cash_reserve" "Cash Discipline" 7 30)
     challenges.CHALLENGE_TEMPLATES /\
  exists progress,
    challenges.compute_challenge_progress sample_fromisoformat (fun _ => None) sample_now
      "cash_reserve" (db_holdings sample_portfolio_db) 1000
      (db_transactions sample_portfolio_db) [] = Ret progress /\
    0 <= progress /\
    ("cash_reserve"%string <> "diversify_sectors"%string ->
     "cash_reserve"%string <> "trade_variety"%string ->
     progress <= 7).
Proof.
  assert (H : In (mkChallengeTemplate "cash_reserve" "Cash Discipline" 7 30)
                 challenges.CHALLENGE_TEMPLATES)
    by (right; left; reflexivity).
  split; [exact H|].
  exact (challenge_progress_bounds sample_fromisoformat (fun _ => None) sample_now
           (mkChallengeTemplate "cash_reserve" "Cash Discipline" 7 30)
           (db_holdings sample_portfolio_db) 1000
           (db_transactions sample_portfolio_db) [] H).
Defined.

(** *** Sector Explorer and Multi-Market Learner *)

Lemma type_symbol_inj (t1 s1 t2 s2 : string) :
  database.asset_type_ok t1 = true -> database.asset_type_ok t2 = true ->
  (t1 ++ ":" ++ s1 = t2 ++ ":" ++ s2)%string -> t1 = t2 /\ s1 = s2.
Proof.
  unfold database.asset_type_ok. intros H1 H2 H.
  apply orb_prop in H1. apply orb_prop in H2.
  destruct H1 as [H1|H1]; destruct H2 as [H2|H2];
    apply String.eqb_eq in H1; apply String.eqb_eq in H2; subst t1 t2;
    cbn in H; try discriminate; injection H as H; auto.
Qed.

Lemma nonempty_type (t : string) :
  database.asset_type_ok t = true -> challenges.nonempty t = true.
Proof.
  unfold database.asset_type_ok, challenges.nonempty. intros H.
  destruct (String.eqb_spec t ""); [subst t; discriminate|reflexivity].
Qed.

(** X20. On holdings as the table keeps them (one row per symbol and type,
    the type stock or crypto) with non-empty symbols, the Sector Explorer
    progress is the number of positions held, whatever their asset types. *)
Theorem diversify_sectors_counts_holdings (holdings : list Holding) :
  holdings_constraints holdings ->
  Forall (fun h => h_symbol h <> ""%string) holdings ->
  challenges.compute_diversify_sectors holdings = Qnat (List.length holdings).
Proof.
  intros [Hnd Hty] Hsym. unfold challenges.compute_diversify_sectors.
  rewrite filter_all.
  - unfold distinct. rewrite nodup_fixed_point; [rewrite length_map; reflexivity|].
    clear Hsym. induction holdings as [|h rest IH]; [constructor|].
    cbn [map] in Hnd |- *. inversion Hnd as [|k ks Hk Hrest]; subst.
    inversion Hty as [|x xs Hx Hxs]; subst.
    constructor; [|exact (IH Hrest Hxs)].
    intros Hin. apply Hk. apply in_map_iff in Hin. destruct Hin as [h' [Heq Hin']].
    rewrite Forall_forall in Hxs.
    destruct (type_symbol_inj _ _ _ _ (Hxs h' Hin') Hx Heq) as [Ht Hs].
    apply in_map_iff. exists h'. split; [|exact Hin'].
    unfold holding_key. rewrite Ht, Hs. reflexivity.
  - intros h Hin. rewrite Forall_forall in Hty, Hsym.
    rewrite (nonempty_type _ (Hty h Hin)). unfold challenges.nonempty.
    destruct (String.eqb_spec (h_symbol h) ""); [exfalso; exact (Hsym h Hin e)|reflexivity].
Qed.

Lemma diversify_sectors_witness :
  holdings_constraints sample_three_positions /\
  Forall (fun h => h_symbol h <> ""%string) sample_three_positions /\
  challenges.compute_diversify_sectors sample_three_positions = Qnat 3.
Proof.
  assert (H1 : holdings_constraints sample_three_positions).
  { split.
    - repeat constructor; cbn; intros H; repeat destruct H as [H|H]; try discriminate H; exact H.
    - repeat constructor. }
  assert (H2 : Forall (fun h => h_symbol h <> ""%string) sample_three_positions)
    by (repeat constructor; discriminate).
  split; [exact H1|]. split; [exact H2|].
  exact (diversify_sectors_counts_holdings sample_three_positions H1 H2).
Defined.

Lemma NoDup_two (xs : list string) (a b : string) :
  NoDup xs -> (forall x, In x xs -> x = a \/ x = b) -> (List.length xs <= 2)%nat.
Proof.
  intros Hnd Hin.
  destruct xs as [|x [|y [|z rest]]]; cbn [List.length]; try lia.
  exfalso.
  inversion Hnd as [|? ? Hx Hnd1]; subst. inversion Hnd1 as [|? ? Hy Hnd2]; subst.
  assert (Hxy : x <> y) by (intros ->; apply Hx; left; reflexivity).
  assert (Hxz : x <> z) by (intros ->; apply Hx; right; left; reflexivity).
  assert (Hyz : y <> z) by (intros ->; apply Hy; left; reflexivity).
  destruct (Hin x (or_introl eq_refl)); destruct (Hin y (or_intror (or_introl eq_refl)));
    destruct (Hin z (or_intror (or_intror (or_introl eq_refl)))); congruence.
Qed.

(** X21. On transactions as the table keeps them (the type stock or crypto)
    the Multi-Market Learner progress is at most 2, and it is 2 exactly
    when a stock trade and a crypto trade are both on record. *)
Theorem trade_variety_at_most_two (transactions : list Transaction) :
  Forall (fun t => database.asset_type_ok (t_type t) = true) transactions ->
  challenges.compute_trade_variety transactions <= 2 /\
  (challenges.compute_trade_variety transactions == 2 <->
   (exists t, In t transactions /\ t_type t = "stock"%string) /\
   (exists t, In t transactions /\ t_type t = "crypto"%string)).
Proof.
  intros Hty. unfold challenges.compute_trade_variety, distinct.
  set (types := nodup string_dec (filter challenges.nonempty (map t_type transactions))).
  assert (Hnd : NoDup types) by apply NoDup_nodup.
  assert (Hin : forall x, In x types <->
                          exists t, In t transactions /\ t_type t = x).
  { intros x. subst types. rewrite nodup_In, filter_In, in_map_iff. split.
    - intros [[t [Ht Hin]] _]. exists t. auto.
    - intros [t [Hin Ht]]. split; [exists t; auto|].
      rewrite Forall_forall in Hty. rewrite <- Ht. apply nonempty_type. apply Hty. exact Hin. }
  assert (Hcases : forall x, In x types -> x = "stock"%string \/ x = "crypto"%string).
  { intros x Hx. apply Hin in Hx. destruct Hx as [t [Ht <-]].
    rewrite Forall_forall in Hty. specialize (Hty t Ht).
    unfold database.asset_type_ok in Hty. apply orb_prop in Hty.
    destruct Hty as [H|H]; apply String.eqb_eq in H; auto. }
  pose proof (NoDup_two types _ _ Hnd Hcases) as Hlen.
  split.
  - change 2 with (Qnat 2). apply Qnat_le. exact Hlen.
  - rewrite <- !Hin. change 2 with (Qnat 2). unfold Qnat. rewrite inject_Z_injective.
    split.
    + intros H. apply Nat2Z.inj in H.
      destruct types as [|x [|y [|z rest]]]; try discriminate.
      inversion Hnd as [|? ? Hx _]; subst.
      assert (Hxy : x <> y) by (intros ->; apply Hx; left; reflexivity).
      destruct (Hcases x (or_introl eq_refl)); destruct (Hcases y (or_intror (or_introl eq_refl)));
        subst; try congruence; cbn; tauto.
    + intros [Hs Hc]. f_equal.
      destruct types as [|x [|y [|z rest]]]; cbn [List.length] in *; try lia.
      * destruct Hs.
      * destruct Hs as [Hx|[]]. destruct Hc as [H|[]]. congruence.
Qed.

Lemma trade_variety_witness :
  Forall (fun t => database.asset_type_ok (t_type t) = true) sample_trades /\
  challenges.compute_trade_variety sample_trades <= 2 /\
  (challenges.compute_trade_variety sample_trades == 2 <->
   (exists t, In t sample_trades /\ t_type t = "stock"%string) /\
   (exists t, In t sample_trades /\ t_type t = "crypto"%string)).
Proof.
  assert (H : Forall (fun t => database.asset_type_ok (t_type t) = true) sample_trades)
    by (repeat constructor).
  split; [exact H|].
  exact (trade_variety_at_most_two sample_trades H).
Defined.

(** ** The challenge endpoints *)

Lemma round1_min_100 (x : Q) : Qmin (round1 x) 100 == round1 (Qmin x 100).
Proof.
  destruct (Qlt_le_dec 100 x) as [H|H].
  - assert (E : Qmin x 100 = 100).
    { unfold Qmin, GenericMinMax.gmin. rewrite (proj1 (Qgt_alt _ _) H). reflexivity. }
    rewrite E.
    assert (Hr : 100 <= round1 x).
    { unfold round1.
      assert (Hlo : (1000 <= round_half_even (x * 10))%Z).
      { apply round_half_even_lower. change (inject_Z 1000) with 1000. lra. }
      rewrite Zle_Qle in Hlo. change (inject_Z 1000) with 1000 in Hlo.
      set (r := inject_Z (round_half_even (x * 10))) in *. clearbody r.
      apply Qle_shift_div_l; [reflexivity|]. lra. }
    rewrite (Q.min_r _ _ Hr). vm_compute. reflexivity.
  - assert (E : Qmin x 100 = x).
    { unfold Qmin, GenericMinMax.gmin. destruct (x ?= 100) eqn:Ec; try reflexivity.
      apply Qgt_alt in Ec. exfalso. apply (Qlt_irrefl x). apply Qle_lt_trans with 100; assumption. }
    rewrite E. apply Q.min_l.
    unfold round1.
    assert (Hhi : (round_half_even (x * 10) <= 1000)%Z).
    { apply round_half_even_upper. change (inject_Z 1000) with 1000. lra. }
    rewrite Zle_Qle in Hhi. change (inject_Z 1000) with 1000 in Hhi.
    set (r := inject_Z (round_half_even (x * 10))) in *. clearbody r.
    apply Qle_shift_div_r; [reflexivity|]. lra.
Qed.

Lemma round1_nonneg (x : Q) : 0 <= x -> 0 <= round1 x.
Proof.
  intros H0. unfold round1.
  assert (Hlo : (0 <= round_half_even (x * 10))%Z).
  { apply round_half_even_lower. change (inject_Z 0) with 0. lra. }
  rewrite Zle_Qle in Hlo. change (inject_Z 0) with 0 in Hlo.
  set (r := inject_Z (round_half_even (x * 10))) in *. clearbody r.
  apply Qle_shift_div_l; [reflexivity|]. lra.
Qed.

Section ShownChallenges.

Variable fromisoformat : string -> option datetime.
Variable isoformat timestamp_ms : datetime -> string.
Variable run_cached_sentiment : string -> option Sentiment.

Lemma progress_nonneg (now : datetime) (challenge_type : string)
  (holdings : list Holding) (balance : Q) (transactions : list Transaction)
  (checklists : list Checklist) :
  exists v,
    challenges.compute_challenge_progress fromisoformat run_cached_sentiment now
      challenge_type holdings balance transactions checklists = Ret v /\ 0 <= v.
Proof.
  unfold challenges.compute_challenge_progress.
  repeat match goal with
         | |- context [if String.eqb ?a ?b then _ else _] => destruct (String.eqb a b)
         end.
  - eexists. split; [reflexivity|]. apply Qnat_nonneg.
  - destruct (cash_reserve_bounds fromisoformat now balance holdings transactions)
      as [v [Hv [H0 _]]]. exists v. auto.
  - eexists. split; [reflexivity|]. apply Qnat_nonneg.
  - eexists. split; [reflexivity|].
    apply (hold_duration_bounds fromisoformat now holdings transactions).
  - eexists. split; [reflexivity|]. apply Qnat_nonneg.
  - eexists. split; [reflexivity|]. apply Qnat_nonneg.
  - eexists. split; [reflexivity|]. unfold challenges.compute_hype_resistant.
    destruct (challenges.hype_buy_dates _ _ _); [discriminate|apply Qnat_nonneg].
  - exists 0. split; [reflexivity|discriminate].
Qed.

(** The percentage both displays round: 0 for a target that is not
    positive. *)
Lemma progress_ratio (current target : Q) :
  exists ratio,
    (if 0 <? target then q <- pydiv current target ;; Ret (q * 100) else Ret 0)
    = Ret ratio /\
    (0 <= current -> 0 <= ratio) /\ (target <= 0 -> ratio = 0).
Proof.
  destruct (0 <? target) eqn:Et.
  - apply Qltb_lt in Et.
    rewrite pydiv_ret by (intro H0; rewrite H0 in Et; exact (Qlt_irrefl _ Et)).
    cbn [pybind]. eexists. split; [reflexivity|]. split.
    + intros Hc. assert (H : 0 <= current / target).
      { apply Qle_shift_div_l; [exact Et|]. lra. }
      lra.
    + intros Hle. exfalso. apply (Qlt_irrefl 0).
      apply Qlt_le_trans with target; assumption.
  - exists 0. split; [reflexivity|]. split; [discriminate|reflexivity].
Qed.

Lemma shown_progress_is_a_percentage_aux (now : datetime) (holdings : list Holding)
  (balance : Q) (transactions : list Transaction) (checklists : list Checklist)
  (ch : Challenge) :
  exists shown,
    server.show_challenge fromisoformat run_cached_sentiment now holdings balance
      transactions checklists ch = Ret shown /\
    view_id shown = ch_id ch /\
    0 <= database.cv_progress shown /\ database.cv_progress shown <= 100.
Proof.
  destruct (progress_nonneg now (ch_challenge_type ch) holdings balance transactions
              checklists) as [p [Hp Hp0]].
  destruct (progress_ratio p (ch_target_value ch)) as [ratio [Hratio [Hr0 _]]].
  unfold server.show_challenge. rewrite Hp. cbn [pybind]. rewrite Hratio. cbn [pybind].
  eexists. split; [reflexivity|]. split; [reflexivity|].
  cbn [database.cv_progress].
  split; [apply Q.min_glb; [apply round1_nonneg; exact (Hr0 Hp0)|discriminate]|].
  apply Q.le_min_r.
Qed.

(** X22. What [GET /api/challenges] shows for a challenge, whatever the row
    and the data: the progress computation returns, the view carries it as
    current value, the percentage shown lies between 0 and 100 and is 0 for
    a target that is not positive (no division by zero), and the
    percentage [_format_challenge] gives for the row with that current
    value is the same. *)
Theorem shown_progress_is_a_percentage (now : datetime) (holdings : list Holding)
  (balance : Q) (transactions : list Transaction) (checklists : list Checklist)
  (ch : Challenge) :
  exists progress_val shown stored,
    challenges.compute_challenge_progress fromisoformat run_cached_sentiment now
      (ch_challenge_type ch) holdings balance transactions checklists
    = Ret progress_val /\
    server.show_challenge fromisoformat run_cached_sentiment now holdings balance
      transactions checklists ch = Ret shown /\
    ch_id (database.cv_challenge shown) = ch_id ch /\
    ch_current_value (database.cv_challenge shown) = progress_val /\
    0 <= database.cv_progress shown /\ database.cv_progress shown <= 100 /\
    (ch_target_value ch <= 0 -> database.cv_progress shown == 0) /\
    database._format_challenge (database.cv_challenge shown) = Ret stored /\
    database.cv_progress stored == database.cv_progress shown.
Proof.
  destruct (progress_nonneg now (ch_challenge_type ch) holdings balance transactions
              checklists) as [p [Hp Hp0]].
  destruct (progress_ratio p (ch_target_value ch)) as [ratio [Hratio [Hr0 Hrt]]].
  unfold server.show_challenge, database._format_challenge. rewrite Hp.
  cbn [pybind ch_target_value ch_current_value]. rewrite Hratio. cbn [pybind].
  do 3 eexists. split; [reflexivity|]. split; [reflexivity|].
  cbn [database.cv_challenge database.cv_progress ch_id ch_current_value
       ch_target_value].
  rewrite Hratio. cbn [pybind].
  split; [reflexivity|]. split; [reflexivity|].
  split; [apply Q.min_glb; [apply round1_nonneg; exact (Hr0 Hp0)|discriminate]|].
  split; [apply Q.le_min_r|].
  split; [intros Hle; rewrite (Hrt Hle); vm_compute; reflexivity|].
  split; [reflexivity|].
  cbn [database.cv_progress]. symmetry. apply round1_min_100.
Qed.

Lemma map_pyres_returns {A B : Type} (f : A -> pyres B) (P : A -> B -> Prop)
  (xs : list A) :
  (forall x, exists y, f x = Ret y /\ P x y) ->
  exists ys, server.map_pyres f xs = Ret ys /\ Forall2 P xs ys.
Proof.
  intros Hf. induction xs as [|x rest [ys [Hys HP]]].
  - exists []. split; [reflexivity|constructor].
  - destruct (Hf x) as [y [Hy Hxy]]. exists (y :: ys).
    cbn [server.map_pyres]. rewrite Hy. cbn [pybind]. rewrite Hys. cbn [pybind].
    split; [reflexivity|constructor; assumption].
Qed.

(** What [challenges_get_active] leaves and returns: the views of the active
    rows of the table it leaves, on the data read from it. *)
Lemma challenges_get_active_run (now : datetime) (db : Database) :
  (filter is_active (db_challenges db) = [] ->
   fresh_seed_ids timestamp_ms now (db_challenges db)) ->
  let db' := match filter is_active (db_challenges db) with
             | [] => with_challenges
                       (db_challenges db ++
                        map (seed_row isoformat timestamp_ms now)
                          challenges.CHALLENGE_TEMPLATES) db
             | _ :: _ => db
             end in
  server.challenges_get_active fromisoformat isoformat timestamp_ms
    run_cached_sentiment now db =
  (server.map_pyres
     (server.show_challenge fromisoformat run_cached_sentiment now
        (read database.get_holdings db' []) (read database.get_portfolio db' 0)
        (read database.get_transactions db' [])
        (read (database.get_checklists_raw isoformat 30 now) db' []))
     (order_by_desc ch_started_at (filter is_active (db_challenges db'))),
   db').
Proof.
  intros Hf db'.
  unfold server.challenges_get_active.
  unfold dbind at 1. unfold database.get_active_challenges at 1, query at 1.
  change (fun r => is_active_status (ch_status r)) with is_active.
  destruct (filter is_active (db_challenges db)) as [|a l] eqn:Ef.
  - specialize (Hf eq_refl).
    assert (Eo : order_by_desc ch_started_at (@nil Challenge) = []).
    { apply Permutation_nil. symmetry. apply order_by_desc_perm. }
    rewrite Eo. unfold dbind at 1. unfold dbind at 1.
    assert (Hs : for_each challenges.CHALLENGE_TEMPLATES
                   (server.seed_challenge isoformat timestamp_ms now) db
                 = (Ret tt, db'))
      by exact (for_each_seed isoformat timestamp_ms now (fun _ => false)
                  challenges.CHALLENGE_TEMPLATES db
                  (seed_ids_NoDup timestamp_ms now _ template_types_NoDup) Hf).
    cbv beta. rewrite Hs. reflexivity.
  - unfold dbind at 1.
    destruct (order_by_desc ch_started_at (a :: l)) as [|a' l'] eqn:Eo.
    + pose proof (order_by_desc_perm ch_started_at (a :: l)) as Hp.
      rewrite Eo in Hp. apply Permutation_nil in Hp. discriminate.
    + unfold dret at 1. subst db'. rewrite Ef, Eo. reflexivity.
Qed.

Lemma active_rows_seeded (iso tms : datetime -> string) (now : datetime)
  (rows : list Challenge) :
  filter is_active rows = [] ->
  filter is_active (rows ++ map (seed_row iso tms now) challenges.CHALLENGE_TEMPLATES)
  = map (seed_row iso tms now) challenges.CHALLENGE_TEMPLATES.
Proof.
  intros Ef. rewrite filter_app, Ef. reflexivity.
Qed.

(** X23. [GET /api/challenges], when a challenge is active or the seed ids
    of its time are not in the table: it returns; with an active challenge
    it leaves the database as it was (the progress it shows is not stored);
    with none it appends one active row per template, in the order of the
    templates, and shows the seven; the challenges shown are the active
    rows of the table it leaves, each with a percentage between 0 and
    100. *)
Theorem get_active_reads_or_seeds (now : datetime) (db : Database) :
  (filter is_active (db_challenges db) = [] ->
   fresh_seed_ids timestamp_ms now (db_challenges db)) ->
  exists views db',
    server.challenges_get_active fromisoformat isoformat timestamp_ms
      run_cached_sentiment now db = (Ret views, db') /\
    (filter is_active (db_challenges db) <> [] -> db' = db) /\
    (filter is_active (db_challenges db) = [] ->
     db' = with_challenges
             (db_challenges db ++
              map (seed_row isoformat timestamp_ms now) challenges.CHALLENGE_TEMPLATES)
             db /\
     List.length views = 7%nat) /\
    Permutation (map view_id views)
      (map ch_id (filter is_active (db_challenges db'))) /\
    Forall (fun v => 0 <= database.cv_progress v /\ database.cv_progress v <= 100)
      views.
Proof.
  intros Hf. rewrite (challenges_get_active_run now db Hf). cbv zeta.
  set (db' := match filter is_active (db_challenges db) with
              | [] => _
              | _ :: _ => db
              end).
  destruct (map_pyres_returns
              (server.show_challenge fromisoformat run_cached_sentiment now
                 (read database.get_holdings db' []) (read database.get_portfolio db' 0)
                 (read database.get_transactions db' [])
                 (read (database.get_checklists_raw isoformat 30 now) db' []))
              (fun ch v => view_id v = ch_id ch /\
                           0 <= database.cv_progress v /\ database.cv_progress v <= 100)
              (order_by_desc ch_started_at (filter is_active (db_challenges db'))))
    as [views [Hviews Hall]].
  { intros ch.
    destruct (shown_progress_is_a_percentage_aux now (read database.get_holdings db' [])
                (read database.get_portfolio db' 0) (read database.get_transactions db' [])
                (read (database.get_checklists_raw isoformat 30 now) db' []) ch)
      as [shown [Hs [Hid [H0 H100]]]].
    exists shown. auto. }
  exists views, db'. split; [rewrite Hviews; reflexivity|].
  assert (Hids : map view_id views
                 = map ch_id (order_by_desc ch_started_at
                                (filter is_active (db_challenges db')))).
  { clear Hviews. induction Hall as [|ch v chs vs [Hid _] _ IH]; [reflexivity|].
    cbn [map]. rewrite Hid, IH. reflexivity. }
  split; [|split; [|split]].
  - intros Hne. subst db'. destruct (filter is_active (db_challenges db)); congruence.
  - intros Ef. assert (Edb : db' = with_challenges
             (db_challenges db ++
              map (seed_row isoformat timestamp_ms now) challenges.CHALLENGE_TEMPLATES)
             db) by (subst db'; rewrite Ef; reflexivity).
    split; [exact Edb|].
    rewrite <- (length_map view_id), Hids, length_map.
    rewrite (Permutation_length (order_by_desc_perm _ _)).
    rewrite Edb. cbn [db_challenges with_challenges].
    rewrite (active_rows_seeded _ _ _ _ Ef). reflexivity.
  - rewrite Hids. apply Permutation_map. apply order_by_desc_perm.
  - clear Hviews Hids. induction Hall as [|ch v chs vs [_ Hr] _ IH]; constructor; assumption.
Qed.

End ShownChallenges.

Lemma get_active_witness :
  (filter is_active (db_challenges sample_no_challenges) = [] ->
   fresh_seed_ids sample_timestamp_ms sample_now (db_challenges sample_no_challenges)) /\
  exists views db',
    server.challenges_get_active sample_fromisoformat sample_isoformat
      sample_timestamp_ms (fun _ => None) sample_now sample_no_challenges
    = (Ret views, db') /\
    List.length views = 7%nat /\
    Forall (fun v => 0 <= database.cv_progress v /\ database.cv_progress v <= 100)
      views.
Proof.
  assert (H : filter is_active (db_challenges sample_no_challenges) = [] ->
              fresh_seed_ids sample_timestamp_ms sample_now
                (db_challenges sample_no_challenges)).
  { intros _ tmpl _ Hin. exact Hin. }
  split; [exact H|].
  destruct (get_active_reads_or_seeds sample_fromisoformat sample_isoformat
              sample_timestamp_ms (fun _ => None) sample_now sample_no_challenges H)
    as [views [db' [Hrun [_ [Hseed [_ Hall]]]]]].
  exists views, db'. split; [exact Hrun|].
  split; [exact (proj2 (Hseed eq_refl))|exact Hall].
Defined.

(** *** The challenges over a sequence of calls *)

Lemma active_of_type_none (ty : string) (rows : list Challenge) :
  filter is_active rows = [] -> active_of_type ty rows = [].
Proof.
  unfold active_of_type. induction rows as [|r rows IH]; [reflexivity|].
  cbn [filter]. destruct (is_active r); [discriminate|].
  cbn [andb]. exact IH.
Qed.

Section ChallengeInvariants.

Variable fromisoformat : string -> option datetime.
Variable isoformat timestamp_ms : datetime -> string.
Variable run_cached_sentiment : string -> option Sentiment.

(** What the calls keep: the ids are unique and every template has exactly
    one active challenge, no other type has one. *)
Let settled_challenges (rows : list Challenge) : Prop :=
  unique_ids rows /\ one_active_per_template rows /\ at_most_one_active_per_type rows.

Lemma seeded_table_settled (now : datetime) (rows : list Challenge) :
  unique_ids rows -> filter is_active rows = [] ->
  fresh_seed_ids timestamp_ms now rows ->
  settled_challenges
    (rows ++ map (seed_row isoformat timestamp_ms now) challenges.CHALLENGE_TEMPLATES).
Proof.
  intros Hu Ef Hf.
  assert (Ha : forall ty,
             active_of_type ty
               (rows ++ map (seed_row isoformat timestamp_ms now)
                          challenges.CHALLENGE_TEMPLATES)
             = map (seed_row isoformat timestamp_ms now)
                 (filter (fun t => String.eqb (tm_challenge_type t) ty)
                    challenges.CHALLENGE_TEMPLATES)).
  { intros ty. unfold active_of_type at 1. rewrite filter_app.
    fold (active_of_type ty rows). rewrite (active_of_type_none ty rows Ef).
    apply active_of_type_seeds. }
  assert (Hle : forall ty,
             (List.length
                (filter (fun t => String.eqb (tm_challenge_type t) ty)
                   challenges.CHALLENGE_TEMPLATES) <= 1)%nat).
  { intros ty. apply filter_key_le_1. apply template_types_NoDup. }
  split; [|split].
  - unfold unique_ids. rewrite map_app. apply NoDup_app.
    + exact Hu.
    + rewrite map_map. apply seed_ids_NoDup. apply template_types_NoDup.
    + intros x Hx Hs. rewrite map_map in Hs. apply in_map_iff in Hs.
      destruct Hs as [t [Ht Hin]]. cbn [seed_row ch_id] in Ht. subst x.
      exact (Hf t Hin Hx).
  - intros tmpl Hin. rewrite Ha, length_map.
    pose proof (Hle (tm_challenge_type tmpl)) as Hl.
    assert (Ht : In tmpl (filter (fun t => String.eqb (tm_challenge_type t)
                                              (tm_challenge_type tmpl))
                            challenges.CHALLENGE_TEMPLATES)).
    { apply filter_In. split; [exact Hin|apply String.eqb_refl]. }
    destruct (filter _ challenges.CHALLENGE_TEMPLATES); [contradiction|].
    cbn [List.length] in *. lia.
  - intros ty. rewrite Ha, length_map. apply Hle.
Qed.

Lemma refreshed_table_settled (now : datetime) (db : Database) :
  unique_ids (db_challenges db) ->
  at_most_one_active_per_type (db_challenges db) ->
  fresh_seed_ids timestamp_ms now (db_challenges db) ->
  settled_challenges
    (refreshed_table fromisoformat isoformat timestamp_ms run_cached_sentiment now db).
Proof.
  intros Hu H1 Hf.
  pose proof (refreshed_id fromisoformat isoformat run_cached_sentiment now db) as Hid.
  assert (Hle : at_most_one_active_per_type
                  (refreshed_table fromisoformat isoformat timestamp_ms
                     run_cached_sentiment now db)).
  { intros ty. rewrite active_table_split, length_app.
    pose proof (active_refreshed_le fromisoformat isoformat run_cached_sentiment now db
                  ty (db_challenges db)) as Hk.
    pose proof (H1 ty) as H1'.
    pose proof (seeds_of_type_le_1 fromisoformat isoformat timestamp_ms
                  run_cached_sentiment now db ty) as Hs.
    pose proof (seeds_of_active_type fromisoformat isoformat timestamp_ms
                  run_cached_sentiment now db ty) as Hnone.
    destruct (active_of_type ty
                (map (refreshed fromisoformat isoformat run_cached_sentiment now db)
                   (db_challenges db))) as [|a l].
    - cbn [List.length]. lia.
    - rewrite Hnone by discriminate. cbn [List.length] in *. lia. }
  split; [|split; [|exact Hle]].
  - unfold refreshed_table, unique_ids. cbv zeta.
    rewrite map_app, !map_map, (map_ext _ ch_id Hid). apply NoDup_app.
    + exact Hu.
    + apply seed_ids_NoDup. apply missing_templates_types.
    + intros x Hx Hs. apply in_map_iff in Hs.
      destruct Hs as [t [Ht Hin]]. cbn [seed_row ch_id] in Ht. subst x.
      unfold missing_templates in Hin. apply filter_In in Hin.
      exact (Hf t (proj1 Hin) Hx).
  - intros tmpl Ht. pose proof (Hle (tm_challenge_type tmpl)) as Hl.
    rewrite active_table_split, length_app in *.
    pose proof (seeds_of_missing_type fromisoformat isoformat timestamp_ms
                  run_cached_sentiment now db tmpl Ht) as Hm.
    destruct (active_of_type (tm_challenge_type tmpl)
                (map (refreshed fromisoformat isoformat run_cached_sentiment now db)
                   (db_challenges db))) as [|a l].
    + specialize (Hm eq_refl). cbn [List.length] in *. lia.
    + cbn [List.length] in *. lia.
Qed.

(** A call on a table that is empty or settled leaves a settled table. *)
Lemma challenge_call_settles (c : ChallengeCall) (db : Database) :
  unique_ids (db_challenges db) ->
  at_most_one_active_per_type (db_challenges db) ->
  (filter is_active (db_challenges db) <> [] ->
   one_active_per_template (db_challenges db)) ->
  call_at_fresh_time timestamp_ms c db ->
  settled_challenges
    (db_challenges
       (run_challenge_call fromisoformat isoformat timestamp_ms run_cached_sentiment
          c db)).
Proof.
  intros Hu H1 Hone Hf. destruct c as [now|now]; cbn [run_challenge_call call_at_fresh_time] in *.
  - rewrite (challenges_get_active_run fromisoformat isoformat timestamp_ms
               run_cached_sentiment now db Hf).
    cbn [snd]. destruct (filter is_active (db_challenges db)) as [|a l] eqn:Ef.
    + cbn [db_challenges with_challenges].
      apply seeded_table_settled; [exact Hu|exact Ef|exact (Hf eq_refl)].
    + split; [exact Hu|]. split; [apply Hone; discriminate|exact H1].
  - rewrite (challenges_refresh_run fromisoformat isoformat timestamp_ms
               run_cached_sentiment now db Hu Hf).
    cbn [snd db_challenges with_challenges].
    apply refreshed_table_settled; assumption.
Qed.

Lemma challenge_calls_settled (calls : list ChallengeCall) (db : Database) :
  settled_challenges (db_challenges db) ->
  calls_at_fresh_times fromisoformat isoformat timestamp_ms run_cached_sentiment
    calls db ->
  settled_challenges
    (db_challenges
       (run_challenge_calls fromisoformat isoformat timestamp_ms run_cached_sentiment
          calls db)).
Proof.
  revert db. induction calls as [|c rest IH]; intros db Hs Hf; [exact Hs|].
  cbn [run_challenge_calls calls_at_fresh_times] in *. destruct Hf as [Hc Hrest].
  apply IH; [|exact Hrest].
  destruct Hs as [Hu [Hone H1]].
  apply challenge_call_settles; auto.
Qed.

(** X24. From a database with no challenge, after any non-empty sequence
    of calls of [GET /api/challenges] and [POST /api/challenges/refresh],
    each seeding call at a time whose seed ids are not in the table: the
    ids are unique, every template has exactly one active challenge, and no
    type has more than one. *)
Theorem challenge_calls_keep_one_active_per_template
  (calls : list ChallengeCall) (db : Database) :
  db_challenges db = [] ->
  calls <> [] ->
  calls_at_fresh_times fromisoformat isoformat timestamp_ms run_cached_sentiment
    calls db ->
  let rows := db_challenges
                (run_challenge_calls fromisoformat isoformat timestamp_ms
                   run_cached_sentiment calls db) in
  unique_ids rows /\ one_active_per_template rows /\ at_most_one_active_per_type rows.
Proof.
  intros Hnil Hne Hf. destruct calls as [|c rest]; [contradiction|].
  cbn [run_challenge_calls calls_at_fresh_times] in *. destruct Hf as [Hc Hrest].
  apply challenge_calls_settled; [|exact Hrest].
  apply challenge_call_settles; [| | |exact Hc]; rewrite Hnil.
  - constructor.
  - intros ty. cbn. lia.
  - intros H. contradiction H. reflexivity.
Qed.

End ChallengeInvariants.

Lemma challenge_calls_witness :
  db_challenges sample_no_challenges = [] /\
  [GetActive sample_now; Refresh sample_later] <> [] /\
  calls_at_fresh_times sample_fromisoformat sample_isoformat sample_timestamp_ms
    (fun _ => None) [GetActive sample_now; Refresh sample_later] sample_no_challenges /\
  one_active_per_template
    (db_challenges
       (run_challenge_calls sample_fromisoformat sample_isoformat sample_timestamp_ms
          (fun _ => None) [GetActive sample_now; Refresh sample_later]
          sample_no_challenges)).
Proof.
  assert (H1 : db_challenges sample_no_challenges = []) by reflexivity.
  assert (H2 : [GetActive sample_now; Refresh sample_later] <> []) by discriminate.
  assert (H3 : calls_at_fresh_times sample_fromisoformat sample_isoformat
                 sample_timestamp_ms (fun _ => None)
                 [GetActive sample_now; Refresh sample_later] sample_no_challenges).
  { split; [|split; [|exact I]].
    - intros _ tmpl _ Hin. exact Hin.
    - intros tmpl Hin. cbn in Hin.
      repeat (destruct Hin as [<-|Hin]; [vm_compute; intuition discriminate|]).
      contradiction. }
  split; [exact H1|]. split; [exact H2|]. split; [exact H3|].
  exact (proj1 (proj2 (challenge_calls_keep_one_active_per_template sample_fromisoformat
                         sample_isoformat sample_timestamp_ms (fun _ => None)
                         [GetActive sample_now; Refresh sample_later]
                         sample_no_challenges H1 H2 H3))).
Defined.

(** ** The price cache *)

Section CacheFacts.

Variable V : Type.


Lemma lookup_assign_same (key : string) (entry : V * Q) (d : list (string * (V * Q))) :
  server.PriceCache.lookup V key (server.PriceCache.assign V key entry d) = Some entry.
Proof.
  induction d as [|[k e] rest IH]; cbn [server.PriceCache.assign server.PriceCache.lookup].
  - rewrite String.eqb_refl. reflexivity.
  - destruct (String.eqb k key) eqn:E; cbn [server.PriceCache.lookup]; rewrite E;
      [reflexivity|exact IH].
Qed.

Lemma lookup_assign_other (key key' : string) (entry : V * Q)
  (d : list (string * (V * Q))) :
  key' <> key -> server.PriceCache.lookup V key' (server.PriceCache.assign V key entry d) = server.PriceCache.lookup V key' d.
Proof.
  intros Hne.
  induction d as [|[k e] rest IH]; cbn [server.PriceCache.assign server.PriceCache.lookup].
  - destruct (String.eqb_spec key key'); [congruence|reflexivity].
  - destruct (String.eqb_spec k key) as [Ek|Ek]; cbn [server.PriceCache.lookup].
    + subst k. destruct (String.eqb_spec key key'); [congruence|reflexivity].
    + rewrite IH. reflexivity.
Qed.

Lemma lookup_none (key : string) (d : list (string * (V * Q))) :
  ~ In key (map fst d) -> server.PriceCache.lookup V key d = None.
Proof.
  induction d as [|[k e] rest IH]; intros Hn; cbn [server.PriceCache.lookup]; [reflexivity|].
  destruct (String.eqb_spec k key) as [Ek|Ek].
  - exfalso. apply Hn. left. exact Ek.
  - apply IH. intros Hin. apply Hn. right. exact Hin.
Qed.

Lemma lookup_del_same (key : string) (d : list (string * (V * Q))) :
  NoDup (map fst d) -> server.PriceCache.lookup V key (server.PriceCache.del V key d) = None.
Proof.
  induction d as [|[k e] rest IH]; intros Hnd; cbn [server.PriceCache.del]; [reflexivity|].
  cbn [map fst] in Hnd. inversion Hnd as [|? ? Hk Hrest]; subst.
  destruct (String.eqb_spec k key) as [Ek|Ek].
  - subst k. apply lookup_none. exact Hk.
  - cbn [server.PriceCache.lookup].
    destruct (String.eqb_spec k key); [contradiction|]. apply IH. exact Hrest.
Qed.

Lemma lookup_del_other (key key' : string) (d : list (string * (V * Q))) :
  key' <> key -> server.PriceCache.lookup V key' (server.PriceCache.del V key d) = server.PriceCache.lookup V key' d.
Proof.
  intros Hne.
  induction d as [|[k e] rest IH]; cbn [server.PriceCache.del]; [reflexivity|].
  destruct (String.eqb_spec k key) as [Ek|Ek]; cbn [server.PriceCache.lookup].
  - subst k. destruct (String.eqb_spec key key'); [congruence|reflexivity].
  - rewrite IH. reflexivity.
Qed.

Lemma keys_del (key : string) (d : list (string * (V * Q))) :
  forall k, In k (map fst (server.PriceCache.del V key d)) -> In k (map fst d).
Proof.
  induction d as [|[k0 e] rest IH]; intros k Hin; cbn [server.PriceCache.del] in Hin;
    [exact Hin|].
  destruct (String.eqb k0 key).
  - right. exact Hin.
  - cbn [map fst] in *. destruct Hin as [Hin|Hin]; [left; exact Hin|right; apply IH; exact Hin].
Qed.

Lemma NoDup_del (key : string) (d : list (string * (V * Q))) :
  NoDup (map fst d) -> NoDup (map fst (server.PriceCache.del V key d)).
Proof.
  induction d as [|[k e] rest IH]; intros Hnd; cbn [server.PriceCache.del]; [exact Hnd|].
  cbn [map fst] in Hnd. inversion Hnd as [|? ? Hk Hrest]; subst.
  destruct (String.eqb k key); [exact Hrest|].
  cbn [map fst]. constructor; [|apply IH; exact Hrest].
  intros Hin. apply Hk. apply (keys_del key). exact Hin.
Qed.

Lemma keys_assign (key : string) (entry : V * Q) (d : list (string * (V * Q))) :
  forall k, In k (map fst (server.PriceCache.assign V key entry d)) -> k = key \/ In k (map fst d).
Proof.
  induction d as [|[k0 e] rest IH]; intros k Hin; cbn [server.PriceCache.assign] in Hin.
  - destruct Hin as [Hin|[]]. left. symmetry. exact Hin.
  - destruct (String.eqb k0 key); cbn [map fst] in *.
    + right. exact Hin.
    + destruct Hin as [Hin|Hin]; [right; left; exact Hin|].
      destruct (IH k Hin) as [H|H]; [left; exact H|right; right; exact H].
Qed.

Lemma NoDup_assign (key : string) (entry : V * Q) (d : list (string * (V * Q))) :
  NoDup (map fst d) -> NoDup (map fst (server.PriceCache.assign V key entry d)).
Proof.
  induction d as [|[k e] rest IH]; intros Hnd; cbn [server.PriceCache.assign].
  - repeat constructor. intros [].
  - cbn [map fst] in Hnd. inversion Hnd as [|? ? Hk Hrest]; subst.
    destruct (String.eqb_spec k key) as [Ek|Ek]; cbn [map fst]; [exact Hnd|].
    constructor; [|apply IH; exact Hrest].
    intros Hin. destruct (keys_assign key entry rest k Hin) as [H|H];
      [exact (Ek H)|exact (Hk H)].
Qed.

(** X25. What [get] answers after [set]: with a ttl other than 0, the value
    at every time strictly before the time of the [set] plus the ttl, and
    from then on nothing, the entry being deleted; with no ttl or a ttl of
    0, the value for the default ttl (a ttl of 0 does not expire at once);
    the other keys answer as before the [set]. *)
Theorem cache_set_then_get (time time' : Q) (key : string) (value : V)
  (ttl : option Z) (self : server.PriceCache.t V) :
  let self' := server.PriceCache.set V time key value ttl self in
  (forall n, ttl = Some n -> n <> 0%Z ->
             server.PriceCache.get V time' key self'
             = if time' <? time + inject_Z n then (Some value, self')
               else (None, server.PriceCache.mk V
                             (server.PriceCache.del V key (server.PriceCache._cache V self'))
                             (server.PriceCache.default_ttl V self))) /\
  (ttl = None \/ ttl = Some 0%Z ->
   time' < time + inject_Z (server.PriceCache.default_ttl V self) ->
   server.PriceCache.get V time' key self' = (Some value, self')) /\
  (forall key', key' <> key ->
                fst (server.PriceCache.get V time' key' self')
                = fst (server.PriceCache.get V time' key' self)).
Proof.
  cbv zeta. split; [|split].
  - intros n -> Hn. unfold server.PriceCache.get, server.PriceCache.set.
    cbn [server.PriceCache._cache server.PriceCache.default_ttl].
    rewrite lookup_assign_same.
    destruct (Z.eqb_spec n 0); [contradiction|]. reflexivity.
  - intros Httl Hlt. unfold server.PriceCache.get, server.PriceCache.set.
    cbn [server.PriceCache._cache server.PriceCache.default_ttl].
    rewrite lookup_assign_same.
    apply Qltb_lt in Hlt.
    destruct Httl as [->| ->]; cbn [Z.eqb]; rewrite Hlt; reflexivity.
  - intros key' Hne. unfold server.PriceCache.get, server.PriceCache.set.
    cbn [server.PriceCache._cache server.PriceCache.default_ttl].
    rewrite (lookup_assign_other _ _ _ _ Hne).
    destruct (server.PriceCache.lookup V key' (server.PriceCache._cache V self)) as [[v e]|]; [|reflexivity].
    destruct (time' <? e); reflexivity.
Qed.

(** X26. In a cache that holds no key twice, [get] of an entry at or after
    its expiry time answers nothing and deletes the entry: the key is no
    longer held, the other keys keep their entries, no key is held twice,
    and a later [get] of the key answers nothing whatever the clock
    reads. *)
Theorem cache_expired_entry_is_dropped (time : Q) (key : string) (value : V)
  (expiry : Q) (self : server.PriceCache.t V) :
  NoDup (map fst (server.PriceCache._cache V self)) ->
  server.PriceCache.lookup V key (server.PriceCache._cache V self) = Some (value, expiry) ->
  expiry <= time ->
  exists self',
    server.PriceCache.get V time key self = (None, self') /\
    server.PriceCache.lookup V key (server.PriceCache._cache V self') = None /\
    (forall key', key' <> key ->
                  server.PriceCache.lookup V key' (server.PriceCache._cache V self')
                  = server.PriceCache.lookup V key' (server.PriceCache._cache V self)) /\
    NoDup (map fst (server.PriceCache._cache V self')) /\
    (forall earlier, server.PriceCache.get V earlier key self' = (None, self')).
Proof.
  intros Hnd Hl Hexp. unfold server.PriceCache.get at 1. rewrite Hl.
  apply Qltb_ge in Hexp. rewrite Hexp.
  eexists. split; [reflexivity|]. cbn [server.PriceCache._cache].
  split; [apply lookup_del_same; exact Hnd|].
  split; [intros key' Hne; apply lookup_del_other; exact Hne|].
  split; [apply NoDup_del; exact Hnd|].
  intros earlier. unfold server.PriceCache.get. cbn [server.PriceCache._cache].
  rewrite (lookup_del_same key _ Hnd). reflexivity.
Qed.

End CacheFacts.

Lemma cache_expired_witness :
  let self := server.PriceCache.set Q 0 "AAPL" 187 (Some 30%Z)
                (server.PriceCache.init Q 30) in
  NoDup (map fst (server.PriceCache._cache Q self)) /\
  server.PriceCache.lookup Q "AAPL" (server.PriceCache._cache Q self) = Some (187, 0 + 30) /\
  0 + 30 <= 30 /\
  exists self',
    server.PriceCache.get Q 30 "AAPL" self = (None, self') /\
    server.PriceCache.lookup Q "AAPL" (server.PriceCache._cache Q self') = None.
Proof.
  cbv zeta.
  set (self := server.PriceCache.set Q 0 "AAPL" 187 (Some 30%Z)
                 (server.PriceCache.init Q 30)).
  assert (H1 : NoDup (map fst (server.PriceCache._cache Q self)))
    by (repeat constructor; intros []).
  assert (H2 : server.PriceCache.lookup Q "AAPL" (server.PriceCache._cache Q self)
               = Some (187, 0 + 30)) by reflexivity.
  assert (H3 : 0 + 30 <= 30) by discriminate.
  split; [exact H1|]. split; [exact H2|]. split; [exact H3|].
  destruct (cache_expired_entry_is_dropped Q 30 "AAPL" 187 (0 + 30) self H1 H2 H3)
    as [self' [Hget [Hgone _]]].
  exists self'. split; [exact Hget|exact Hgone].
Defined.

(** ** The daily aggregation *)

Lemma all_scores_returns (fromisoformat : string -> option datetime)
  (holdings : list Holding) (balance : Q) (checklists : list Checklist)
  (transactions : list Transaction) (mentor_triggers : list MentorTrigger)
  (history : list DailyScore) (active_days trade_count : nat) :
  exists scores,
    scoring_engine.compute_all_scores fromisoformat holdings balance checklists
      transactions mentor_triggers history active_days trade_count = Ret scores /\
    Forall (fun v => 0 <= v /\ v <= 100) (all_scores scores).
Proof.
  unfold scoring_engine.compute_all_scores.
  destruct (risk_in_range holdings balance) as [r [-> [Hr0 Hr1]]].
  destruct (discipline_in_range checklists trade_count) as [d [-> [Hd0 Hd1]]].
  destruct (strategy_in_range fromisoformat transactions) as [s [-> [Hs0 Hs1]]].
  destruct (psychology_in_range mentor_triggers) as [p [-> [Hp0 Hp1]]].
  destruct (consistency_in_range history active_days 30) as [c [-> [Hc0 Hc1]]].
  cbn [pybind]. eexists. split; [reflexivity|].
  unfold all_scores.
  cbn [scoring_engine.as_risk scoring_engine.as_discipline scoring_engine.as_strategy
       scoring_engine.as_psychology scoring_engine.as_consistency].
  repeat constructor; apply round1_range; assumption.
Qed.

Lemma prefixed_inj (prefix a b : string) :
  (prefix ++ a)%string = (prefix ++ b)%string -> a = b.
Proof.
  induction prefix as [|c prefix IH]; cbn; intros H; [exact H|].
  injection H as H. exact (IH H).
Qed.

Section DailyUpsert.

Variable isoformat : datetime -> string.

(** The row [upsert_daily_score] leaves for the date. *)
Lemma upsert_daily_score_run (date : string) (r d s p c : Q) (trade_count : nat)
  (active_day : bool) (now : datetime) (db : Database) :
  daily_scores_ok (db_daily_scores db) ->
  exists rows row,
    database.upsert_daily_score isoformat ("ds-" ++ date) date r d s p c trade_count
      active_day now db = (Ret tt, with_daily_scores rows db) /\
    daily_scores_ok rows /\
    scores_of_date date rows = [row] /\
    row_scores row = [r; d; s; p; c] /\
    scores_of_other_dates date rows = scores_of_other_dates date (db_daily_scores db).
Proof.
  intros [Hnd Hid]. unfold database.upsert_daily_score. cbv zeta.
  set (rows := db_daily_scores db) in *. clearbody rows.
  destruct (existsb (fun x => String.eqb (ds_date x) date) rows) eqn:Eex.
  - set (upd := fun x : DailyScore =>
                  if String.eqb (ds_date x) date
                  then mkDailyScore (ds_id x) date r d s p c trade_count active_day
                         (isoformat now)
                  else x).
    assert (Hdate : forall x, ds_date (upd x) = ds_date x).
    { intros x. unfold upd. destruct (String.eqb_spec (ds_date x) date) as [E|E];
        [symmetry; exact E|reflexivity]. }
    assert (Hidx : forall x, ds_id (upd x) = ds_id x).
    { intros x. unfold upd. destruct (String.eqb (ds_date x) date); reflexivity. }
    assert (Hother : scores_of_other_dates date (map upd rows)
                     = scores_of_other_dates date rows).
    { unfold scores_of_other_dates. clear Hnd Hid Eex.
      induction rows as [|x rows IH]; [reflexivity|].
      cbn [map filter]. rewrite Hdate.
      destruct (String.eqb (ds_date x) date) eqn:E; cbn [negb]; [exact IH|].
      rewrite IH. unfold upd at 1. rewrite E. reflexivity. }
    assert (Hsame : exists row, scores_of_date date (map upd rows) = [row] /\
                                row_scores row = [r; d; s; p; c]).
    { unfold scores_of_date. clear Hid Hother.
      induction rows as [|x rows IH]; [discriminate|].
      cbn [map filter existsb] in *. rewrite Hdate.
      inversion Hnd as [|? ? Hx Hrest]; subst.
      destruct (String.eqb_spec (ds_date x) date) as [E|E].
      - exists (upd x). split.
        + f_equal.
          assert (Hnone : forall l, ~ In date (map ds_date l) ->
                                    filter (fun y => String.eqb (ds_date y) date)
                                      (map upd l) = []).
          { induction l as [|y l IHl]; intros Hn; [reflexivity|].
            cbn [map filter]. rewrite Hdate.
            destruct (String.eqb_spec (ds_date y) date) as [Ey|Ey].
            - exfalso. apply Hn. left. exact Ey.
            - apply IHl. intros Hin. apply Hn. right. exact Hin. }
          apply Hnone. rewrite <- E. exact Hx.
        + unfold upd. rewrite <- E, String.eqb_refl. reflexivity.
      - cbn [orb] in Eex. exact (IH Hrest Eex). }
    destruct Hsame as [row [Hrow Hscores]].
    exists (map upd rows), row. split; [reflexivity|].
    split; [|split; [exact Hrow|split; [exact Hscores|exact Hother]]].
    split.
    + rewrite map_map. rewrite (map_ext _ ds_date Hdate). exact Hnd.
    + apply Forall_map. apply Forall_impl with (2 := Hid).
      intros x Hx. rewrite Hidx, Hdate. exact Hx.
  - assert (Hnone : forall x, In x rows -> ds_date x <> date).
    { intros x Hx E. apply Bool.not_true_iff_false in Eex. apply Eex.
      apply existsb_exists. exists x. split; [exact Hx|]. apply String.eqb_eq. exact E. }
    assert (Eid : existsb (fun x => String.eqb (ds_id x) ("ds-" ++ date)) rows = false).
    { apply Bool.not_true_iff_false. intros Hex. apply existsb_exists in Hex.
      destruct Hex as [x [Hx E]]. apply String.eqb_eq in E.
      rewrite Forall_forall in Hid. rewrite (Hid x Hx) in E.
      apply prefixed_inj in E. exact (Hnone x Hx E). }
    rewrite Eid.
    set (new := mkDailyScore ("ds-" ++ date) date r d s p c trade_count active_day
                  (isoformat now)).
    assert (Hf1 : scores_of_date date rows = []).
    { unfold scores_of_date. clear - Hnone. induction rows as [|x rows IH]; [reflexivity|].
      cbn [filter]. destruct (String.eqb_spec (ds_date x) date) as [E|E].
      - exfalso. exact (Hnone x (or_introl eq_refl) E).
      - apply IH. intros y Hy. apply Hnone. right. exact Hy. }
    exists (rows ++ [new]), new. split; [reflexivity|].
    split; [|split; [|split]].
    + split.
      * rewrite map_app. apply NoDup_snoc; [exact Hnd|].
        intros Hin. apply in_map_iff in Hin. destruct Hin as [x [E Hx]].
        exact (Hnone x Hx E).
      * apply Forall_app. split; [exact Hid|]. constructor; [reflexivity|constructor].
    + unfold scores_of_date in *. rewrite filter_app, Hf1. cbn [filter new ds_date app].
      rewrite String.eqb_refl. reflexivity.
    + reflexivity.
    + unfold scores_of_other_dates. rewrite filter_app. cbn [filter new ds_date].
      rewrite String.eqb_refl. cbn [negb]. apply app_nil_r.
Qed.

End DailyUpsert.

(** *** The badge rows *)

Lemma with_badges_twice (rows rows' : list Badge) (db : Database) :
  with_badges rows' (with_badges rows db) = with_badges rows' db.
Proof.
  reflexivity.
Qed.

Lemma upsert_badge_run (badge_type : string) (earned active : bool)
  (qualifying_days : nat) (first_earned_at : option string) (updated_at : string)
  (db : Database) :
  badges_ok (db_badges db) ->
  exists rows,
    database.upsert_badge ("badge-" ++ badge_type) badge_type earned active
      qualifying_days first_earned_at updated_at db
    = (Ret tt, with_badges rows db) /\
    badges_ok rows /\
    In badge_type (map b_badge_type rows) /\
    (forall ty, In ty (map b_badge_type (db_badges db)) -> In ty (map b_badge_type rows)).
Proof.
  intros [Hnd Hid]. unfold database.upsert_badge. cbv zeta.
  set (rows := db_badges db) in *. clearbody rows.
  destruct (existsb (fun x => String.eqb (b_badge_type x) badge_type) rows) eqn:Eex.
  - match goal with
    | |- context [with_badges (map ?g rows) db] => set (upd := g)
    end.
    assert (Hty : forall x, b_badge_type (upd x) = b_badge_type x).
    { intros x. unfold upd. destruct (String.eqb_spec (b_badge_type x) badge_type) as [E|E];
        [symmetry; exact E|reflexivity]. }
    assert (Hidx : forall x, b_id (upd x) = b_id x).
    { intros x. unfold upd. destruct (String.eqb (b_badge_type x) badge_type); reflexivity. }
    assert (Htypes : map b_badge_type (map upd rows) = map b_badge_type rows).
    { rewrite map_map. apply map_ext. exact Hty. }
    exists (map upd rows). split; [reflexivity|].
    split; [split|split].
    + rewrite Htypes. exact Hnd.
    + apply Forall_map. apply Forall_impl with (2 := Hid).
      intros x Hx. rewrite Hidx, Hty. exact Hx.
    + rewrite Htypes. apply existsb_exists in Eex. destruct Eex as [x [Hx E]].
      apply String.eqb_eq in E. rewrite <- E. apply in_map. exact Hx.
    + intros ty Hin. rewrite Htypes. exact Hin.
  - assert (Hnone : forall x, In x rows -> b_badge_type x <> badge_type).
    { intros x Hx E. apply Bool.not_true_iff_false in Eex. apply Eex.
      apply existsb_exists. exists x. split; [exact Hx|]. apply String.eqb_eq. exact E. }
    assert (Eid : existsb (fun x => String.eqb (b_id x) ("badge-" ++ badge_type)) rows
                  = false).
    { apply Bool.not_true_iff_false. intros Hex. apply existsb_exists in Hex.
      destruct Hex as [x [Hx E]]. apply String.eqb_eq in E.
      rewrite Forall_forall in Hid. rewrite (Hid x Hx) in E.
      apply prefixed_inj in E. exact (Hnone x Hx E). }
    rewrite Eid. eexists. split; [reflexivity|].
    split; [split|split].
    + rewrite map_app. apply NoDup_snoc; [exact Hnd|].
      intros Hin. apply in_map_iff in Hin. destruct Hin as [x [E Hx]].
      exact (Hnone x Hx E).
    + apply Forall_app. split; [exact Hid|]. constructor; [reflexivity|constructor].
    + rewrite map_app. apply in_or_app. right. left. reflexivity.
    + intros ty Hin. rewrite map_app. apply in_or_app. left. exact Hin.
Qed.

(** The loop of the aggregator over the badge results. *)
Lemma upsert_badges_run (now_s : string) (results : list scoring_engine.BadgeResult)
  (db : Database) :
  badges_ok (db_badges db) ->
  exists rows,
    for_each results
      (fun b =>
         database.upsert_badge ("badge-" ++ scoring_engine.br_badge_type b)
           (scoring_engine.br_badge_type b) (scoring_engine.br_earned b)
           (scoring_engine.br_active b) (scoring_engine.br_qualifying_days b)
           (if scoring_engine.br_earned b then Some now_s else None) now_s) db
    = (Ret tt, with_badges rows db) /\
    badges_ok rows /\
    (forall b, In b results -> In (scoring_engine.br_badge_type b) (map b_badge_type rows)) /\
    (forall ty, In ty (map b_badge_type (db_badges db)) -> In ty (map b_badge_type rows)).
Proof.
  revert db. induction results as [|b rest IH]; intros db Hok.
  - exists (db_badges db). split; [destruct db; reflexivity|].
    split; [exact Hok|]. split; [intros b []|auto].
  - cbn [for_each]. unfold dbind.
    destruct (upsert_badge_run (scoring_engine.br_badge_type b)
                (scoring_engine.br_earned b) (scoring_engine.br_active b)
                (scoring_engine.br_qualifying_days b)
                (if scoring_engine.br_earned b then Some now_s else None) now_s db Hok)
      as [rows1 [Hrun [Hok1 [Hin1 Hkeep1]]]].
    rewrite Hrun.
    destruct (IH (with_badges rows1 db)) as [rows2 [Hrun2 [Hok2 [Hin2 Hkeep2]]]];
      [exact Hok1|].
    rewrite Hrun2, with_badges_twice. cbn [db_badges with_badges] in Hkeep2.
    exists rows2. split; [reflexivity|]. split; [exact Hok2|]. split.
    + intros b' [<-|Hb']; [apply Hkeep2; exact Hin1|apply Hin2; exact Hb'].
    + intros ty Hty. apply Hkeep2. apply Hkeep1. exact Hty.
Qed.

Section Aggregation.

Variable fromisoformat : string -> option datetime.
Variable isoformat date_isoformat : datetime -> string.

(** X27. On tables of daily scores and badges as the aggregator writes them
    (one row per date with the id [ds-<date>], one row per badge type with
    the id [badge-<type>]), a run of the aggregator returns, and leaves the
    tables in that shape: exactly one row has the date of the run, with the
    five scores returned, each between 0 and 100; the rows of the other
    dates are as before; every badge type has a row; the other tables are
    untouched. *)
Theorem aggregator_keeps_one_row_per_date (now : datetime) (db : Database) :
  daily_scores_ok (db_daily_scores db) ->
  badges_ok (db_badges db) ->
  exists scores badge_results db' row,
    server._compute_daily_scores_internal fromisoformat isoformat date_isoformat now db
    = (Ret (scores, badge_results), db') /\
    daily_scores_ok (db_daily_scores db') /\
    badges_ok (db_badges db') /\
    scores_of_date (date_isoformat (date_of now)) (db_daily_scores db') = [row] /\
    row_scores row = all_scores scores /\
    Forall (fun v => 0 <= v /\ v <= 100) (all_scores scores) /\
    scores_of_other_dates (date_isoformat (date_of now)) (db_daily_scores db')
    = scores_of_other_dates (date_isoformat (date_of now)) (db_daily_scores db) /\
    (forall entry, In entry scoring_engine.BADGE_DEFINITIONS ->
                   In (fst entry) (map b_badge_type (db_badges db'))) /\
    read_only_tables db' = read_only_tables db.
Proof.
  intros Hds Hb. unfold server._compute_daily_scores_internal. cbv zeta.
  unfold dbind at 1. unfold database.get_transactions at 1, query at 1.
  unfold dbind at 1. unfold database.get_holdings at 1, query at 1.
  unfold dbind at 1. unfold database.get_portfolio at 1, query at 1.
  unfold dbind at 1. unfold database.get_checklists_raw at 1, query at 1.
  unfold dbind at 1. unfold database.get_mentor_triggers_raw at 1, query at 1.
  unfold dbind at 1. unfold database.get_daily_scores at 1, query at 1.
  unfold dbind at 1. unfold lift at 1.
  match goal with
  | |- context [scoring_engine.compute_all_scores ?f ?h ?b ?c ?t ?m ?d ?a ?n] =>
      destruct (all_scores_returns f h b c t m d a n) as [scores [Hscores Hrange]];
      rewrite Hscores
  end.
  unfold dbind at 1.
  match goal with
  | |- context [database.upsert_daily_score isoformat ?i ?date ?r ?d ?s ?p ?c ?tc ?ad now db] =>
      destruct (upsert_daily_score_run isoformat date r d s p c tc ad now db Hds)
        as [rows [row [Hup [Hds' [Hrow [Hrs Hother]]]]]];
      rewrite Hup
  end.
  unfold dbind at 1. unfold database.get_daily_scores at 1, query at 1.
  unfold dbind at 1.
  match goal with
  | |- context [for_each ?results _ (with_daily_scores rows db)] =>
      destruct (upsert_badges_run (isoformat now) results (with_daily_scores rows db) Hb)
        as [badges [Hrun [Hb' [Hin _]]]];
      set (badge_results := results) in *
  end.
  rewrite Hrun. unfold dret.
  exists scores, badge_results, (with_badges badges (with_daily_scores rows db)), row.
  split; [reflexivity|].
  cbn [db_daily_scores db_badges with_badges with_daily_scores].
  split; [exact Hds'|]. split; [exact Hb'|]. split; [exact Hrow|].
  split; [exact Hrs|]. split; [exact Hrange|]. split; [exact Hother|].
  split; [|reflexivity].
  intros entry Hentry.
  unfold badge_results, scoring_engine.evaluate_badges in Hin.
  pose proof (Hin _ (in_map _ _ _ Hentry)) as H.
  destruct entry as [ty defn]. exact H.
Qed.

End Aggregation.

Lemma aggregator_witness :
  daily_scores_ok (db_daily_scores sample_badge_db) /\
  badges_ok (db_badges sample_badge_db) /\
  exists scores badge_results db' row,
    sample_aggregator sample_now sample_badge_db = (Ret (scores, badge_results), db') /\
    scores_of_date (sample_date_isoformat (date_of sample_now)) (db_daily_scores db')
    = [row] /\
    row_scores row = all_scores scores.
Proof.
  assert (H1 : daily_scores_ok (db_daily_scores sample_badge_db))
    by (split; constructor).
  assert (H2 : badges_ok (db_badges sample_badge_db)).
  { split; [repeat constructor; intros []|repeat constructor]. }
  split; [exact H1|]. split; [exact H2|].
  destruct (aggregator_keeps_one_row_per_date sample_fromisoformat sample_isoformat
              sample_date_isoformat sample_now sample_badge_db H1 H2)
    as [scores [badge_results [db' [row [Hrun [_ [_ [Hrow [Hrs _]]]]]]]]].
  exists scores, badge_results, db', row.
  split; [exact Hrun|]. split; [exact Hrow|exact Hrs].
Defined.

(** ** Checklist statistics *)




Section ChecklistStatsFacts.

Variable isoformat : datetime -> string.


End ChecklistStatsFacts.
